(** * gst-siddecfp: the streaming state machine of the SID decoder element

    A shallow embedding of [gst-plugin/gstsiddecfp.cc]: the unit converter
    ([gst_siddecfp_src_convert]), the ingest path ([gst_siddecfp_chain]),
    format negotiation ([siddecfp_negotiate]), the session builder
    ([create_builder], [start_play_tune]), the production loop ([play_loop])
    and the ROM properties ([copy_byte_array], [gst_siddecfp_set_property]).

    C integers are modelled as [Z] with the conversions of the C code written
    out.  Calls into GStreamer and libsidplayfp are effects: what the element
    asks of them is recorded in a trace of [Action]s, and what they answer is
    an explicit argument of the function that makes the call. *)

From Stdlib Require Import ZArith List String Bool Lia.
From Stdlib Require Import Floats.SpecFloat.
From Stdlib Require Init.Byte.
From Stdlib Require Import Sorting.Permutation.
Import ListNotations.

#[local] Open Scope string_scope.
#[local] Open Scope list_scope.
#[local] Open Scope Z_scope.

(** ** Machine integers *)

Module CInt.

Definition G_MAXUINT : Z := 2 ^ 32 - 1.
Definition G_MAXUINT64 : Z := 2 ^ 64 - 1.

(** Conversion to [guint] / [uint_least32_t]. *)
Definition to_guint (z : Z) : Z := z mod 2 ^ 32.
(** Conversion to [gint]. *)
Definition to_gint (z : Z) : Z := (z + 2 ^ 31) mod 2 ^ 32 - 2 ^ 31.
(** Conversion to [guint64]. *)
Definition to_guint64 (z : Z) : Z := z mod 2 ^ 64.
(** Conversion to [gint64]. *)
Definition to_gint64 (z : Z) : Z := (z + 2 ^ 63) mod 2 ^ 64 - 2 ^ 63.

End CInt.
Import CInt.

(** ** GStreamer and libsidplayfp values the element uses

    The enumerations, constants and helpers of this part are not the
    element's own: they are those of the GStreamer and libsidplayfp headers
    it is compiled against, written down as these libraries document
    them. *)

(** [GstFormat], in the order of its enumeration. *)
Inductive GstFormat :=
| GST_FORMAT_UNDEFINED
| GST_FORMAT_DEFAULT
| GST_FORMAT_BYTES
| GST_FORMAT_TIME
| GST_FORMAT_BUFFERS
| GST_FORMAT_PERCENT.

Definition GstFormat_eqb (a b : GstFormat) : bool :=
  match a, b with
  | GST_FORMAT_UNDEFINED, GST_FORMAT_UNDEFINED
  | GST_FORMAT_DEFAULT, GST_FORMAT_DEFAULT
  | GST_FORMAT_BYTES, GST_FORMAT_BYTES
  | GST_FORMAT_TIME, GST_FORMAT_TIME
  | GST_FORMAT_BUFFERS, GST_FORMAT_BUFFERS
  | GST_FORMAT_PERCENT, GST_FORMAT_PERCENT => true
  | _, _ => false
  end.

(** [GST_SECOND], nanoseconds. *)
Definition GST_SECOND : Z := 1000000000.

(** [gst_util_uint64_scale_int (val, num, denom)] of GStreamer: [val * num /
    denom] without intermediate overflow, rounded down; [G_MAXUINT64] when
    the result does not fit 64 bits, and when [denom <= 0] or [num < 0]
    (its [g_return_val_if_fail] guards). *)
Definition gst_util_uint64_scale_int (val num denom : Z) : Z :=
  if denom <=? 0 then G_MAXUINT64
  else if num <? 0 then G_MAXUINT64
  else
    let r := val * num / denom in
    if r >? G_MAXUINT64 then G_MAXUINT64 else r.

(** [SidConfig::playback_t]. *)
Definition MONO : Z := 1.
Definition STEREO : Z := 2.

(** [SidConfig::sid_model_t], [c64_model_t], [cia_model_t],
    [sampling_method_t] are carried as their integer values. *)
Definition MOS6581 : Z := 0.
Definition PAL : Z := 0.
Definition MOS6526 : Z := 0.
Definition INTERPOLATE : Z := 0.

(** [SidDecFpEmulation] (gstsiddecfp.h). *)
Definition SIDDECFP_EMULATION_RESIDFP : Z := 0.
Definition SIDDECFP_EMULATION_RESID : Z := 1.

(** A [gdouble]: an IEEE 754 binary64 value.  The element stores such values
    and hands them on; it computes nothing with them. *)
Definition gdouble : Set := spec_float.

(** A [sidbuilder] as the element configures it. *)
Inductive sidbuilder :=
| ReSIDfpBuilder (filter6581Curve filter8580Curve : gdouble)
| ReSIDBuilder (bias : gdouble).

(** The fields of [SidConfig] the element reads or writes. *)
Record SidConfig := mkSidConfig {
  defaultC64Model : Z;
  forceC64Model : bool;
  defaultSidModel : Z;
  forceSidModel : bool;
  digiBoost : bool;
  ciaModel : Z;
  playback : Z;               (* playback_t *)
  frequency : Z;              (* uint_least32_t *)
  sidEmulation : option sidbuilder;
  samplingMethod : Z
}.

Definition GByteArray := list Byte.byte.

(** [struct _GstSidDecFp] (gstsiddecfp.h).  [player] and [tune] live in
    libsidplayfp; see [Action]. *)
Record GstSidDecFp := mkGstSidDecFp {
  have_group_id : bool;
  group_id : Z;               (* guint *)
  tune_buffer : list Byte.byte;
  tune_len : Z;               (* gint *)
  tune_number : Z;            (* gint *)
  total_bytes : Z;            (* guint64 *)
  emulation : Z;              (* SidDecFpEmulation *)
  config : SidConfig;
  filter : bool;
  filter_curve_6581 : gdouble;
  filter_curve_8580 : gdouble;
  filter_bias : gdouble;
  kernal : option GByteArray;
  basic : option GByteArray;
  chargen : option GByteArray;
  blocksize : Z               (* guint *)
}.

(** ** Unit converter *)

(** [gst_siddecfp_src_convert]: [Some v] when the C function returns [TRUE]
    with [*dest_value = v], [None] when it returns [FALSE]. *)
Definition gst_siddecfp_src_convert (siddecfp : GstSidDecFp)
    (src_format : GstFormat) (src_value : Z) (dest_format : GstFormat)
    : option Z :=
  if GstFormat_eqb src_format dest_format then Some src_value
  else
    let bytes_per_sample :=
      to_gint (Z.shiftr 16 3 * playback (config siddecfp)) in
    match src_format with
    | GST_FORMAT_BYTES =>
        match dest_format with
        | GST_FORMAT_DEFAULT =>
            if bytes_per_sample =? 0 then None
            else Some (to_gint64 (Z.quot src_value bytes_per_sample))
        | GST_FORMAT_TIME =>
            let byterate :=
              to_gint (to_guint (to_guint bytes_per_sample
                                 * frequency (config siddecfp))) in
            if byterate =? 0 then None
            else Some (to_gint64 (gst_util_uint64_scale_int
                                    (to_guint64 src_value) GST_SECOND byterate))
        | _ => None
        end
    | GST_FORMAT_DEFAULT =>
        match dest_format with
        | GST_FORMAT_BYTES => Some (to_gint64 (src_value * bytes_per_sample))
        | GST_FORMAT_TIME =>
            if frequency (config siddecfp) =? 0 then None
            else Some (to_gint64 (gst_util_uint64_scale_int
                                    (to_guint64 src_value) GST_SECOND
                                    (to_gint (frequency (config siddecfp)))))
        | _ => None
        end
    | GST_FORMAT_TIME =>
        let convert_with (scale : Z) :=
          Some (to_gint64 (gst_util_uint64_scale_int
                  (to_guint64 src_value)
                  (to_gint (to_guint (scale * frequency (config siddecfp))))
                  GST_SECOND)) in
        match dest_format with
        | GST_FORMAT_BYTES => convert_with (to_guint bytes_per_sample)
        | GST_FORMAT_DEFAULT => convert_with 1
        | _ => None
        end
    | _ => None
    end.

(** BYTES to TIME and the result back from TIME to BYTES. *)
Definition bytes_time_bytes (siddecfp : GstSidDecFp) (value : Z) : option Z :=
  match gst_siddecfp_src_convert siddecfp GST_FORMAT_BYTES value
          GST_FORMAT_TIME with
  | Some time =>
      gst_siddecfp_src_convert siddecfp GST_FORMAT_TIME time GST_FORMAT_BYTES
  | None => None
  end.

(** ** Buffers, events and the trace of calls *)

(** [GstFlowReturn], as the integer values of GStreamer's enumeration
    (gstpad.h): successes above 0, expected failures -1 and -2, errors from
    -3 down. *)
Definition GstFlowReturn := Z.
Definition GST_FLOW_CUSTOM_SUCCESS : GstFlowReturn := 100.
Definition GST_FLOW_OK : GstFlowReturn := 0.
Definition GST_FLOW_NOT_LINKED : GstFlowReturn := -1.
Definition GST_FLOW_FLUSHING : GstFlowReturn := -2.
Definition GST_FLOW_EOS : GstFlowReturn := -3.
Definition GST_FLOW_NOT_NEGOTIATED : GstFlowReturn := -4.
Definition GST_FLOW_ERROR : GstFlowReturn := -5.
Definition GST_FLOW_NOT_SUPPORTED : GstFlowReturn := -6.
Definition GST_FLOW_CUSTOM_ERROR : GstFlowReturn := -100.

(** [GST_BUFFER_OFFSET_NONE] and [GST_CLOCK_TIME_NONE]. *)
Definition GST_BUFFER_OFFSET_NONE : Z := G_MAXUINT64.
Definition GST_CLOCK_TIME_NONE : Z := G_MAXUINT64.

(** The fields of a [GstBuffer] the element sets; all are [guint64] but
    the size.  The sample data itself is the emulator's. *)
Record GstBuffer := mkGstBuffer {
  buffer_size : Z;
  GST_BUFFER_TIMESTAMP : Z;
  GST_BUFFER_DURATION : Z;
  GST_BUFFER_OFFSET : Z;
  GST_BUFFER_OFFSET_END : Z
}.

Definition gst_buffer_new_and_alloc (size : Z) : GstBuffer :=
  {| buffer_size := size;
     GST_BUFFER_TIMESTAMP := GST_CLOCK_TIME_NONE;
     GST_BUFFER_DURATION := GST_CLOCK_TIME_NONE;
     GST_BUFFER_OFFSET := GST_BUFFER_OFFSET_NONE;
     GST_BUFFER_OFFSET_END := GST_BUFFER_OFFSET_NONE |}.

Definition set_TIMESTAMP (out : GstBuffer) (v : Z) : GstBuffer :=
  {| buffer_size := buffer_size out;
     GST_BUFFER_TIMESTAMP := v;
     GST_BUFFER_DURATION := GST_BUFFER_DURATION out;
     GST_BUFFER_OFFSET := GST_BUFFER_OFFSET out;
     GST_BUFFER_OFFSET_END := GST_BUFFER_OFFSET_END out |}.

Definition set_DURATION (out : GstBuffer) (v : Z) : GstBuffer :=
  {| buffer_size := buffer_size out;
     GST_BUFFER_TIMESTAMP := GST_BUFFER_TIMESTAMP out;
     GST_BUFFER_DURATION := v;
     GST_BUFFER_OFFSET := GST_BUFFER_OFFSET out;
     GST_BUFFER_OFFSET_END := GST_BUFFER_OFFSET_END out |}.

Definition set_OFFSET (out : GstBuffer) (v : Z) : GstBuffer :=
  {| buffer_size := buffer_size out;
     GST_BUFFER_TIMESTAMP := GST_BUFFER_TIMESTAMP out;
     GST_BUFFER_DURATION := GST_BUFFER_DURATION out;
     GST_BUFFER_OFFSET := v;
     GST_BUFFER_OFFSET_END := GST_BUFFER_OFFSET_END out |}.

Definition set_OFFSET_END (out : GstBuffer) (v : Z) : GstBuffer :=
  {| buffer_size := buffer_size out;
     GST_BUFFER_TIMESTAMP := GST_BUFFER_TIMESTAMP out;
     GST_BUFFER_DURATION := GST_BUFFER_DURATION out;
     GST_BUFFER_OFFSET := GST_BUFFER_OFFSET out;
     GST_BUFFER_OFFSET_END := v |}.

(** The events the element sends from its source pad. *)
Inductive GstEvent :=
| stream_start (stream_id : string) (group : option Z)
| segment (format : GstFormat)
| tag (list_ : list (string * string))
| eos.

(** What the element asks of libsidplayfp, GLib and GStreamer, in the order
    it asks. *)
Inductive Action :=
| tune_read (data : list Byte.byte) (len : Z)
| tune_selectSong (song : Z)
| player_load
| player_config (cfg : SidConfig)
| player_play (count : Z)
| player_setKernal (rom : GByteArray)
| player_setBasic (rom : GByteArray)
| player_setChargen (rom : GByteArray)
| builder_delete (b : sidbuilder)
| builder_new (name : string)
| builder_create (sids : Z)
| builder_filter (enable : bool)
| g_byte_array_free (a : GByteArray)
| gst_pad_get_allowed_caps
| gst_pad_push_event (e : GstEvent)
| gst_pad_set_caps (format : string) (layout : string) (rate channels : Z)
| gst_pad_push (out : GstBuffer)
| gst_pad_start_task
| gst_pad_pause_task
| GST_ELEMENT_ERROR (domain code text : string)
| GST_ELEMENT_FLOW_ERROR (ret : GstFlowReturn)
| G_OBJECT_WARN_INVALID_PROPERTY_ID.

(** ** Field updates of [GstSidDecFp] *)

Definition set_config (s : GstSidDecFp) (c : SidConfig) : GstSidDecFp :=
  mkGstSidDecFp (have_group_id s) (group_id s) (tune_buffer s) (tune_len s)
    (tune_number s) (total_bytes s) (emulation s) c (filter s)
    (filter_curve_6581 s) (filter_curve_8580 s) (filter_bias s)
    (kernal s) (basic s) (chargen s) (blocksize s).

Definition set_group (s : GstSidDecFp) (have : bool) (id : Z) : GstSidDecFp :=
  mkGstSidDecFp have id (tune_buffer s) (tune_len s)
    (tune_number s) (total_bytes s) (emulation s) (config s) (filter s)
    (filter_curve_6581 s) (filter_curve_8580 s) (filter_bias s)
    (kernal s) (basic s) (chargen s) (blocksize s).

Definition set_tune (s : GstSidDecFp) (buf : list Byte.byte) (len : Z)
    : GstSidDecFp :=
  mkGstSidDecFp (have_group_id s) (group_id s) buf len
    (tune_number s) (total_bytes s) (emulation s) (config s) (filter s)
    (filter_curve_6581 s) (filter_curve_8580 s) (filter_bias s)
    (kernal s) (basic s) (chargen s) (blocksize s).

Definition set_total_bytes (s : GstSidDecFp) (n : Z) : GstSidDecFp :=
  mkGstSidDecFp (have_group_id s) (group_id s) (tune_buffer s) (tune_len s)
    (tune_number s) n (emulation s) (config s) (filter s)
    (filter_curve_6581 s) (filter_curve_8580 s) (filter_bias s)
    (kernal s) (basic s) (chargen s) (blocksize s).

Definition set_frequency (c : SidConfig) (f : Z) : SidConfig :=
  mkSidConfig (defaultC64Model c) (forceC64Model c) (defaultSidModel c)
    (forceSidModel c) (digiBoost c) (ciaModel c) (playback c) f
    (sidEmulation c) (samplingMethod c).

Definition set_playback (c : SidConfig) (p : Z) : SidConfig :=
  mkSidConfig (defaultC64Model c) (forceC64Model c) (defaultSidModel c)
    (forceSidModel c) (digiBoost c) (ciaModel c) p (frequency c)
    (sidEmulation c) (samplingMethod c).

Definition set_sidEmulation (c : SidConfig) (b : option sidbuilder)
    : SidConfig :=
  mkSidConfig (defaultC64Model c) (forceC64Model c) (defaultSidModel c)
    (forceSidModel c) (digiBoost c) (ciaModel c) (playback c) (frequency c)
    b (samplingMethod c).

(** ** Tune ingest: [gst_siddecfp_chain] *)

Definition DEFAULT_BLOCKSIZE : Z := 4096.
Definition MAX_SID_TUNE_BUF_SIZE : Z := 8 * DEFAULT_BLOCKSIZE.

(** [gst_buffer_extract (buffer, 0, dest + off, size)] with
    [size = gst_buffer_get_size (buffer)]: the bytes of [buffer] over
    [dest] from [off] on. *)
Definition gst_buffer_extract (dest : list Byte.byte) (off : Z)
    (buffer : list Byte.byte) : list Byte.byte :=
  firstn (Z.to_nat off) dest ++ buffer
    ++ skipn (Z.to_nat off + List.length buffer) dest.

Definition gst_siddecfp_chain (siddecfp : GstSidDecFp)
    (buffer : list Byte.byte) : GstFlowReturn * GstSidDecFp * list Action :=
  let size := Z.of_nat (List.length buffer) in          (* guint64 *)
  if to_guint64 (to_guint64 (tune_len siddecfp) + size)
       >? MAX_SID_TUNE_BUF_SIZE
  then
    (GST_FLOW_ERROR, siddecfp,
     [GST_ELEMENT_ERROR "STREAM" "DECODE"
        "Input data bigger than allowed buffer size"])
  else
    (GST_FLOW_OK,
     set_tune siddecfp
       (gst_buffer_extract (tune_buffer siddecfp) (tune_len siddecfp) buffer)
       (to_gint (to_guint64 (to_guint64 (tune_len siddecfp) + size))),
     []).

(** The chunks of a stream pushed one after the other; every call's result
    is kept. *)
Fixpoint chain_all (siddecfp : GstSidDecFp) (chunks : list (list Byte.byte))
    : list GstFlowReturn * GstSidDecFp :=
  match chunks with
  | [] => ([], siddecfp)
  | buffer :: rest =>
      let '(ret, siddecfp', _) := gst_siddecfp_chain siddecfp buffer in
      let '(rets, final) := chain_all siddecfp' rest in
      (ret :: rets, final)
  end.

Definition total_size (chunks : list (list Byte.byte)) : Z :=
  fold_right (fun buffer acc => Z.of_nat (List.length buffer) + acc) 0 chunks.

(** ** Format negotiation: [siddecfp_negotiate] *)

(** The raw audio formats of [GstAudioFormat] (GStreamer, audio-format.h)
    and their names for [gst_audio_format_from_string]; a name it does not
    know gives [GST_AUDIO_FORMAT_UNKNOWN]. *)
Inductive GstAudioFormat :=
| GST_AUDIO_FORMAT_UNKNOWN | GST_AUDIO_FORMAT_ENCODED
| GST_AUDIO_FORMAT_S8 | GST_AUDIO_FORMAT_U8
| GST_AUDIO_FORMAT_S16LE | GST_AUDIO_FORMAT_S16BE
| GST_AUDIO_FORMAT_U16LE | GST_AUDIO_FORMAT_U16BE
| GST_AUDIO_FORMAT_S24_32LE | GST_AUDIO_FORMAT_S24_32BE
| GST_AUDIO_FORMAT_U24_32LE | GST_AUDIO_FORMAT_U24_32BE
| GST_AUDIO_FORMAT_S32LE | GST_AUDIO_FORMAT_S32BE
| GST_AUDIO_FORMAT_U32LE | GST_AUDIO_FORMAT_U32BE
| GST_AUDIO_FORMAT_S24LE | GST_AUDIO_FORMAT_S24BE
| GST_AUDIO_FORMAT_U24LE | GST_AUDIO_FORMAT_U24BE
| GST_AUDIO_FORMAT_S20LE | GST_AUDIO_FORMAT_S20BE
| GST_AUDIO_FORMAT_U20LE | GST_AUDIO_FORMAT_U20BE
| GST_AUDIO_FORMAT_S18LE | GST_AUDIO_FORMAT_S18BE
| GST_AUDIO_FORMAT_U18LE | GST_AUDIO_FORMAT_U18BE
| GST_AUDIO_FORMAT_F32LE | GST_AUDIO_FORMAT_F32BE
| GST_AUDIO_FORMAT_F64LE | GST_AUDIO_FORMAT_F64BE.

Definition audio_format_names : list (string * GstAudioFormat) :=
  [ ("S8", GST_AUDIO_FORMAT_S8); ("U8", GST_AUDIO_FORMAT_U8);
    ("S16LE", GST_AUDIO_FORMAT_S16LE); ("S16BE", GST_AUDIO_FORMAT_S16BE);
    ("U16LE", GST_AUDIO_FORMAT_U16LE); ("U16BE", GST_AUDIO_FORMAT_U16BE);
    ("S24_32LE", GST_AUDIO_FORMAT_S24_32LE);
    ("S24_32BE", GST_AUDIO_FORMAT_S24_32BE);
    ("U24_32LE", GST_AUDIO_FORMAT_U24_32LE);
    ("U24_32BE", GST_AUDIO_FORMAT_U24_32BE);
    ("S32LE", GST_AUDIO_FORMAT_S32LE); ("S32BE", GST_AUDIO_FORMAT_S32BE);
    ("U32LE", GST_AUDIO_FORMAT_U32LE); ("U32BE", GST_AUDIO_FORMAT_U32BE);
    ("S24LE", GST_AUDIO_FORMAT_S24LE); ("S24BE", GST_AUDIO_FORMAT_S24BE);
    ("U24LE", GST_AUDIO_FORMAT_U24LE); ("U24BE", GST_AUDIO_FORMAT_U24BE);
    ("S20LE", GST_AUDIO_FORMAT_S20LE); ("S20BE", GST_AUDIO_FORMAT_S20BE);
    ("U20LE", GST_AUDIO_FORMAT_U20LE); ("U20BE", GST_AUDIO_FORMAT_U20BE);
    ("S18LE", GST_AUDIO_FORMAT_S18LE); ("S18BE", GST_AUDIO_FORMAT_S18BE);
    ("U18LE", GST_AUDIO_FORMAT_U18LE); ("U18BE", GST_AUDIO_FORMAT_U18BE);
    ("F32LE", GST_AUDIO_FORMAT_F32LE); ("F32BE", GST_AUDIO_FORMAT_F32BE);
    ("F64LE", GST_AUDIO_FORMAT_F64LE); ("F64BE", GST_AUDIO_FORMAT_F64BE) ].

Fixpoint lookup {A : Type} (key : string) (l : list (string * A))
    : option A :=
  match l with
  | [] => None
  | (k, v) :: rest => if String.eqb k key then Some v else lookup key rest
  end.

Definition gst_audio_format_from_string (str : string) : GstAudioFormat :=
  match lookup str audio_format_names with
  | Some f => f
  | None => GST_AUDIO_FORMAT_UNKNOWN
  end.

(** [GST_AUDIO_FORMAT_S16] is the native-endian one; little-endian host. *)
Definition GST_AUDIO_FORMAT_S16 : GstAudioFormat := GST_AUDIO_FORMAT_S16LE.

Definition is_GST_AUDIO_FORMAT_S16 (format : GstAudioFormat) : bool :=
  match format with
  | GST_AUDIO_FORMAT_S16LE => true
  | _ => false
  end.

(** A field of a [GstStructure] of normalized caps: a fixed value, or a
    range left as it is by [gst_caps_normalize]. *)
Inductive FieldValue :=
| G_TYPE_STRING (s : string)
| G_TYPE_INT (i : Z)
| GST_TYPE_INT_RANGE (min max : Z).

Definition GstStructure := list (string * FieldValue).
Definition GstCaps := list GstStructure.

Definition gst_structure_get_string (structure : option GstStructure)
    (fieldname : string) : option string :=
  match structure with
  | None => None
  | Some fields =>
      match lookup fieldname fields with
      | Some (G_TYPE_STRING s) => Some s
      | _ => None
      end
  end.

(** [gst_structure_get_int (structure, fieldname, &value)]: [value] is
    left as it was unless the field is there and is an [int]. *)
Definition gst_structure_get_int (structure : option GstStructure)
    (fieldname : string) (value : Z) : Z :=
  match structure with
  | None => value
  | Some fields =>
      match lookup fieldname fields with
      | Some (G_TYPE_INT i) => i
      | _ => value
      end
  end.

(** What the pads answer during negotiation. *)
Record NegotiateEnv := mkNegotiateEnv {
  (* gst_pad_get_allowed_caps (srcpad), after gst_caps_normalize *)
  allowed_caps : option GstCaps;
  (* gst_pad_create_stream_id *)
  created_stream_id : string;
  (* gst_pad_get_sticky_event (sinkpad, GST_EVENT_STREAM_START, 0), and the
     group id gst_event_parse_group_id reads from it (0: none) *)
  sticky_stream_start : option Z;
  (* gst_util_group_id_next *)
  group_id_next : Z
}.

Definition siddecfp_negotiate (env : NegotiateEnv) (siddecfp : GstSidDecFp)
    : bool * GstSidDecFp * list Action :=
  let rate := 44100 in
  let channels := 1 in
  match allowed_caps env with
  | None => (false, siddecfp, [gst_pad_get_allowed_caps])
  | Some allowed =>
      let structure := nth_error allowed 0 in
      match gst_structure_get_string structure "format" with
      | None => (false, siddecfp, [gst_pad_get_allowed_caps])
      | Some str =>
          let format := gst_audio_format_from_string str in
          if negb (is_GST_AUDIO_FORMAT_S16 format)
          then (false, siddecfp, [gst_pad_get_allowed_caps])
          else
            let rate := gst_structure_get_int structure "rate" rate in
            let cfg := set_frequency (config siddecfp) (to_guint rate) in
            let channels :=
              gst_structure_get_int structure "channels" channels in
            let cfg :=
              set_playback cfg (if channels =? 1 then MONO else STEREO) in
            let siddecfp := set_config siddecfp cfg in
            let siddecfp :=
              match sticky_stream_start env with
              | Some id =>
                  set_group siddecfp (negb (id =? 0)) (to_guint id)
              | None =>
                  if negb (have_group_id siddecfp)
                  then set_group siddecfp true (to_guint (group_id_next env))
                  else siddecfp
              end in
            let event :=
              stream_start (created_stream_id env)
                (if have_group_id siddecfp then Some (group_id siddecfp)
                 else None) in
            (true, siddecfp,
             [gst_pad_get_allowed_caps;
              gst_pad_push_event event;
              (* "rate", G_TYPE_INT: the unsigned frequency, read as gint *)
              gst_pad_set_caps "S16LE" "interleaved"
                (to_gint (frequency (config siddecfp)))
                (playback (config siddecfp));
              player_config (config siddecfp)])
      end
  end.

(** ** Session builder: [create_builder], [update_tags], [start_play_tune] *)

(** [builder->getStatus ()] after each construction step, and
    [player->info ().maxsids ()]. *)
Record BuilderEnv := mkBuilderEnv {
  status_new : bool;
  status_create : bool;
  status_filter : bool;
  maxsids : Z
}.

Definition roms (siddecfp : GstSidDecFp) : list Action :=
  (match kernal siddecfp with Some r => [player_setKernal r] | None => [] end)
  ++ (match basic siddecfp with Some r => [player_setBasic r] | None => [] end)
  ++ (match chargen siddecfp with
      | Some r => [player_setChargen r] | None => [] end).

Definition create_builder (env : BuilderEnv) (siddecfp : GstSidDecFp)
    : bool * GstSidDecFp * list Action :=
  let deleted :=
    match sidEmulation (config siddecfp) with
    | Some builder => [builder_delete builder]
    | None => []
    end in
  let siddecfp :=
    set_config siddecfp (set_sidEmulation (config siddecfp) None) in
  let construct (name : string) (builder : sidbuilder) :=
    if negb (status_new env)
    then (false, siddecfp, deleted ++ [builder_new name])
    else if negb (status_create env)
    then (false, siddecfp,
          deleted ++ [builder_new name; builder_create (maxsids env)])
    else if negb (status_filter env)
    then (false, siddecfp,
          deleted ++ [builder_new name; builder_create (maxsids env);
                      builder_filter false])
    else
      let cfg := set_sidEmulation (config siddecfp) (Some builder) in
      (true, set_config siddecfp cfg,
       deleted ++ [builder_new name; builder_create (maxsids env);
                   builder_filter false]
       ++ roms siddecfp ++ [player_config cfg]) in
  if emulation siddecfp =? SIDDECFP_EMULATION_RESIDFP
  then construct "ReSIDfp"
         (ReSIDfpBuilder (filter_curve_6581 siddecfp)
                         (filter_curve_8580 siddecfp))
  else if emulation siddecfp =? SIDDECFP_EMULATION_RESID
  then construct "ReSID" (ReSIDBuilder (filter_bias siddecfp))
  else (false, siddecfp, deleted).

(** [tune->getInfo ()]: [None] for [NULL], else the info strings as
    [g_convert] returns them ([None] where the conversion fails). *)
Definition TuneInfo := option (list (option string)).

Definition info_tag (name : string) (info : list (option string)) (i : nat)
    : list (string * string) :=
  match nth_error info i with
  | Some (Some info_str) => [(name, info_str)]
  | _ => []
  end.

Definition update_tags (info : TuneInfo) : list Action :=
  match info with
  | None => []
  | Some strings =>
      [gst_pad_push_event
         (tag (info_tag "title" strings 0 ++ info_tag "artist" strings 1
               ++ info_tag "copyright" strings 2))]
  end.

(** What libsidplayfp and GStreamer answer while a session is built. *)
Record SessionEnv := mkSessionEnv {
  selectSong_ok : bool;
  load_ok : bool;
  negotiate_env : NegotiateEnv;
  builder_env : BuilderEnv;
  start_task_ok : bool;
  tune_info : TuneInfo
}.

Definition start_play_tune (env : SessionEnv) (siddecfp : GstSidDecFp)
    : bool * GstSidDecFp * list Action :=
  let read := [tune_read (tune_buffer siddecfp) (tune_len siddecfp)] in
  let select := read ++ [tune_selectSong (tune_number siddecfp)] in
  if negb (selectSong_ok env)
  then (false, siddecfp,
        select ++ [GST_ELEMENT_ERROR "LIBRARY" "INIT"
                     "Could not select song"])
  else
    let load := select ++ [player_load] in
    if negb (load_ok env)
    then (false, siddecfp,
          load ++ [GST_ELEMENT_ERROR "LIBRARY" "INIT" "Could not load tune"])
    else
      let '(negotiated, siddecfp, calls) :=
        siddecfp_negotiate (negotiate_env env) siddecfp in
      let negotiate := load ++ calls in
      if negb negotiated
      then (false, siddecfp,
            negotiate ++ [GST_ELEMENT_ERROR "CORE" "NEGOTIATION"
                            "Could not negotiate format"])
      else
        let '(built, siddecfp, calls) :=
          create_builder (builder_env env) siddecfp in
        let build := negotiate ++ calls in
        if negb built
        then (false, siddecfp,
              build ++ [GST_ELEMENT_ERROR "LIBRARY" "INIT"
                          "Could not create builder"])
        else
          let siddecfp := set_total_bytes siddecfp 0 in
          let siddecfp := set_group siddecfp false G_MAXUINT in
          (start_task_ok env, siddecfp,
           build ++ [gst_pad_push_event (segment GST_FORMAT_TIME);
                     gst_pad_start_task]
           ++ update_tags (tune_info env)).

Inductive GstEventType :=
| GST_EVENT_EOS
| GST_EVENT_SEGMENT
| GST_EVENT_OTHER.

Definition gst_siddecfp_sink_event (event : GstEventType) (env : SessionEnv)
    (siddecfp : GstSidDecFp) : bool * GstSidDecFp * list Action :=
  match event with
  | GST_EVENT_EOS => start_play_tune env siddecfp
  | GST_EVENT_SEGMENT => (true, siddecfp, [])
  | GST_EVENT_OTHER => (true, siddecfp, [])
  end.

(** ** Production loop: [play_loop] *)

(** One run of the task function.  [samples] is what
    [player->play (data, blocksize / 2)] returns, [ret] what
    [gst_pad_push] returns. *)
Definition play_loop (siddecfp : GstSidDecFp) (samples : Z)
    (ret : GstFlowReturn) : GstSidDecFp * list Action :=
  let time := 0 in
  let out := gst_buffer_new_and_alloc (blocksize siddecfp) in
  let count := blocksize siddecfp / 2 in
  let play_bytes := to_guint (samples * 2) in
  (* get offset in samples *)
  let out :=
    match gst_siddecfp_src_convert siddecfp GST_FORMAT_BYTES
            (to_gint64 (total_bytes siddecfp)) GST_FORMAT_DEFAULT with
    | Some offset => set_OFFSET out (to_guint64 offset)
    | None => out
    end in
  (* get current timestamp *)
  let '(out, time) :=
    match gst_siddecfp_src_convert siddecfp GST_FORMAT_BYTES
            (to_gint64 (total_bytes siddecfp)) GST_FORMAT_TIME with
    | Some time => (set_TIMESTAMP out (to_guint64 time), time)
    | None => (out, time)
    end in
  (* update position and get new timestamp to calculate duration *)
  let siddecfp :=
    set_total_bytes siddecfp (to_guint64 (total_bytes siddecfp + play_bytes)) in
  let out :=
    match gst_siddecfp_src_convert siddecfp GST_FORMAT_BYTES
            (to_gint64 (total_bytes siddecfp)) GST_FORMAT_DEFAULT with
    | Some value => set_OFFSET_END out (to_guint64 value)
    | None => out
    end in
  let out :=
    match gst_siddecfp_src_convert siddecfp GST_FORMAT_BYTES
            (to_gint64 (total_bytes siddecfp)) GST_FORMAT_TIME with
    | Some value => set_DURATION out (to_guint64 (to_gint64 (value - time)))
    | None => out
    end in
  let pushed := [player_play count; gst_pad_push out] in
  if ret =? GST_FLOW_OK then (siddecfp, pushed)
  else
    (* pause: *)
    let events :=
      if ret =? GST_FLOW_EOS
      then [gst_pad_push_event eos]
      else if (ret <? GST_FLOW_EOS) || (ret =? GST_FLOW_NOT_LINKED)
      then [GST_ELEMENT_FLOW_ERROR ret; gst_pad_push_event eos]
      else [] in
    (siddecfp, pushed ++ events ++ [gst_pad_pause_task]).

(** ** Properties: [copy_byte_array], [gst_siddecfp_set_property] *)

Inductive PropId :=
| PROP_0 | PROP_EMULATION | PROP_TUNE | PROP_N_TUNES | PROP_FILTER
| PROP_C64_MODEL | PROP_SID_MODEL | PROP_CIA_MODEL | PROP_FORCE_SID_MODEL
| PROP_FORCE_C64_MODEL | PROP_SAMPLING_METHOD | PROP_DIGI_BOOST
| PROP_FILTER_CURVE_6581 | PROP_FILTER_CURVE_8580 | PROP_FILTER_BIAS
| PROP_KERNAL | PROP_BASIC | PROP_CHARGEN | PROP_BLOCKSIZE | PROP_METADATA.

Inductive GValue :=
| G_VALUE_ENUM (v : Z)
| G_VALUE_INT (v : Z)
| G_VALUE_UINT (v : Z)
| G_VALUE_BOOLEAN (v : bool)
| G_VALUE_DOUBLE (v : gdouble)
| G_VALUE_BOXED (v : option GByteArray).

Definition g_value_get_enum (value : GValue) : Z :=
  match value with G_VALUE_ENUM v => v | _ => 0 end.
Definition g_value_get_int (value : GValue) : Z :=
  match value with G_VALUE_INT v => v | _ => 0 end.
Definition g_value_get_uint (value : GValue) : Z :=
  match value with G_VALUE_UINT v => v | _ => 0 end.
Definition g_value_get_boolean (value : GValue) : bool :=
  match value with G_VALUE_BOOLEAN v => v | _ => false end.
Definition g_value_get_double (value : GValue) : gdouble :=
  match value with G_VALUE_DOUBLE v => v | _ => S754_zero false end.
Definition g_value_get_boxed (value : GValue) : option GByteArray :=
  match value with G_VALUE_BOXED v => v | _ => None end.

Definition copy_byte_array (old src : option GByteArray) (expected_size : Z)
    : option GByteArray * list Action :=
  let freed :=
    match old with
    | Some a => [g_byte_array_free a]
    | None => []
    end in
  match src with
  | None => (None, freed)
  | Some data =>
      if negb (Z.of_nat (List.length data) =? expected_size)
      then (None, freed)
      else (Some ([] ++ data), freed)
  end.

Definition gst_siddecfp_set_property (siddecfp : GstSidDecFp)
    (prop_id : PropId) (value : GValue) : GstSidDecFp * list Action :=
  let s := siddecfp in
  let c := config siddecfp in
  let with_config (c : SidConfig) := Some (set_config s c, []) in
  let updated : option (GstSidDecFp * list Action) :=
    match prop_id with
    | PROP_EMULATION =>
        Some (mkGstSidDecFp (have_group_id s) (group_id s) (tune_buffer s)
                (tune_len s) (tune_number s) (total_bytes s)
                (g_value_get_enum value) c (filter s)
                (filter_curve_6581 s) (filter_curve_8580 s) (filter_bias s)
                (kernal s) (basic s) (chargen s) (blocksize s), [])
    | PROP_TUNE =>
        Some (mkGstSidDecFp (have_group_id s) (group_id s) (tune_buffer s)
                (tune_len s) (g_value_get_int value) (total_bytes s)
                (emulation s) c (filter s)
                (filter_curve_6581 s) (filter_curve_8580 s) (filter_bias s)
                (kernal s) (basic s) (chargen s) (blocksize s), [])
    | PROP_FILTER =>
        Some (mkGstSidDecFp (have_group_id s) (group_id s) (tune_buffer s)
                (tune_len s) (tune_number s) (total_bytes s)
                (emulation s) c (g_value_get_boolean value)
                (filter_curve_6581 s) (filter_curve_8580 s) (filter_bias s)
                (kernal s) (basic s) (chargen s) (blocksize s), [])
    | PROP_C64_MODEL =>
        with_config
          (mkSidConfig (g_value_get_enum value) (forceC64Model c)
             (defaultSidModel c) (forceSidModel c) (digiBoost c) (ciaModel c)
             (playback c) (frequency c) (sidEmulation c) (samplingMethod c))
    | PROP_SID_MODEL =>
        with_config
          (mkSidConfig (defaultC64Model c) (forceC64Model c)
             (g_value_get_enum value) (forceSidModel c) (digiBoost c)
             (ciaModel c) (playback c) (frequency c) (sidEmulation c)
             (samplingMethod c))
    | PROP_CIA_MODEL =>
        with_config
          (mkSidConfig (defaultC64Model c) (forceC64Model c)
             (defaultSidModel c) (forceSidModel c) (digiBoost c)
             (g_value_get_enum value) (playback c) (frequency c)
             (sidEmulation c) (samplingMethod c))
    | PROP_FORCE_SID_MODEL =>
        with_config
          (mkSidConfig (defaultC64Model c) (forceC64Model c)
             (defaultSidModel c) (g_value_get_boolean value) (digiBoost c)
             (ciaModel c) (playback c) (frequency c) (sidEmulation c)
             (samplingMethod c))
    | PROP_FORCE_C64_MODEL =>
        with_config
          (mkSidConfig (defaultC64Model c) (g_value_get_boolean value)
             (defaultSidModel c) (forceSidModel c) (digiBoost c) (ciaModel c)
             (playback c) (frequency c) (sidEmulation c) (samplingMethod c))
    | PROP_SAMPLING_METHOD =>
        with_config
          (mkSidConfig (defaultC64Model c) (forceC64Model c)
             (defaultSidModel c) (forceSidModel c) (digiBoost c) (ciaModel c)
             (playback c) (frequency c) (sidEmulation c)
             (g_value_get_enum value))
    | PROP_DIGI_BOOST =>
        with_config
          (mkSidConfig (defaultC64Model c) (forceC64Model c)
             (defaultSidModel c) (forceSidModel c)
             (g_value_get_boolean value) (ciaModel c)
             (playback c) (frequency c) (sidEmulation c) (samplingMethod c))
    | PROP_FILTER_CURVE_6581 =>
        Some (mkGstSidDecFp (have_group_id s) (group_id s) (tune_buffer s)
                (tune_len s) (tune_number s) (total_bytes s)
                (emulation s) c (filter s)
                (g_value_get_double value) (filter_curve_8580 s)
                (filter_bias s)
                (kernal s) (basic s) (chargen s) (blocksize s), [])
    | PROP_FILTER_CURVE_8580 =>
        Some (mkGstSidDecFp (have_group_id s) (group_id s) (tune_buffer s)
                (tune_len s) (tune_number s) (total_bytes s)
                (emulation s) c (filter s)
                (filter_curve_6581 s) (g_value_get_double value)
                (filter_bias s)
                (kernal s) (basic s) (chargen s) (blocksize s), [])
    | PROP_FILTER_BIAS =>
        Some (mkGstSidDecFp (have_group_id s) (group_id s) (tune_buffer s)
                (tune_len s) (tune_number s) (total_bytes s)
                (emulation s) c (filter s)
                (filter_curve_6581 s) (filter_curve_8580 s)
                (g_value_get_double value)
                (kernal s) (basic s) (chargen s) (blocksize s), [])
    | PROP_KERNAL =>
        let '(rom, freed) :=
          copy_byte_array (kernal s) (g_value_get_boxed value) 8192 in
        Some (mkGstSidDecFp (have_group_id s) (group_id s) (tune_buffer s)
                (tune_len s) (tune_number s) (total_bytes s)
                (emulation s) c (filter s)
                (filter_curve_6581 s) (filter_curve_8580 s) (filter_bias s)
                rom (basic s) (chargen s) (blocksize s), freed)
    | PROP_BASIC =>
        let '(rom, freed) :=
          copy_byte_array (basic s) (g_value_get_boxed value) 8192 in
        Some (mkGstSidDecFp (have_group_id s) (group_id s) (tune_buffer s)
                (tune_len s) (tune_number s) (total_bytes s)
                (emulation s) c (filter s)
                (filter_curve_6581 s) (filter_curve_8580 s) (filter_bias s)
                (kernal s) rom (chargen s) (blocksize s), freed)
    | PROP_CHARGEN =>
        let '(rom, freed) :=
          copy_byte_array (chargen s) (g_value_get_boxed value) 4096 in
        Some (mkGstSidDecFp (have_group_id s) (group_id s) (tune_buffer s)
                (tune_len s) (tune_number s) (total_bytes s)
                (emulation s) c (filter s)
                (filter_curve_6581 s) (filter_curve_8580 s) (filter_bias s)
                (kernal s) (basic s) rom (blocksize s), freed)
    | PROP_BLOCKSIZE =>
        Some (mkGstSidDecFp (have_group_id s) (group_id s) (tune_buffer s)
                (tune_len s) (tune_number s) (total_bytes s)
                (emulation s) c (filter s)
                (filter_curve_6581 s) (filter_curve_8580 s) (filter_bias s)
                (kernal s) (basic s) (chargen s) (g_value_get_uint value), [])
    | PROP_0 | PROP_N_TUNES | PROP_METADATA => None
    end in
  match updated with
  | None => (siddecfp, [G_OBJECT_WARN_INVALID_PROPERTY_ID])
  | Some (siddecfp, calls) =>
      (siddecfp, calls ++ [player_config (config siddecfp)])
  end.

(** ** The element after [gst_siddecfp_init] *)

(** [player->config ()] of a fresh [sidplayfp], with the element's defaults
    written over it. *)
Definition default_config : SidConfig :=
  {| defaultC64Model := PAL;
     forceC64Model := false;
     defaultSidModel := MOS6581;
     forceSidModel := false;
     digiBoost := false;
     ciaModel := MOS6526;
     playback := MONO;
     frequency := 44100;
     sidEmulation := None;
     samplingMethod := INTERPOLATE |}.

(** The instance memory is zeroed by GObject; [tune_buffer] is what
    [g_malloc] hands out, here [heap]. *)
Definition gst_siddecfp_init (heap : list Byte.byte) : GstSidDecFp :=
  {| have_group_id := false;
     group_id := G_MAXUINT;
     tune_buffer := firstn (Z.to_nat MAX_SID_TUNE_BUF_SIZE) heap;
     tune_len := 0;
     tune_number := 0;
     total_bytes := 0;
     emulation := SIDDECFP_EMULATION_RESIDFP;
     config := default_config;
     filter := false;
     filter_curve_6581 := S754_zero false;
     filter_curve_8580 := S754_zero false;
     filter_bias := S754_zero false;
     kernal := None;
     basic := None;
     chargen := None;
     blocksize := DEFAULT_BLOCKSIZE |}.

(** ** The element with its streaming task *)

(** The decoder together with the state of the task of its source pad:
    [gst_pad_start_task] starts it, [gst_pad_pause_task] pauses it, and the
    task function [play_loop] runs only while it is started.  The state
    changes only where the code makes one of the two calls. *)
Record Element := mkElement {
  decoder : GstSidDecFp;
  task_started : bool
}.

Inductive Input :=
| chain (buffer : list Byte.byte)
| sink_event (event : GstEventType) (env : SessionEnv)
| task_iteration (samples : Z) (ret : GstFlowReturn)
| set_property (prop_id : PropId) (value : GValue).

Definition step (e : Element) (i : Input) : Element * list Action :=
  match i with
  | chain buffer =>
      let '(_, siddecfp, calls) := gst_siddecfp_chain (decoder e) buffer in
      (mkElement siddecfp (task_started e), calls)
  | sink_event GST_EVENT_EOS env =>
      let '(res, siddecfp, calls) :=
        gst_siddecfp_sink_event GST_EVENT_EOS env (decoder e) in
      (mkElement siddecfp
         (if existsb (fun a => match a with
                               | gst_pad_start_task => true
                               | _ => false
                               end) calls
          then res else task_started e),
       calls)
  | sink_event event env =>
      let '(_, siddecfp, calls) :=
        gst_siddecfp_sink_event event env (decoder e) in
      (mkElement siddecfp (task_started e), calls)
  | task_iteration samples ret =>
      if task_started e
      then
        let '(siddecfp, calls) := play_loop (decoder e) samples ret in
        (mkElement siddecfp
           (if existsb (fun a => match a with
                                 | gst_pad_pause_task => true
                                 | _ => false
                                 end) calls
            then false else task_started e),
         calls)
      else (e, [])
  | set_property prop_id value =>
      let '(siddecfp, calls) :=
        gst_siddecfp_set_property (decoder e) prop_id value in
      (mkElement siddecfp (task_started e), calls)
  end.

Fixpoint run (e : Element) (inputs : list Input) : Element * list Action :=
  match inputs with
  | [] => (e, [])
  | i :: rest =>
      let '(e', calls) := step e i in
      let '(final, calls') := run e' rest in
      (final, calls ++ calls')
  end.

(** The buffers pushed downstream in a trace. *)
Fixpoint pushed_buffers (calls : list Action) : list GstBuffer :=
  match calls with
  | [] => []
  | gst_pad_push out :: rest => out :: pushed_buffers rest
  | _ :: rest => pushed_buffers rest
  end.

Definition is_task_iteration (i : Input) : bool :=
  match i with
  | task_iteration _ _ => true
  | _ => false
  end.

(** ** Notions the statements below use *)

(** A decoder fresh from [gst_siddecfp_init] with a negotiated format. *)
Definition negotiated (rate channels : Z) : GstSidDecFp :=
  set_config (gst_siddecfp_init [])
    (set_playback (set_frequency default_config rate) channels).

(** A chunk is a buffer in memory next to the tune buffer: its size and the
    capacity together stay within the range of [gsize]. *)
Definition in_memory (buffer : list Byte.byte) : Prop :=
  Z.of_nat (List.length buffer) + MAX_SID_TUNE_BUF_SIZE <= G_MAXUINT64.

(** [tune_len] stays between 0 and the capacity. *)
Definition tune_len_ok (siddecfp : GstSidDecFp) : Prop :=
  0 <= tune_len siddecfp <= MAX_SID_TUNE_BUF_SIZE.

Definition zero_rom (size : Z) : GByteArray :=
  repeat Byte.x00 (Z.to_nat size).

(** The position in samples that [play_loop] stamps on a buffer. *)
Definition offset_stamp (siddecfp : GstSidDecFp) : Z :=
  match gst_siddecfp_src_convert siddecfp GST_FORMAT_BYTES
          (to_gint64 (total_bytes siddecfp)) GST_FORMAT_DEFAULT with
  | Some offset => to_guint64 offset
  | None => GST_BUFFER_OFFSET_NONE
  end.

(** The position as a time, where the converter gives one. *)
Definition position_time (siddecfp : GstSidDecFp) : option Z :=
  gst_siddecfp_src_convert siddecfp GST_FORMAT_BYTES
    (to_gint64 (total_bytes siddecfp)) GST_FORMAT_TIME.

(** The decoder after [play_loop] added the bytes of [samples] samples. *)
Definition advance (siddecfp : GstSidDecFp) (samples : Z) : GstSidDecFp :=
  set_total_bytes siddecfp
    (to_guint64 (total_bytes siddecfp + to_guint (samples * 2))).

Definition is_flow_error (a : Action) : bool :=
  match a with
  | GST_ELEMENT_FLOW_ERROR _ => true
  | _ => false
  end.

Definition is_element_error (a : Action) : bool :=
  match a with
  | GST_ELEMENT_ERROR _ _ _ => true
  | _ => false
  end.

Definition is_eos_event (a : Action) : bool :=
  match a with
  | gst_pad_push_event eos => true
  | _ => false
  end.

Definition is_segment_event (a : Action) : bool :=
  match a with
  | gst_pad_push_event (segment _) => true
  | _ => false
  end.

Definition is_start_task (a : Action) : bool :=
  match a with
  | gst_pad_start_task => true
  | _ => false
  end.

Definition is_pause_task (a : Action) : bool :=
  match a with
  | gst_pad_pause_task => true
  | _ => false
  end.

(** The bytes a list of task iterations adds to the position at most. *)
Fixpoint produced_bytes (inputs : list Input) : Z :=
  match inputs with
  | [] => 0
  | task_iteration samples _ :: rest =>
      to_guint (samples * 2) + produced_bytes rest
  | _ :: rest => produced_bytes rest
  end.

(** What [play_loop] does once the buffer has been pushed. *)
Definition after_push (ret : GstFlowReturn) : list Action :=
  if ret =? GST_FLOW_OK then []
  else
    (if ret =? GST_FLOW_EOS
     then [gst_pad_push_event eos]
     else if (ret <? GST_FLOW_EOS) || (ret =? GST_FLOW_NOT_LINKED)
     then [GST_ELEMENT_FLOW_ERROR ret; gst_pad_push_event eos]
     else [])
    ++ [gst_pad_pause_task].

(** An iteration whose samples make up at least one sample frame. *)
Definition whole_frames (siddecfp : GstSidDecFp) (i : Input) : Prop :=
  match i with
  | task_iteration samples _ =>
      2 * playback (config siddecfp) <= to_guint (samples * 2)
  | _ => True
  end.

(** The first candidate of the normalized allowed caps, if there is one. *)
Definition first_candidate (env : NegotiateEnv) : option GstStructure :=
  match allowed_caps env with
  | Some allowed => nth_error allowed 0
  | None => None
  end.

(** The candidate declares the native 16-bit signed PCM format.  The layout
    is not looked at: the allowed caps are those of the source pad template,
    whose only layout is interleaved. *)
Definition is_S16_PCM (structure : option GstStructure) : bool :=
  match gst_structure_get_string structure "format" with
  | Some str => is_GST_AUDIO_FORMAT_S16 (gst_audio_format_from_string str)
  | None => false
  end.

(** The fixed integer a candidate declares for a field, if it does. *)
Definition declared_int (structure : option GstStructure)
    (fieldname : string) : option Z :=
  match structure with
  | Some fields =>
      match lookup fieldname fields with
      | Some (G_TYPE_INT i) => Some i
      | _ => None
      end
  | None => None
  end.

(** The steps of building a session, each told by its first call. *)
Inductive BuildStep :=
| StepSongSelect
| StepLoad
| StepNegotiate
| StepBuildBackend.

Fixpoint build_steps (calls : list Action) : list BuildStep :=
  match calls with
  | [] => []
  | tune_selectSong _ :: rest => StepSongSelect :: build_steps rest
  | player_load :: rest => StepLoad :: build_steps rest
  | gst_pad_get_allowed_caps :: rest => StepNegotiate :: build_steps rest
  | builder_new _ :: rest => StepBuildBackend :: build_steps rest
  | _ :: rest => build_steps rest
  end.

(** Calls that neither report an error, nor announce a segment, nor start
    the task, nor push a buffer. *)
Definition quiet (calls : list Action) : Prop :=
  List.filter is_element_error calls = []
  /\ existsb is_segment_event calls = false
  /\ existsb is_start_task calls = false
  /\ pushed_buffers calls = [].


(** The emulation property holds one of the two registered values. *)
Definition emulation_valid (siddecfp : GstSidDecFp) : Prop :=
  emulation siddecfp = SIDDECFP_EMULATION_RESIDFP
  \/ emulation siddecfp = SIDDECFP_EMULATION_RESID.

(** The ROM a property assignment of [src] stores for a given size. *)
Definition rom_of_size (src : option GByteArray) (expected : Z)
    : option GByteArray :=
  match src with
  | Some data =>
      if Z.of_nat (List.length data) =? expected then Some data else None
  | None => None
  end.

(** ** Sample inputs *)

Definition kernal_stored : GstSidDecFp :=
  fst (gst_siddecfp_set_property (gst_siddecfp_init []) PROP_KERNAL
         (G_VALUE_BOXED (Some (zero_rom 8192)))).

Definition blocksize_one : GstSidDecFp :=
  fst (gst_siddecfp_set_property (negotiated 44100 1) PROP_BLOCKSIZE
         (G_VALUE_UINT 1)).

Definition three_iterations : list Input :=
  [task_iteration 2048 GST_FLOW_OK;
   task_iteration 2048 GST_FLOW_OK;
   task_iteration 1024 GST_FLOW_EOS].

Definition s16_stereo_48000 : GstStructure :=
  [("format", G_TYPE_STRING "S16LE");
   ("layout", G_TYPE_STRING "interleaved");
   ("rate", G_TYPE_INT 48000);
   ("channels", G_TYPE_INT 2)].

Definition downstream_s16 : NegotiateEnv :=
  {| allowed_caps := Some [s16_stereo_48000];
     created_stream_id := "siddecfp/src";
     sticky_stream_start := None;
     group_id_next := 1 |}.

Definition downstream_u8 : NegotiateEnv :=
  {| allowed_caps := Some [[("format", G_TYPE_STRING "U8")]];
     created_stream_id := "siddecfp/src";
     sticky_stream_start := None;
     group_id_next := 1 |}.

Definition builder_fine : BuilderEnv :=
  {| status_new := true;
     status_create := true;
     status_filter := true;
     maxsids := 3 |}.

Definition session_fine : SessionEnv :=
  {| selectSong_ok := true;
     load_ok := true;
     negotiate_env := downstream_s16;
     builder_env := builder_fine;
     start_task_ok := true;
     tune_info :=
       Some [Some "Delta"; Some "Rob Hubbard"; Some "1987 Thalamus"] |}.



(** ** Position query: [gst_siddecfp_src_query] *)

Inductive GstQuery :=
| GST_QUERY_POSITION (format : GstFormat)
| GST_QUERY_OTHER.

(** The result of the query function, and the position set on the query
    when there is one.  [default_res] is what [gst_pad_query_default]
    answers. *)
Definition gst_siddecfp_src_query (siddecfp : GstSidDecFp) (query : GstQuery)
    (default_res : bool) : bool * option (GstFormat * Z) :=
  match query with
  | GST_QUERY_POSITION format =>
      (* we only know about our bytes, convert to requested format *)
      match gst_siddecfp_src_convert siddecfp GST_FORMAT_BYTES
              (to_gint64 (total_bytes siddecfp)) format with
      | Some current => (true, Some (format, current))
      | None => (false, None)
      end
  | GST_QUERY_OTHER => (default_res, None)
  end.

(** ** Reading properties: [gst_siddecfp_get_property] *)

(** [songs] is [tune->getInfo ()->songs ()], an [unsigned int], [None] when
    [getInfo] gives [NULL].  The result is the value set, [None] with a
    warning for a property that cannot be read. *)
Definition gst_siddecfp_get_property (siddecfp : GstSidDecFp)
    (songs : option Z) (prop_id : PropId) : option GValue * list Action :=
  let c := config siddecfp in
  let got (value : GValue) := (Some value, []) in
  match prop_id with
  | PROP_EMULATION => got (G_VALUE_ENUM (emulation siddecfp))
  | PROP_TUNE => got (G_VALUE_INT (tune_number siddecfp))
  | PROP_N_TUNES =>
      got (G_VALUE_INT match songs with Some n => to_gint n | None => 0 end)
  | PROP_FILTER => got (G_VALUE_BOOLEAN (filter siddecfp))
  | PROP_C64_MODEL => got (G_VALUE_ENUM (defaultC64Model c))
  | PROP_SID_MODEL => got (G_VALUE_ENUM (defaultSidModel c))
  | PROP_CIA_MODEL => got (G_VALUE_ENUM (ciaModel c))
  | PROP_FORCE_SID_MODEL => got (G_VALUE_BOOLEAN (forceSidModel c))
  | PROP_FORCE_C64_MODEL => got (G_VALUE_BOOLEAN (forceC64Model c))
  | PROP_SAMPLING_METHOD => got (G_VALUE_ENUM (samplingMethod c))
  | PROP_DIGI_BOOST => got (G_VALUE_BOOLEAN (digiBoost c))
  | PROP_FILTER_CURVE_6581 => got (G_VALUE_DOUBLE (filter_curve_6581 siddecfp))
  | PROP_FILTER_CURVE_8580 => got (G_VALUE_DOUBLE (filter_curve_8580 siddecfp))
  | PROP_FILTER_BIAS => got (G_VALUE_DOUBLE (filter_bias siddecfp))
  | PROP_BLOCKSIZE => got (G_VALUE_UINT (blocksize siddecfp))
  | PROP_METADATA => got (G_VALUE_BOXED None)
  | PROP_0 | PROP_KERNAL | PROP_BASIC | PROP_CHARGEN =>
      (None, [G_OBJECT_WARN_INVALID_PROPERTY_ID])
  end.

(** ** Teardown: [gst_siddecfp_finalize] *)

(** What finalizing releases, in the order of the code. *)
Inductive Released :=
| released (call : Action)
| g_free (mem : list Byte.byte)
| delete_tune
| delete_player
| parent_class_finalize.

Definition gst_siddecfp_finalize (siddecfp : GstSidDecFp) : list Released :=
  (match kernal siddecfp with
   | Some a => [released (g_byte_array_free a)] | None => [] end)
  ++ (match basic siddecfp with
      | Some a => [released (g_byte_array_free a)] | None => [] end)
  ++ (match chargen siddecfp with
      | Some a => [released (g_byte_array_free a)] | None => [] end)
  ++ [g_free (tune_buffer siddecfp)]
  ++ (match sidEmulation (config siddecfp) with
      | Some builder => [released (builder_delete builder)] | None => [] end)
  ++ [delete_tune; delete_player; parent_class_finalize].

(** ** The playback application: [_load_rom], [_on_element_added]
    (gst-app/src/play.c) *)

Definition KERNAL_SIZE : Z := 8 * 1024.
Definition BASIC_SIZE : Z := 8 * 1024.
Definition CHARGEN_SIZE : Z := 4 * 1024.

(** The loop [while ((len = read (fd, buf, rom_size)) > 0)
    g_byte_array_append (a, buf, len)] over the successive results of
    [read]: the bytes of a positive result are appended, an empty result
    (end of file, or an error) ends the loop, as does the end of the list. *)
Fixpoint read_loop (reads : list (list Byte.byte)) (a : GByteArray)
    : GByteArray :=
  match reads with
  | [] => a
  | [] :: _ => a
  | bytes :: rest => read_loop rest (a ++ bytes)
  end.

(** A file system: [None] where [open] fails, else what the reads of the
    file return. *)
Definition Files := string -> option (list (list Byte.byte)).

Definition _load_rom (files : Files) (name : option string) (rom_size : Z)
    : option GByteArray :=
  match name with
  | None => None
  | Some name =>
      match files name with
      | None => None
      | Some reads =>
          (* g_malloc0 (0) is NULL *)
          if rom_size =? 0 then None
          else
            let a := read_loop reads [] in
            if negb (Z.of_nat (List.length a) =? rom_size) then None
            else Some a
      end
  end.

(** [name] is [gst_element_get_name (e)]; [siddecfp] the element [e]. *)
Definition _on_element_added (files : Files) (name : string)
    (siddecfp : GstSidDecFp) : GstSidDecFp * list Action :=
  if String.prefix "siddecfp" name
  then
    let '(siddecfp, basic_calls) :=
      gst_siddecfp_set_property siddecfp PROP_BASIC
        (G_VALUE_BOXED (_load_rom files (Some "basic.bin") BASIC_SIZE)) in
    let '(siddecfp, kernal_calls) :=
      gst_siddecfp_set_property siddecfp PROP_KERNAL
        (G_VALUE_BOXED (_load_rom files (Some "kernal.bin") KERNAL_SIZE)) in
    let '(siddecfp, chargen_calls) :=
      gst_siddecfp_set_property siddecfp PROP_CHARGEN
        (G_VALUE_BOXED (_load_rom files (Some "chargen.bin") CHARGEN_SIZE)) in
    (siddecfp, basic_calls ++ kernal_calls ++ chargen_calls)
  else (siddecfp, []).

(** ** Further notions the statements below use *)

(** The configuration is a negotiated one. *)
Definition format_negotiated (siddecfp : GstSidDecFp) : Prop :=
  (playback (config siddecfp) = 1 \/ playback (config siddecfp) = 2)
  /\ 8000 <= frequency (config siddecfp) <= 48000.

(** The three formats the converter knows. *)
Definition convertible (format : GstFormat) : bool :=
  match format with
  | GST_FORMAT_BYTES | GST_FORMAT_DEFAULT | GST_FORMAT_TIME => true
  | _ => false
  end.

(** The task iterations of a run that really run: those up to and
    including the first whose push is not OK. *)
Fixpoint iterations_until_rejected (inputs : list Input) : nat :=
  match inputs with
  | [] => 0
  | task_iteration _ ret :: rest =>
      if ret =? GST_FLOW_OK then S (iterations_until_rejected rest) else 1
  | _ :: rest => iterations_until_rejected rest
  end.

Definition push_ok (i : Input) : bool :=
  match i with
  | task_iteration _ ret => ret =? GST_FLOW_OK
  | _ => false
  end.

Definition is_eos_sink_event (i : Input) : bool :=
  match i with
  | sink_event GST_EVENT_EOS _ => true
  | _ => false
  end.

Definition is_push_event (a : Action) : bool :=
  match a with
  | gst_pad_push_event _ => true
  | _ => false
  end.

Definition is_play (a : Action) : bool :=
  match a with
  | player_play _ => true
  | _ => false
  end.

(** The chunks pushed into the element are buffers in memory. *)
Definition chunks_in_memory (i : Input) : Prop :=
  match i with
  | chain buffer => in_memory buffer
  | _ => True
  end.

(** The tune buffer has its capacity. *)
Definition tune_buffer_ok (siddecfp : GstSidDecFp) : Prop :=
  Z.of_nat (List.length (tune_buffer siddecfp)) = MAX_SID_TUNE_BUF_SIZE.

(** The ROMs handed to the player in a trace. *)
Definition is_rom_call (a : Action) : bool :=
  match a with
  | player_setKernal _ | player_setBasic _ | player_setChargen _ => true
  | _ => false
  end.

(** The arrays freed in a trace, and by finalizing. *)
Fixpoint freed (calls : list Action) : list GByteArray :=
  match calls with
  | [] => []
  | g_byte_array_free a :: rest => a :: freed rest
  | _ :: rest => freed rest
  end.

Fixpoint released_arrays (l : list Released) : list GByteArray :=
  match l with
  | [] => []
  | released (g_byte_array_free a) :: rest => a :: released_arrays rest
  | _ :: rest => released_arrays rest
  end.

Definition option_list {A : Type} (o : option A) : list A :=
  match o with
  | Some a => [a]
  | None => []
  end.

(** The ROM arrays the element holds. *)
Definition held_roms (siddecfp : GstSidDecFp) : list GByteArray :=
  option_list (kernal siddecfp) ++ option_list (basic siddecfp)
  ++ option_list (chargen siddecfp).

(** The copy an assignment makes, if it makes one. *)
Definition copied (assignment : PropId * GValue) : list GByteArray :=
  match fst assignment with
  | PROP_KERNAL | PROP_BASIC =>
      option_list (rom_of_size (g_value_get_boxed (snd assignment)) 8192)
  | PROP_CHARGEN =>
      option_list (rom_of_size (g_value_get_boxed (snd assignment)) 4096)
  | _ => []
  end.

(** Property assignments one after the other. *)
Fixpoint set_properties (siddecfp : GstSidDecFp)
    (assignments : list (PropId * GValue)) : GstSidDecFp * list Action :=
  match assignments with
  | [] => (siddecfp, [])
  | (prop_id, value) :: rest =>
      let '(siddecfp', calls) :=
        gst_siddecfp_set_property siddecfp prop_id value in
      let '(final, calls') := set_properties siddecfp' rest in
      (final, calls ++ calls')
  end.

(** The value has the type of the property, as GObject makes sure. *)
Definition value_of_property (prop_id : PropId) (value : GValue) : bool :=
  match prop_id, value with
  | (PROP_EMULATION | PROP_C64_MODEL | PROP_SID_MODEL | PROP_CIA_MODEL
     | PROP_SAMPLING_METHOD), G_VALUE_ENUM _ => true
  | PROP_TUNE, G_VALUE_INT _ => true
  | (PROP_FILTER | PROP_FORCE_SID_MODEL | PROP_FORCE_C64_MODEL
     | PROP_DIGI_BOOST), G_VALUE_BOOLEAN _ => true
  | (PROP_FILTER_CURVE_6581 | PROP_FILTER_CURVE_8580 | PROP_FILTER_BIAS),
    G_VALUE_DOUBLE _ => true
  | PROP_BLOCKSIZE, G_VALUE_UINT _ => true
  | _, _ => false
  end.

Definition PropId_eqb (p q : PropId) : bool :=
  match p, q with
  | PROP_0, PROP_0 | PROP_EMULATION, PROP_EMULATION | PROP_TUNE, PROP_TUNE
  | PROP_N_TUNES, PROP_N_TUNES | PROP_FILTER, PROP_FILTER
  | PROP_C64_MODEL, PROP_C64_MODEL | PROP_SID_MODEL, PROP_SID_MODEL
  | PROP_CIA_MODEL, PROP_CIA_MODEL
  | PROP_FORCE_SID_MODEL, PROP_FORCE_SID_MODEL
  | PROP_FORCE_C64_MODEL, PROP_FORCE_C64_MODEL
  | PROP_SAMPLING_METHOD, PROP_SAMPLING_METHOD
  | PROP_DIGI_BOOST, PROP_DIGI_BOOST
  | PROP_FILTER_CURVE_6581, PROP_FILTER_CURVE_6581
  | PROP_FILTER_CURVE_8580, PROP_FILTER_CURVE_8580
  | PROP_FILTER_BIAS, PROP_FILTER_BIAS | PROP_KERNAL, PROP_KERNAL
  | PROP_BASIC, PROP_BASIC | PROP_CHARGEN, PROP_CHARGEN
  | PROP_BLOCKSIZE, PROP_BLOCKSIZE | PROP_METADATA, PROP_METADATA => true
  | _, _ => false
  end.

(** The bytes a file gives when every read returns some. *)
Definition file_content (reads : list (list Byte.byte)) : list Byte.byte :=
  List.concat reads.

(** The tags of a tag event in a trace. *)
Fixpoint announced_tags (calls : list Action) : list (string * string) :=
  match calls with
  | [] => []
  | gst_pad_push_event (tag list_) :: rest => list_ ++ announced_tags rest
  | _ :: rest => announced_tags rest
  end.

(** The stream-start events of a trace, by the group id they carry. *)
Fixpoint stream_start_groups (calls : list Action) : list (option Z) :=
  match calls with
  | [] => []
  | gst_pad_push_event (stream_start _ group) :: rest =>
      group :: stream_start_groups rest
  | _ :: rest => stream_start_groups rest
  end.

(** The decoder with another value of the [filter] property. *)
Definition with_filter (siddecfp : GstSidDecFp) (v : bool) : GstSidDecFp :=
  mkGstSidDecFp (have_group_id siddecfp) (group_id siddecfp)
    (tune_buffer siddecfp) (tune_len siddecfp) (tune_number siddecfp)
    (total_bytes siddecfp) (emulation siddecfp) (config siddecfp) v
    (filter_curve_6581 siddecfp) (filter_curve_8580 siddecfp)
    (filter_bias siddecfp) (kernal siddecfp) (basic siddecfp)
    (chargen siddecfp) (blocksize siddecfp).

(** Files for the sample runs: a kernal of the right size read in two
    parts, a basic that is too short, and no chargen. *)
Definition sample_files : Files :=
  fun name =>
    if String.eqb name "kernal.bin"
    then Some [zero_rom 4096; zero_rom 4096]
    else if String.eqb name "basic.bin"
    then Some [zero_rom 100]
    else None.

(** A downstream that declares six channels. *)
Definition six_channels : NegotiateEnv :=
  {| allowed_caps :=
       Some [[("format", G_TYPE_STRING "S16LE");
              ("channels", G_TYPE_INT 6)]];
     created_stream_id := "siddecfp/src";
     sticky_stream_start := None;
     group_id_next := 7 |}.

(** * Verification *)

(** ** Facts about the integer conversions *)

Module CIntFacts.

Lemma to_guint_small z : 0 <= z < 2 ^ 32 -> to_guint z = z.
Proof. intros H. unfold to_guint. apply Z.mod_small. exact H. Qed.

Lemma to_gint_small z : - 2 ^ 31 <= z < 2 ^ 31 -> to_gint z = z.
Proof. intros H. unfold to_gint. rewrite Z.mod_small; lia. Qed.

Lemma to_guint64_small z : 0 <= z < 2 ^ 64 -> to_guint64 z = z.
Proof. intros H. unfold to_guint64. apply Z.mod_small. exact H. Qed.

Lemma to_gint64_small z : - 2 ^ 63 <= z < 2 ^ 63 -> to_gint64 z = z.
Proof. intros H. unfold to_gint64. rewrite Z.mod_small; lia. Qed.

Lemma to_guint_range z : 0 <= to_guint z < 2 ^ 32.
Proof. unfold to_guint. apply Z.mod_pos_bound. lia. Qed.

Lemma to_guint64_range z : 0 <= to_guint64 z < 2 ^ 64.
Proof. unfold to_guint64. apply Z.mod_pos_bound. lia. Qed.

(** A [guint64] read as [gint64] and back is the same [guint64]. *)
Lemma to_guint64_to_gint64 z : to_guint64 (to_gint64 z) = to_guint64 z.
Proof.
  unfold to_guint64, to_gint64.
  rewrite Zminus_mod_idemp_l. f_equal. lia.
Qed.

End CIntFacts.
Import CIntFacts.

(** ** Unit converter *)

Lemma GstFormat_eqb_refl (f : GstFormat) : GstFormat_eqb f f = true.
Proof. destruct f; reflexivity. Qed.

(** C9.  For every domain (BYTES, SAMPLES i.e. [GST_FORMAT_DEFAULT], TIME,
    and the other formats of GStreamer as well) and every value, converting
    from the domain to itself succeeds and returns the value unchanged,
    whatever the configured sample rate and channel count are, also when
    they make bytes-per-sample zero. *)
Theorem convert_same_domain_identity :
  forall (siddecfp : GstSidDecFp) (D : GstFormat) (x : Z),
    gst_siddecfp_src_convert siddecfp D x D = Some x.
Proof.
  intros siddecfp D x. unfold gst_siddecfp_src_convert.
  rewrite GstFormat_eqb_refl. reflexivity.
Qed.

(** With a negotiated format, bytes-per-sample is twice the channel count
    and the byte rate their product with the sample rate. *)
Section NegotiatedFormat.

Variable siddecfp : GstSidDecFp.
Hypothesis Hchannels :
  playback (config siddecfp) = 1 \/ playback (config siddecfp) = 2.
Hypothesis Hrate : 8000 <= frequency (config siddecfp) <= 48000.

Lemma bytes_per_sample_negotiated :
  to_gint (Z.shiftr 16 3 * playback (config siddecfp))
  = 2 * playback (config siddecfp).
Proof. change (Z.shiftr 16 3) with 2. apply to_gint_small. lia. Qed.

Lemma byterate_negotiated :
  to_gint (to_guint (to_guint (2 * playback (config siddecfp))
                     * frequency (config siddecfp)))
  = 2 * playback (config siddecfp) * frequency (config siddecfp).
Proof.
  rewrite (to_guint_small (2 * playback (config siddecfp))) by lia.
  rewrite to_guint_small by nia. apply to_gint_small. nia.
Qed.

Lemma convert_bytes_to_samples (value : Z) :
  gst_siddecfp_src_convert siddecfp GST_FORMAT_BYTES value GST_FORMAT_DEFAULT
  = Some (to_gint64 (Z.quot value (2 * playback (config siddecfp)))).
Proof.
  unfold gst_siddecfp_src_convert. cbn [GstFormat_eqb].
  rewrite bytes_per_sample_negotiated.
  destruct (Z.eqb_spec (2 * playback (config siddecfp)) 0);
    [lia | reflexivity].
Qed.

Lemma convert_bytes_to_time (value : Z) :
  gst_siddecfp_src_convert siddecfp GST_FORMAT_BYTES value GST_FORMAT_TIME
  = Some (to_gint64 (gst_util_uint64_scale_int (to_guint64 value) GST_SECOND
            (2 * playback (config siddecfp) * frequency (config siddecfp)))).
Proof.
  unfold gst_siddecfp_src_convert. cbn [GstFormat_eqb].
  rewrite bytes_per_sample_negotiated, byterate_negotiated.
  destruct (Z.eqb_spec (2 * playback (config siddecfp)
                        * frequency (config siddecfp)) 0) as [E | _];
    [nia | reflexivity].
Qed.

Lemma convert_time_to_bytes (time : Z) :
  gst_siddecfp_src_convert siddecfp GST_FORMAT_TIME time GST_FORMAT_BYTES
  = Some (to_gint64 (gst_util_uint64_scale_int (to_guint64 time)
            (2 * playback (config siddecfp) * frequency (config siddecfp))
            GST_SECOND)).
Proof.
  unfold gst_siddecfp_src_convert. cbn [GstFormat_eqb].
  rewrite bytes_per_sample_negotiated, byterate_negotiated. reflexivity.
Qed.

End NegotiatedFormat.

Lemma scale_int_exact (val num denom : Z) :
  0 < denom -> 0 <= num -> val * num / denom <= G_MAXUINT64 ->
  gst_util_uint64_scale_int val num denom = val * num / denom.
Proof.
  intros Hd Hn Hr. unfold gst_util_uint64_scale_int.
  destruct (Z.leb_spec denom 0); [lia |].
  destruct (Z.ltb_spec num 0); [lia |].
  cbv zeta. destruct (Z.gtb_spec (val * num / denom) G_MAXUINT64); [lia |].
  reflexivity.
Qed.

(** Scaling up by [GST_SECOND / byterate] and back down loses less than one
    byte as long as the byte rate is below [GST_SECOND]. *)
Lemma scale_there_and_back (value byterate : Z) :
  0 <= value -> 0 < byterate < GST_SECOND ->
  value - 1 <= value * GST_SECOND / byterate * byterate / GST_SECOND <= value.
Proof.
  intros Hv Hb. unfold GST_SECOND in *.
  set (t := value * 1000000000 / byterate).
  assert (Ht1 : t * byterate <= value * 1000000000).
  { unfold t. rewrite Z.mul_comm. apply Z.mul_div_le. lia. }
  assert (Ht2 : value * 1000000000 < (t + 1) * byterate).
  { unfold t.
    pose proof (Z.mul_succ_div_gt (value * 1000000000) byterate). lia. }
  split.
  - apply Z.div_le_lower_bound; [lia |]. nia.
  - apply Z.div_le_upper_bound; [lia |]. nia.
Qed.

(** C5 (amended).  For a positive value, a rate in 8000..48000 and one or two
    channels, BYTES to TIME and back to BYTES succeeds, gives a value that is
    not negative, not above the original and within [2 * channels] of it,
    provided the time in nanoseconds fits the 64 bits of the result. *)
Theorem bytes_time_bytes_roundtrip :
  forall (siddecfp : GstSidDecFp) (value rate channels : Z),
    0 < value ->
    8000 <= rate <= 48000 ->
    channels = 1 \/ channels = 2 ->
    frequency (config siddecfp) = rate ->
    playback (config siddecfp) = channels ->
    value * GST_SECOND / (2 * channels * rate) <= G_MAXUINT64 ->
    exists back : Z,
      bytes_time_bytes siddecfp value = Some back
      /\ 0 <= back <= value
      /\ value - back <= 2 * channels.
Proof.
  intros siddecfp value rate channels Hv Hrate Hch Hf Hp Hfit.
  subst rate channels.
  set (br := 2 * playback (config siddecfp) * frequency (config siddecfp))
    in *.
  assert (Hbr : 16000 <= br <= 192000) by (unfold br; nia).
  assert (Hvalue : value < 2 ^ 63).
  { unfold G_MAXUINT64, GST_SECOND in Hfit.
    assert (value * 1000000000 < (2 ^ 64 - 1 + 1) * br).
    { pose proof (Z.mul_succ_div_gt (value * 1000000000) br). nia. }
    nia. }
  unfold bytes_time_bytes.
  rewrite convert_bytes_to_time by assumption. fold br.
  rewrite convert_time_to_bytes by assumption. fold br.
  rewrite to_guint64_to_gint64.
  rewrite (to_guint64_small value) by lia.
  rewrite (scale_int_exact value GST_SECOND br)
    by (unfold GST_SECOND; lia || assumption).
  set (t := value * GST_SECOND / br) in *.
  assert (Ht : 0 <= t).
  { unfold t. apply Z.div_pos; unfold GST_SECOND; lia. }
  rewrite (to_guint64_small t) by (unfold G_MAXUINT64 in Hfit; lia).
  pose proof (scale_there_and_back value br ltac:(lia)
                ltac:(unfold GST_SECOND; lia)) as Hback.
  fold t in Hback.
  rewrite (scale_int_exact t br GST_SECOND)
    by (unfold GST_SECOND, G_MAXUINT64 in *; lia).
  rewrite to_gint64_small by lia.
  eexists. split; [reflexivity |]. lia.
Qed.

Lemma bytes_time_bytes_roundtrip_witness :
  exists back : Z,
    bytes_time_bytes (negotiated 44100 2) 4096 = Some back
    /\ 0 <= back <= 4096
    /\ 4096 - back <= 2 * 2.
Proof.
  apply (bytes_time_bytes_roundtrip (negotiated 44100 2) 4096 44100 2).
  - lia.
  - lia.
  - right; reflexivity.
  - reflexivity.
  - reflexivity.
  - vm_compute. discriminate.
Defined.

(** C5, as stated, fails where the time saturates: 2^62 bytes of mono audio
    at 8000 Hz are more nanoseconds than 64 bits hold, the converter answers
    [G_MAXUINT64] (read as -1), and the way back lands far from 2^62. *)
Lemma bytes_time_bytes_roundtrip_counterexample :
  0 < 2 ^ 62
  /\ gst_siddecfp_src_convert (negotiated 8000 1) GST_FORMAT_BYTES (2 ^ 62)
       GST_FORMAT_TIME = Some (-1)
  /\ bytes_time_bytes (negotiated 8000 1) (2 ^ 62) = Some 295147905179352
  /\ ~ (2 ^ 62 - 295147905179352 <= 2 * 1).
Proof.
  split; [lia |]. split; [vm_compute; reflexivity |].
  split; [vm_compute; reflexivity |]. lia.
Qed.

(** ** Tune ingest *)

Lemma chain_unfold (siddecfp : GstSidDecFp) (buffer : list Byte.byte) :
  tune_len_ok siddecfp -> in_memory buffer ->
  gst_siddecfp_chain siddecfp buffer
  = if tune_len siddecfp + Z.of_nat (List.length buffer)
         >? MAX_SID_TUNE_BUF_SIZE
    then (GST_FLOW_ERROR, siddecfp,
          [GST_ELEMENT_ERROR "STREAM" "DECODE"
             "Input data bigger than allowed buffer size"])
    else (GST_FLOW_OK,
          set_tune siddecfp
            (gst_buffer_extract (tune_buffer siddecfp) (tune_len siddecfp)
               buffer)
            (tune_len siddecfp + Z.of_nat (List.length buffer)),
          []).
Proof.
  unfold tune_len_ok, in_memory, gst_siddecfp_chain, MAX_SID_TUNE_BUF_SIZE,
    DEFAULT_BLOCKSIZE, G_MAXUINT64.
  intros Hlen Hmem.
  rewrite (to_guint64_small (tune_len siddecfp)) by lia.
  rewrite (to_guint64_small (tune_len siddecfp + _)) by lia.
  destruct (Z.gtb_spec (tune_len siddecfp + Z.of_nat (List.length buffer))
              (8 * 4096)) as [Hgt | Hle].
  - reflexivity.
  - rewrite to_gint_small by lia. reflexivity.
Qed.

Lemma chain_keeps_tune_len_ok (siddecfp : GstSidDecFp)
    (buffer : list Byte.byte) :
  tune_len_ok siddecfp -> in_memory buffer ->
  tune_len_ok (snd (fst (gst_siddecfp_chain siddecfp buffer))).
Proof.
  intros Hlen Hmem. rewrite chain_unfold by assumption.
  destruct (Z.gtb_spec (tune_len siddecfp + Z.of_nat (List.length buffer))
              MAX_SID_TUNE_BUF_SIZE); cbn [fst snd].
  - exact Hlen.
  - unfold tune_len_ok in *. cbn [set_tune tune_len]. lia.
Qed.

Lemma chain_all_within_capacity (chunks : list (list Byte.byte)) :
  forall siddecfp : GstSidDecFp,
    tune_len_ok siddecfp -> Forall in_memory chunks ->
    tune_len siddecfp + total_size chunks <= MAX_SID_TUNE_BUF_SIZE ->
    fst (chain_all siddecfp chunks) = map (fun _ => GST_FLOW_OK) chunks
    /\ tune_len (snd (chain_all siddecfp chunks))
       = tune_len siddecfp + total_size chunks.
Proof.
  induction chunks as [| buffer rest IH]; intros siddecfp Hlen Hmem Htotal.
  - cbn. split; [reflexivity | lia].
  - inversion Hmem as [| ? ? Hb Hrest]; subst.
    cbn [chain_all total_size fold_right map] in *.
    fold (total_size rest) in *.
    assert (Hrest_pos : 0 <= total_size rest).
    { clear. induction rest as [| b r IHr]; cbn; [lia |].
      fold (total_size r). lia. }
    rewrite chain_unfold by assumption.
    destruct (Z.gtb_spec (tune_len siddecfp + Z.of_nat (List.length buffer))
                MAX_SID_TUNE_BUF_SIZE) as [Hgt | Hle]; [lia |].
    set (s' := set_tune siddecfp _ _).
    specialize (IH s').
    destruct (chain_all s' rest) as [rets final] eqn:E.
    cbn [fst snd] in *.
    assert (Hs' : tune_len s'
                  = tune_len siddecfp + Z.of_nat (List.length buffer))
      by reflexivity.
    destruct IH as [IH1 IH2].
    + unfold tune_len_ok in *. lia.
    + assumption.
    + lia.
    + split; [f_equal; exact IH1 | lia].
Qed.

(** C6.  With the accumulated length within the capacity of 32768 bytes, an
    append fails (with [GST_FLOW_ERROR] and a reported error, the state left
    as it was) exactly when the accumulated length plus the size of the
    chunk exceeds the capacity, and otherwise succeeds and increases the
    stored length by exactly that size; every sequence whose total stays
    within the capacity is ingested without error; and in a sequence the
    failure is at the first chunk that crosses the boundary. *)
Theorem chain_overflow_exactly_beyond_capacity :
  forall siddecfp : GstSidDecFp,
    tune_len_ok siddecfp ->
    (forall buffer : list Byte.byte,
        in_memory buffer ->
        let '(ret, siddecfp', calls) := gst_siddecfp_chain siddecfp buffer in
        (ret = GST_FLOW_ERROR
         <-> tune_len siddecfp + Z.of_nat (List.length buffer)
             > MAX_SID_TUNE_BUF_SIZE)
        /\ (ret = GST_FLOW_ERROR ->
            siddecfp' = siddecfp
            /\ calls = [GST_ELEMENT_ERROR "STREAM" "DECODE"
                          "Input data bigger than allowed buffer size"])
        /\ (ret <> GST_FLOW_ERROR ->
            ret = GST_FLOW_OK
            /\ calls = []
            /\ tune_len siddecfp'
               = tune_len siddecfp + Z.of_nat (List.length buffer)))
    /\ (forall chunks : list (list Byte.byte),
           Forall in_memory chunks ->
           tune_len siddecfp + total_size chunks <= MAX_SID_TUNE_BUF_SIZE ->
           fst (chain_all siddecfp chunks) = map (fun _ => GST_FLOW_OK) chunks
           /\ tune_len (snd (chain_all siddecfp chunks))
              = tune_len siddecfp + total_size chunks)
    /\ (forall (before : list (list Byte.byte)) (buffer : list Byte.byte)
               (after : list (list Byte.byte)),
           Forall in_memory (before ++ buffer :: after) ->
           tune_len siddecfp + total_size before <= MAX_SID_TUNE_BUF_SIZE ->
           tune_len siddecfp + total_size before
             + Z.of_nat (List.length buffer) > MAX_SID_TUNE_BUF_SIZE ->
           exists rets : list GstFlowReturn,
             fst (chain_all siddecfp (before ++ buffer :: after))
             = map (fun _ => GST_FLOW_OK) before ++ GST_FLOW_ERROR :: rets).
Proof.
  intros siddecfp Hlen. split; [| split].
  - intros buffer Hmem. rewrite chain_unfold by assumption.
    destruct (Z.gtb_spec (tune_len siddecfp + Z.of_nat (List.length buffer))
                MAX_SID_TUNE_BUF_SIZE) as [Hgt | Hle].
    + split; [split; [lia | reflexivity] |].
      split; [intros _; split; reflexivity | intros H; contradiction].
    + split; [split; [discriminate | lia] |].
      split; [discriminate |]. intros _.
      split; [reflexivity |]. split; reflexivity.
  - intros chunks Hmem Htotal.
    apply chain_all_within_capacity; assumption.
  - intros before. revert siddecfp Hlen.
    induction before as [| b rest IH];
      intros siddecfp Hlen buffer after Hmem Hbefore Hcross.
    + cbn [app map] in *. cbn [total_size fold_right] in Hcross.
      inversion Hmem as [| ? ? Hb Hafter]; subst.
      cbn [chain_all]. rewrite chain_unfold by assumption.
      destruct (Z.gtb_spec
                  (tune_len siddecfp + Z.of_nat (List.length buffer))
                  MAX_SID_TUNE_BUF_SIZE) as [Hgt | Hle]; [| lia].
      destruct (chain_all siddecfp after) as [rets final].
      exists rets. reflexivity.
    + cbn [app map] in *. cbn [total_size fold_right] in Hbefore, Hcross.
      fold (total_size rest) in *.
      inversion Hmem as [| ? ? Hb Hrest]; subst.
      assert (Hrest_pos : 0 <= total_size rest).
      { clear. induction rest as [| c r IHr]; cbn; [lia |].
        fold (total_size r). lia. }
      cbn [chain_all]. rewrite chain_unfold by assumption.
      destruct (Z.gtb_spec (tune_len siddecfp + Z.of_nat (List.length b))
                  MAX_SID_TUNE_BUF_SIZE) as [Hgt | Hle]; [lia |].
      set (s' := set_tune siddecfp _ _).
      assert (Hs' : tune_len s'
                    = tune_len siddecfp + Z.of_nat (List.length b))
        by reflexivity.
      destruct (IH s') with (buffer := buffer) (after := after)
        as [rets Hrets].
      * unfold tune_len_ok in *. lia.
      * assumption.
      * lia.
      * lia.
      * destruct (chain_all s' (rest ++ buffer :: after)) as [rs final].
        cbn [fst] in *. exists rets. f_equal. exact Hrets.
Qed.

Lemma chain_overflow_witness :
  fst (chain_all (gst_siddecfp_init []) [[Byte.x50; Byte.x53]; [Byte.x49]])
  = [GST_FLOW_OK; GST_FLOW_OK]
  /\ tune_len (snd (chain_all (gst_siddecfp_init [])
                      [[Byte.x50; Byte.x53]; [Byte.x49]])) = 0 + 3.
Proof.
  assert (Hlen : tune_len_ok (gst_siddecfp_init [])).
  { unfold tune_len_ok. cbn. lia. }
  destruct (chain_overflow_exactly_beyond_capacity (gst_siddecfp_init [])
              Hlen) as (_ & Hseq & _).
  apply (Hseq [[Byte.x50; Byte.x53]; [Byte.x49]]).
  - repeat constructor; unfold in_memory; cbn; lia.
  - cbn. lia.
Defined.

(** ** ROM properties *)

(** C1, as stated, fails: a kernal ROM of the right size is stored, and the
    assignment of a one-byte array after it leaves no ROM stored at all. *)
Lemma rom_wrong_size_counterexample :
  kernal kernal_stored = Some (zero_rom 8192)
  /\ Z.of_nat (List.length [Byte.x00]) <> 8192
  /\ kernal (fst (gst_siddecfp_set_property kernal_stored PROP_KERNAL
                    (G_VALUE_BOXED (Some [Byte.x00])))) = None
  /\ kernal (fst (gst_siddecfp_set_property kernal_stored PROP_KERNAL
                    (G_VALUE_BOXED (Some [Byte.x00]))))
     <> kernal kernal_stored.
Proof.
  assert (Hstored : kernal kernal_stored = Some (zero_rom 8192))
    by (vm_compute; reflexivity).
  split; [exact Hstored |].
  split; [cbn; lia |].
  split; [reflexivity |].
  rewrite Hstored. cbn. discriminate.
Qed.

(** C1 (amended).  For every decoder state and every byte array assigned to
    the kernal, basic or chargen property: an array of exactly the expected
    size (8192, 8192, 4096) is stored as a copy; every other array, and no
    array, is not stored and leaves the ROM absent; in every case the array
    stored before, if there was one, is released, which is all the
    assignment calls besides handing the configuration to the player; the
    two other ROMs stay as they are. *)
Theorem rom_assignment_by_size :
  forall (siddecfp : GstSidDecFp) (src : option GByteArray),
    (kernal (fst (gst_siddecfp_set_property siddecfp PROP_KERNAL
                    (G_VALUE_BOXED src))) = rom_of_size src 8192
     /\ snd (gst_siddecfp_set_property siddecfp PROP_KERNAL
               (G_VALUE_BOXED src))
        = List.map g_byte_array_free (option_list (kernal siddecfp))
          ++ [player_config (config siddecfp)]
     /\ basic (fst (gst_siddecfp_set_property siddecfp PROP_KERNAL
                      (G_VALUE_BOXED src))) = basic siddecfp
     /\ chargen (fst (gst_siddecfp_set_property siddecfp PROP_KERNAL
                        (G_VALUE_BOXED src))) = chargen siddecfp)
    /\ (basic (fst (gst_siddecfp_set_property siddecfp PROP_BASIC
                      (G_VALUE_BOXED src))) = rom_of_size src 8192
        /\ snd (gst_siddecfp_set_property siddecfp PROP_BASIC
                  (G_VALUE_BOXED src))
           = List.map g_byte_array_free (option_list (basic siddecfp))
             ++ [player_config (config siddecfp)]
        /\ kernal (fst (gst_siddecfp_set_property siddecfp PROP_BASIC
                          (G_VALUE_BOXED src))) = kernal siddecfp
        /\ chargen (fst (gst_siddecfp_set_property siddecfp PROP_BASIC
                           (G_VALUE_BOXED src))) = chargen siddecfp)
    /\ (chargen (fst (gst_siddecfp_set_property siddecfp PROP_CHARGEN
                        (G_VALUE_BOXED src))) = rom_of_size src 4096
        /\ snd (gst_siddecfp_set_property siddecfp PROP_CHARGEN
                  (G_VALUE_BOXED src))
           = List.map g_byte_array_free (option_list (chargen siddecfp))
             ++ [player_config (config siddecfp)]
        /\ kernal (fst (gst_siddecfp_set_property siddecfp PROP_CHARGEN
                          (G_VALUE_BOXED src))) = kernal siddecfp
        /\ basic (fst (gst_siddecfp_set_property siddecfp PROP_CHARGEN
                         (G_VALUE_BOXED src))) = basic siddecfp)
    /\ (rom_of_size src 8192 = None <->
        forall data : GByteArray,
          src = Some data -> Z.of_nat (List.length data) <> 8192)
    /\ (rom_of_size src 4096 = None <->
        forall data : GByteArray,
          src = Some data -> Z.of_nat (List.length data) <> 4096).
Proof.
  intros siddecfp src.
  unfold gst_siddecfp_set_property, copy_byte_array, rom_of_size.
  cbn [g_value_get_boxed].
  assert (Hnone : forall expected : Z,
             match src with
             | Some data =>
                 if Z.of_nat (List.length data) =? expected
                 then Some data else None
             | None => None
             end = None <->
             (forall data : GByteArray,
                 src = Some data -> Z.of_nat (List.length data) <> expected)).
  { intros expected. destruct src as [data |].
    - destruct (Z.eqb_spec (Z.of_nat (List.length data)) expected) as [E | N].
      + split; [discriminate |]. intros H. exfalso.
        exact (H data eq_refl E).
      + split; [| reflexivity]. intros _ d [= <-]. exact N.
    - split; [| reflexivity]. intros _ d. discriminate. }
  split; [| split; [| split; [| split; [apply Hnone | apply Hnone]]]].
  - destruct (kernal siddecfp); (destruct src as [data |];
      [destruct (Z.of_nat (List.length data) =? 8192) |]);
      cbn; repeat split; reflexivity.
  - destruct (basic siddecfp); (destruct src as [data |];
      [destruct (Z.of_nat (List.length data) =? 8192) |]);
      cbn; repeat split; reflexivity.
  - destruct (chargen siddecfp); (destruct src as [data |];
      [destruct (Z.of_nat (List.length data) =? 4096) |]);
      cbn; repeat split; reflexivity.
Qed.

(** ** Production loop *)

(** One run of [play_loop]: the request to the emulator, one buffer of
    [blocksize] bytes stamped from the positions before and after the
    advance, and the reaction to the result of the push. *)
Lemma play_loop_shape (siddecfp : GstSidDecFp) (samples : Z)
    (ret : GstFlowReturn) :
  exists out : GstBuffer,
    play_loop siddecfp samples ret
    = (advance siddecfp samples,
       [player_play (blocksize siddecfp / 2); gst_pad_push out]
       ++ after_push ret)
    /\ buffer_size out = blocksize siddecfp
    /\ GST_BUFFER_OFFSET out = offset_stamp siddecfp
    /\ GST_BUFFER_OFFSET_END out = offset_stamp (advance siddecfp samples)
    /\ GST_BUFFER_TIMESTAMP out
       = match position_time siddecfp with
         | Some time => to_guint64 time
         | None => GST_CLOCK_TIME_NONE
         end
    /\ GST_BUFFER_DURATION out
       = match position_time (advance siddecfp samples) with
         | Some value =>
             to_guint64 (to_gint64 (value - match position_time siddecfp with
                                            | Some time => time
                                            | None => 0
                                            end))
         | None => GST_CLOCK_TIME_NONE
         end.
Proof.
  unfold play_loop, after_push, offset_stamp, position_time.
  fold (advance siddecfp samples).
  destruct (gst_siddecfp_src_convert siddecfp GST_FORMAT_BYTES
              (to_gint64 (total_bytes siddecfp)) GST_FORMAT_DEFAULT);
    destruct (gst_siddecfp_src_convert siddecfp GST_FORMAT_BYTES
                (to_gint64 (total_bytes siddecfp)) GST_FORMAT_TIME);
    destruct (gst_siddecfp_src_convert (advance siddecfp samples)
                GST_FORMAT_BYTES
                (to_gint64 (total_bytes (advance siddecfp samples)))
                GST_FORMAT_DEFAULT);
    destruct (gst_siddecfp_src_convert (advance siddecfp samples)
                GST_FORMAT_BYTES
                (to_gint64 (total_bytes (advance siddecfp samples)))
                GST_FORMAT_TIME);
    destruct (ret =? GST_FLOW_OK);
    eexists; (split; [reflexivity |]); cbn; repeat split; reflexivity.
Qed.

Lemma pushed_buffers_app (calls calls' : list Action) :
  pushed_buffers (calls ++ calls')
  = pushed_buffers calls ++ pushed_buffers calls'.
Proof.
  induction calls as [| a calls IH]; [reflexivity |].
  destruct a; cbn [app pushed_buffers]; rewrite IH; reflexivity.
Qed.

Lemma pushed_buffers_after_push (ret : GstFlowReturn) :
  pushed_buffers (after_push ret) = [].
Proof.
  unfold after_push.
  destruct (ret =? GST_FLOW_OK); [reflexivity |].
  destruct (ret =? GST_FLOW_EOS); [reflexivity |].
  destruct ((ret <? GST_FLOW_EOS) || (ret =? GST_FLOW_NOT_LINKED));
    reflexivity.
Qed.

(** The task pauses exactly where the push was not OK. *)
Lemma pause_after_push (ret : GstFlowReturn) :
  existsb is_pause_task (after_push ret) = negb (ret =? GST_FLOW_OK).
Proof.
  unfold after_push.
  destruct (ret =? GST_FLOW_OK); [reflexivity |].
  destruct (ret =? GST_FLOW_EOS); [reflexivity |].
  destruct ((ret <? GST_FLOW_EOS) || (ret =? GST_FLOW_NOT_LINKED));
    reflexivity.
Qed.

Lemma task_after_iteration (out : GstBuffer) (count : Z)
    (ret : GstFlowReturn) (started : bool) :
  (if existsb (fun a => match a with
                        | gst_pad_pause_task => true
                        | _ => false
                        end)
        ([player_play count; gst_pad_push out] ++ after_push ret)
   then false else started)
  = started && (ret =? GST_FLOW_OK).
Proof.
  fold is_pause_task. cbn [app existsb is_pause_task orb].
  rewrite pause_after_push.
  destruct (ret =? GST_FLOW_OK), started; reflexivity.
Qed.

(** C10.  Whatever the emulator produced and whatever the push returns,
    [play_loop] pushes exactly one buffer and its data size is the configured
    blocksize; the number of samples produced shows only in the stamps. *)
Theorem pushed_buffer_has_blocksize :
  forall (siddecfp : GstSidDecFp) (samples : Z) (ret : GstFlowReturn),
    exists out : GstBuffer,
      pushed_buffers (snd (play_loop siddecfp samples ret)) = [out]
      /\ buffer_size out = blocksize siddecfp
      /\ GST_BUFFER_OFFSET out = offset_stamp siddecfp
      /\ GST_BUFFER_TIMESTAMP out
         = match position_time siddecfp with
           | Some time => to_guint64 time
           | None => GST_CLOCK_TIME_NONE
           end
      /\ GST_BUFFER_OFFSET_END out = offset_stamp (advance siddecfp samples)
      /\ GST_BUFFER_DURATION out
         = match position_time (advance siddecfp samples) with
           | Some value =>
               to_guint64
                 (to_gint64 (value - match position_time siddecfp with
                                     | Some time => time
                                     | None => 0
                                     end))
           | None => GST_CLOCK_TIME_NONE
           end.
Proof.
  intros siddecfp samples ret.
  destruct (play_loop_shape siddecfp samples ret)
    as (out & Hrun & Hsize & Hoff & Hend & Htime & Hdur).
  exists out. rewrite Hrun. cbn [snd app pushed_buffers].
  rewrite pushed_buffers_after_push. auto 8.
Qed.

(** C2, as stated, fails for a result that is neither OK nor end-of-stream
    nor an error: on [GST_FLOW_FLUSHING] the loop pauses and neither reports
    an error nor sends an end-of-stream event. *)
Lemma push_flushing_counterexample :
  GST_FLOW_FLUSHING <> GST_FLOW_OK
  /\ GST_FLOW_FLUSHING <> GST_FLOW_EOS
  /\ existsb is_flow_error
       (snd (play_loop (negotiated 44100 1) 2048 GST_FLOW_FLUSHING)) = false
  /\ existsb is_eos_event
       (snd (play_loop (negotiated 44100 1) 2048 GST_FLOW_FLUSHING)) = false
  /\ existsb is_pause_task
       (snd (play_loop (negotiated 44100 1) 2048 GST_FLOW_FLUSHING)) = true.
Proof.
  repeat split; try discriminate; vm_compute; reflexivity.
Qed.

(** C2 (amended).  For every result of the push other than OK the loop
    stops: the task is paused after the buffer was pushed.  On end-of-stream
    an end-of-stream event is sent and no error reported.  On a result below
    end-of-stream (not-negotiated, error, not-supported, custom errors) and
    on not-linked an error is reported and an end-of-stream event sent.  On
    the remaining results (flushing, custom successes) neither happens. *)
Theorem push_rejected_stops_loop :
  forall (siddecfp : GstSidDecFp) (samples : Z) (ret : GstFlowReturn),
    ret <> GST_FLOW_OK ->
    exists (out : GstBuffer) (events : list Action),
      snd (play_loop siddecfp samples ret)
      = [player_play (blocksize siddecfp / 2); gst_pad_push out]
        ++ events ++ [gst_pad_pause_task]
      /\ task_started
           (fst (step (mkElement siddecfp true) (task_iteration samples ret)))
         = false
      /\ (ret = GST_FLOW_EOS -> events = [gst_pad_push_event eos])
      /\ (ret < GST_FLOW_EOS \/ ret = GST_FLOW_NOT_LINKED ->
          events = [GST_ELEMENT_FLOW_ERROR ret; gst_pad_push_event eos])
      /\ (GST_FLOW_EOS < ret /\ ret <> GST_FLOW_NOT_LINKED -> events = []).
Proof.
  intros siddecfp samples ret Hret.
  destruct (play_loop_shape siddecfp samples ret) as (out & Hrun & _).
  assert (Hok : (ret =? GST_FLOW_OK) = false) by (apply Z.eqb_neq; exact Hret).
  exists out.
  exists (if ret =? GST_FLOW_EOS
          then [gst_pad_push_event eos]
          else if (ret <? GST_FLOW_EOS) || (ret =? GST_FLOW_NOT_LINKED)
          then [GST_ELEMENT_FLOW_ERROR ret; gst_pad_push_event eos]
          else []).
  split; [| split; [| split; [| split]]].
  - rewrite Hrun. cbn [snd]. unfold after_push. rewrite Hok. reflexivity.
  - cbn [step task_started decoder]. rewrite Hrun.
    cbn [task_started fst]. rewrite task_after_iteration. exact Hok.
  - intros ->. reflexivity.
  - unfold GST_FLOW_EOS, GST_FLOW_NOT_LINKED. intros H.
    destruct (Z.eqb_spec ret (-3)); [lia |].
    destruct (Z.ltb_spec ret (-3)); [reflexivity |].
    destruct (Z.eqb_spec ret (-1)); [reflexivity | lia].
  - unfold GST_FLOW_EOS, GST_FLOW_NOT_LINKED. intros [H1 H2].
    destruct (Z.eqb_spec ret (-3)); [lia |].
    destruct (Z.ltb_spec ret (-3)); [lia |].
    destruct (Z.eqb_spec ret (-1)); [contradiction | reflexivity].
Qed.

Lemma push_rejected_stops_loop_witness :
  exists (out : GstBuffer) (events : list Action),
    snd (play_loop (negotiated 44100 1) 2048 GST_FLOW_ERROR)
    = [player_play (blocksize (negotiated 44100 1) / 2); gst_pad_push out]
      ++ events ++ [gst_pad_pause_task]
    /\ task_started
         (fst (step (mkElement (negotiated 44100 1) true)
                 (task_iteration 2048 GST_FLOW_ERROR)))
       = false
    /\ (GST_FLOW_ERROR = GST_FLOW_EOS -> events = [gst_pad_push_event eos])
    /\ (GST_FLOW_ERROR < GST_FLOW_EOS \/ GST_FLOW_ERROR = GST_FLOW_NOT_LINKED ->
        events = [GST_ELEMENT_FLOW_ERROR GST_FLOW_ERROR;
                  gst_pad_push_event eos])
    /\ (GST_FLOW_EOS < GST_FLOW_ERROR
        /\ GST_FLOW_ERROR <> GST_FLOW_NOT_LINKED -> events = []).
Proof.
  apply (push_rejected_stops_loop (negotiated 44100 1) 2048 GST_FLOW_ERROR).
  discriminate.
Defined.

(** The converter reads the decoder's configuration only. *)
Lemma convert_depends_on_config (s1 s2 : GstSidDecFp)
    (src_format : GstFormat) (src_value : Z) (dest_format : GstFormat) :
  config s1 = config s2 ->
  gst_siddecfp_src_convert s1 src_format src_value dest_format
  = gst_siddecfp_src_convert s2 src_format src_value dest_format.
Proof. intros H. unfold gst_siddecfp_src_convert. rewrite H. reflexivity. Qed.

Lemma advance_config (siddecfp : GstSidDecFp) (samples : Z) :
  config (advance siddecfp samples) = config siddecfp.
Proof. reflexivity. Qed.

Lemma advance_total_bytes (siddecfp : GstSidDecFp) (samples : Z) :
  0 <= samples -> samples * 2 <= G_MAXUINT ->
  0 <= total_bytes siddecfp ->
  total_bytes siddecfp + 2 * samples < 2 ^ 64 ->
  total_bytes (advance siddecfp samples) = total_bytes siddecfp + 2 * samples.
Proof.
  intros Hs Hmax Ht Hfit. unfold advance, G_MAXUINT in *.
  cbn [total_bytes set_total_bytes].
  rewrite to_guint_small by lia. rewrite to_guint64_small by lia. lia.
Qed.

(** C4.  In one iteration of the loop, for every block size of at least one
    byte and one or two negotiated channels: the emulator is asked for
    [blocksize / 2] samples; the position advances by exactly twice the
    number of samples it returns; offset and timestamp of the buffer are the
    conversions of the position before the advance, end-offset and duration
    come from the conversions of the position after it. *)
Theorem play_loop_iteration :
  forall (siddecfp : GstSidDecFp) (samples : Z) (ret : GstFlowReturn),
    1 <= blocksize siddecfp <= G_MAXUINT ->
    0 <= samples <= blocksize siddecfp / 2 ->
    playback (config siddecfp) = 1 \/ playback (config siddecfp) = 2 ->
    8000 <= frequency (config siddecfp) <= 48000 ->
    0 <= total_bytes siddecfp ->
    total_bytes siddecfp + 2 * samples < 2 ^ 63 ->
    exists (siddecfp' : GstSidDecFp) (out : GstBuffer) (rest : list Action)
           (offset time value_offset value_time : Z),
      play_loop siddecfp samples ret
      = (siddecfp',
         player_play (blocksize siddecfp / 2) :: gst_pad_push out :: rest)
      /\ total_bytes siddecfp' = total_bytes siddecfp + 2 * samples
      /\ config siddecfp' = config siddecfp
      /\ gst_siddecfp_src_convert siddecfp GST_FORMAT_BYTES
           (total_bytes siddecfp) GST_FORMAT_DEFAULT = Some offset
      /\ gst_siddecfp_src_convert siddecfp GST_FORMAT_BYTES
           (total_bytes siddecfp) GST_FORMAT_TIME = Some time
      /\ gst_siddecfp_src_convert siddecfp' GST_FORMAT_BYTES
           (total_bytes siddecfp') GST_FORMAT_DEFAULT = Some value_offset
      /\ gst_siddecfp_src_convert siddecfp' GST_FORMAT_BYTES
           (total_bytes siddecfp') GST_FORMAT_TIME = Some value_time
      /\ GST_BUFFER_OFFSET out = offset
      /\ offset = total_bytes siddecfp / (2 * playback (config siddecfp))
      /\ GST_BUFFER_TIMESTAMP out = to_guint64 time
      /\ GST_BUFFER_OFFSET_END out = value_offset
      /\ value_offset
         = total_bytes siddecfp' / (2 * playback (config siddecfp))
      /\ GST_BUFFER_DURATION out = to_guint64 (value_time - time).
Proof.
  intros siddecfp samples ret Hblock Hsamples Hch Hrate Hpos Hfit.
  assert (Hhalf : 2 * (blocksize siddecfp / 2) <= blocksize siddecfp)
    by (apply Z.mul_div_le; lia).
  destruct (play_loop_shape siddecfp samples ret)
    as (out & Hrun & _ & Hoff & Hend & Htime & Hdur).
  assert (Htotal : total_bytes (advance siddecfp samples)
                   = total_bytes siddecfp + 2 * samples).
  { apply advance_total_bytes; unfold G_MAXUINT in *; lia. }
  assert (Hch' : playback (config (advance siddecfp samples)) = 1
                 \/ playback (config (advance siddecfp samples)) = 2)
    by exact Hch.
  unfold offset_stamp, position_time in *.
  rewrite (to_gint64_small (total_bytes siddecfp)) in Hoff, Htime, Hdur
    by lia.
  rewrite (to_gint64_small (total_bytes (advance siddecfp samples)))
    in Hend, Hdur by lia.
  rewrite convert_bytes_to_samples in Hoff, Hend by assumption.
  rewrite convert_bytes_to_time in Htime, Hdur by assumption.
  rewrite convert_bytes_to_time in Hdur by assumption.
  rewrite to_guint64_to_gint64 in Hdur.
  assert (Hquot : forall v, 0 <= v < 2 ^ 63 ->
            to_gint64 (Z.quot v (2 * playback (config siddecfp)))
            = v / (2 * playback (config siddecfp))).
  { intros v Hv. rewrite Z.quot_div_nonneg by lia.
    apply to_gint64_small. split.
    - assert (0 <= v / (2 * playback (config siddecfp)))
        by (apply Z.div_pos; lia). lia.
    - assert (v / (2 * playback (config siddecfp)) <= v)
        by (apply Z.div_le_upper_bound; nia). lia. }
  assert (Hrange : forall v, 0 <= v < 2 ^ 63 ->
            0 <= v / (2 * playback (config siddecfp)) < 2 ^ 64).
  { intros v Hv. split.
    - apply Z.div_pos; lia.
    - assert (v / (2 * playback (config siddecfp)) <= v)
        by (apply Z.div_le_upper_bound; nia). lia. }
  rewrite advance_config in Hend.
  rewrite Hquot in Hoff, Hend by lia.
  rewrite to_guint64_small in Hoff, Hend by (apply Hrange; lia).
  eexists _, out, _, _, _, _, _.
  split; [exact Hrun |].
  split; [exact Htotal |].
  split; [reflexivity |].
  split; [rewrite convert_bytes_to_samples by assumption; reflexivity |].
  split; [rewrite convert_bytes_to_time by assumption; reflexivity |].
  split; [rewrite convert_bytes_to_samples by assumption; reflexivity |].
  split; [rewrite convert_bytes_to_time by assumption; reflexivity |].
  rewrite !advance_config.
  rewrite !Hquot by lia.
  split; [exact Hoff |].
  split; [reflexivity |].
  split; [exact Htime |].
  split; [exact Hend |].
  split; [reflexivity |].
  exact Hdur.
Qed.

Lemma play_loop_iteration_witness :
  exists (siddecfp' : GstSidDecFp) (out : GstBuffer) (rest : list Action),
    play_loop (negotiated 44100 2) 2048 GST_FLOW_OK
    = (siddecfp', player_play 2048 :: gst_pad_push out :: rest)
    /\ total_bytes siddecfp' = 4096
    /\ GST_BUFFER_OFFSET out = 0
    /\ GST_BUFFER_OFFSET_END out = 1024.
Proof.
  destruct (play_loop_iteration (negotiated 44100 2) 2048 GST_FLOW_OK)
    as (s' & out & rest & offset & time & voff & vtime & Hrun & Htotal & _
        & _ & _ & _ & _ & Hoff & Hoffset & _ & Hend & Hvalue & _).
  - cbn. unfold G_MAXUINT, DEFAULT_BLOCKSIZE. lia.
  - cbn. lia.
  - right. reflexivity.
  - cbn. lia.
  - cbn. lia.
  - cbn. lia.
  - exists s', out, rest.
    split; [exact Hrun |].
    split; [exact Htotal |].
    split.
    + rewrite Hoff, Hoffset. reflexivity.
    + rewrite Hend, Hvalue, Htotal. reflexivity.
Defined.

(** ** Runs of the task *)

(** While the task is not started its function does not run. *)
Lemma run_task_not_started (inputs : list Input) (e : Element) :
  forallb is_task_iteration inputs = true ->
  task_started e = false ->
  run e inputs = (e, []).
Proof.
  induction inputs as [| i rest IH]; intros Hall Hstopped; [reflexivity |].
  cbn [forallb] in Hall. apply andb_prop in Hall as [Hi Hrest].
  destruct i; try discriminate.
  cbn [run step]. rewrite Hstopped. rewrite (IH Hrest Hstopped). reflexivity.
Qed.

(** One iteration of a started task, followed by the rest of the run. *)
Lemma run_task_started (e : Element) (samples : Z) (ret : GstFlowReturn)
    (rest : list Input) :
  task_started e = true ->
  let e' := mkElement (advance (decoder e) samples) (ret =? GST_FLOW_OK) in
  exists out : GstBuffer,
    fst (run e (task_iteration samples ret :: rest)) = fst (run e' rest)
    /\ pushed_buffers (snd (run e (task_iteration samples ret :: rest)))
       = out :: pushed_buffers (snd (run e' rest))
    /\ GST_BUFFER_OFFSET out = offset_stamp (decoder e)
    /\ GST_BUFFER_OFFSET_END out = offset_stamp (decoder e').
Proof.
  intros Hstarted e'.
  destruct (play_loop_shape (decoder e) samples ret)
    as (out & Hrun & _ & Hoff & Hend & _).
  exists out. cbn [run step]. rewrite Hstarted, Hrun.
  rewrite task_after_iteration. cbn [andb]. fold e'.
  destruct (run e' rest) as [final calls]. cbn [fst snd].
  split; [reflexivity |]. split; [| split; assumption].
  rewrite !pushed_buffers_app, pushed_buffers_after_push. reflexivity.
Qed.

(** The first buffer of a run carries the position the run starts from. *)
Lemma first_buffer_offset (inputs : list Input) (e : Element)
    (b : GstBuffer) :
  forallb is_task_iteration inputs = true ->
  nth_error (pushed_buffers (snd (run e inputs))) 0 = Some b ->
  GST_BUFFER_OFFSET b = offset_stamp (decoder e).
Proof.
  intros Hall Hb. destruct inputs as [| i rest]; [discriminate |].
  destruct (task_started e) eqn:Hstarted.
  - cbn [forallb] in Hall. apply andb_prop in Hall as [Hi Hrest].
    destruct i; try discriminate.
    destruct (run_task_started e samples ret rest Hstarted)
      as (out & _ & Hbufs & Hoff & _).
    rewrite Hbufs in Hb. cbn in Hb. congruence.
  - rewrite run_task_not_started in Hb by assumption. discriminate.
Qed.

Lemma buffers_contiguous (inputs : list Input) :
  forall (e : Element) (n : nat) (b b' : GstBuffer),
    forallb is_task_iteration inputs = true ->
    nth_error (pushed_buffers (snd (run e inputs))) n = Some b ->
    nth_error (pushed_buffers (snd (run e inputs))) (S n) = Some b' ->
    GST_BUFFER_OFFSET_END b = GST_BUFFER_OFFSET b'.
Proof.
  induction inputs as [| i rest IH]; intros e n b b' Hall Hb Hb'.
  - destruct n; discriminate.
  - destruct (task_started e) eqn:Hstarted.
    + pose proof Hall as Hall'.
      cbn [forallb] in Hall'. apply andb_prop in Hall' as [Hi Hrest].
      destruct i; try discriminate.
      destruct (run_task_started e samples ret rest Hstarted)
        as (out & _ & Hbufs & _ & Hend).
      rewrite Hbufs in Hb, Hb'. cbn [nth_error] in Hb'.
      destruct n as [| m].
      * cbn in Hb. injection Hb as <-. rewrite Hend. symmetry.
        apply (first_buffer_offset rest _ b' Hrest Hb').
      * cbn [nth_error] in Hb. exact (IH _ m b b' Hrest Hb Hb').
    + rewrite run_task_not_started in Hb by assumption.
      destruct n; discriminate.
Qed.

Lemma offset_stamp_negotiated (siddecfp : GstSidDecFp) :
  playback (config siddecfp) = 1 \/ playback (config siddecfp) = 2 ->
  0 <= total_bytes siddecfp < 2 ^ 63 ->
  offset_stamp siddecfp
  = total_bytes siddecfp / (2 * playback (config siddecfp)).
Proof.
  intros Hch Hpos. unfold offset_stamp.
  rewrite to_gint64_small by lia.
  rewrite convert_bytes_to_samples by assumption.
  rewrite Z.quot_div_nonneg by lia.
  assert (0 <= total_bytes siddecfp / (2 * playback (config siddecfp))
          <= total_bytes siddecfp).
  { split; [apply Z.div_pos; lia | apply Z.div_le_upper_bound; nia]. }
  rewrite to_gint64_small by lia. apply to_guint64_small. lia.
Qed.

Lemma produced_bytes_nonneg (inputs : list Input) : 0 <= produced_bytes inputs.
Proof.
  induction inputs as [| i rest IH]; cbn [produced_bytes]; [lia |].
  destruct i; try exact IH.
  pose proof (to_guint_range (samples * 2)). lia.
Qed.

(** Every buffer of a run spans from the position before its iteration to
    the position after it, which is not smaller. *)
Lemma buffers_span (inputs : list Input) :
  forall e : Element,
    forallb is_task_iteration inputs = true ->
    playback (config (decoder e)) = 1 \/ playback (config (decoder e)) = 2 ->
    0 <= total_bytes (decoder e) ->
    total_bytes (decoder e) + produced_bytes inputs < 2 ^ 63 ->
    total_bytes (decoder e) <= total_bytes (decoder (fst (run e inputs)))
    /\ Forall (fun b => GST_BUFFER_OFFSET b <= GST_BUFFER_OFFSET_END b)
         (pushed_buffers (snd (run e inputs)))
    /\ (Forall (whole_frames (decoder e)) inputs ->
        Forall (fun b => GST_BUFFER_OFFSET b < GST_BUFFER_OFFSET_END b)
          (pushed_buffers (snd (run e inputs)))).
Proof.
  induction inputs as [| i rest IH]; intros e Hall Hch Hpos Hfit.
  - cbn. split; [lia |]. split; [constructor | intros _; constructor].
  - destruct (task_started e) eqn:Hstarted.
    + pose proof Hall as Hall'.
      cbn [forallb] in Hall'. apply andb_prop in Hall' as [Hi Hrest].
      destruct i; try discriminate.
      cbn [produced_bytes] in Hfit.
      pose proof (to_guint_range (samples * 2)) as Hbytes.
      pose proof (produced_bytes_nonneg rest) as Hprod.
      destruct (run_task_started e samples ret rest Hstarted)
        as (out & Hfinal & Hbufs & Hoff & Hend).
      set (e' := mkElement (advance (decoder e) samples)
                   (ret =? GST_FLOW_OK)) in *.
      assert (Htotal : total_bytes (decoder e')
                       = total_bytes (decoder e) + to_guint (samples * 2)).
      { cbn [e' decoder advance total_bytes set_total_bytes].
        apply to_guint64_small. lia. }
      assert (Hcfg : config (decoder e') = config (decoder e))
        by reflexivity.
      destruct (IH e' Hrest) as (IHpos & IHle & IHlt).
      { rewrite Hcfg. exact Hch. }
      { lia. }
      { lia. }
      rewrite offset_stamp_negotiated in Hoff by (assumption || lia).
      rewrite offset_stamp_negotiated in Hend
        by (rewrite ?Hcfg; assumption || lia).
      rewrite Hcfg, Htotal in Hend.
      rewrite Hfinal, Hbufs.
      split; [lia |]. split.
      * constructor; [| exact IHle].
        rewrite Hoff, Hend. apply Z.div_le_mono; lia.
      * intros Hwhole. inversion Hwhole as [| ? ? Hhead Htail]; subst.
        constructor.
        -- rewrite Hoff, Hend. cbn [whole_frames] in Hhead.
           set (bps := 2 * playback (config (decoder e))) in *.
           assert (Hstep : (total_bytes (decoder e) + 1 * bps) / bps
                           <= (total_bytes (decoder e)
                               + to_guint (samples * 2)) / bps)
             by (apply Z.div_le_mono; lia).
           rewrite Z.div_add in Hstep by lia. lia.
        -- apply IHlt. unfold whole_frames in *. rewrite Hcfg. exact Htail.
    + rewrite run_task_not_started by assumption. cbn [fst snd pushed_buffers].
      split; [lia |]. split; [constructor | intros _; constructor].
Qed.

Lemma start_play_tune_resets_position (env : SessionEnv)
    (siddecfp : GstSidDecFp) :
  fst (fst (start_play_tune env siddecfp)) = true ->
  total_bytes (snd (fst (start_play_tune env siddecfp))) = 0.
Proof.
  unfold start_play_tune.
  destruct (selectSong_ok env); [| discriminate].
  destruct (load_ok env); [| discriminate].
  cbn [negb].
  destruct (siddecfp_negotiate (negotiate_env env) siddecfp)
    as [[negotiated s1] calls1].
  destruct negotiated; [| discriminate].
  cbn [negb].
  destruct (create_builder (builder_env env) s1) as [[built s2] calls2].
  destruct built; [| discriminate].
  reflexivity.
Qed.

(** C3, as stated, fails on strictness: with a block size of one byte the
    emulator is asked for no samples and returns none, and two successive
    buffers carry the same start offset. *)
Lemma offsets_strictly_increasing_counterexample :
  exists b1 b2 : GstBuffer,
    snd (run (mkElement blocksize_one true)
           [task_iteration 0 GST_FLOW_OK; task_iteration 0 GST_FLOW_OK])
    = [player_play 0; gst_pad_push b1; player_play 0; gst_pad_push b2]
    /\ GST_BUFFER_OFFSET b1 = 0
    /\ GST_BUFFER_OFFSET b2 = 0
    /\ ~ (GST_BUFFER_OFFSET b1 < GST_BUFFER_OFFSET b2).
Proof.
  eexists _, _.
  split; [vm_compute; reflexivity |].
  split; [reflexivity |]. split; [reflexivity |].
  cbn. lia.
Qed.

(** C3 (amended).  In a run of the task, for every pair of consecutively
    pushed buffers the end-offset of the first is the start-offset of the
    second.  With one or two channels and a position that stays below 2^63
    bytes, the position does not decrease and the start offsets of
    successive buffers do not decrease; they increase strictly where every
    iteration produces at least one whole sample frame.  A session that
    [start_play_tune] starts begins at position zero. *)
Theorem offsets_contiguous_position_monotone :
  forall (e : Element) (inputs : list Input),
    forallb is_task_iteration inputs = true ->
    let final := fst (run e inputs) in
    let buffers := pushed_buffers (snd (run e inputs)) in
    (forall (n : nat) (b b' : GstBuffer),
        nth_error buffers n = Some b ->
        nth_error buffers (S n) = Some b' ->
        GST_BUFFER_OFFSET_END b = GST_BUFFER_OFFSET b')
    /\ (playback (config (decoder e)) = 1
        \/ playback (config (decoder e)) = 2 ->
        0 <= total_bytes (decoder e) ->
        total_bytes (decoder e) + produced_bytes inputs < 2 ^ 63 ->
        total_bytes (decoder e) <= total_bytes (decoder final)
        /\ (forall (n : nat) (b b' : GstBuffer),
               nth_error buffers n = Some b ->
               nth_error buffers (S n) = Some b' ->
               GST_BUFFER_OFFSET b <= GST_BUFFER_OFFSET b')
        /\ (Forall (whole_frames (decoder e)) inputs ->
            forall (n : nat) (b b' : GstBuffer),
              nth_error buffers n = Some b ->
              nth_error buffers (S n) = Some b' ->
              GST_BUFFER_OFFSET b < GST_BUFFER_OFFSET b'))
    /\ (forall (env : SessionEnv) (siddecfp : GstSidDecFp),
           fst (fst (start_play_tune env siddecfp)) = true ->
           total_bytes (snd (fst (start_play_tune env siddecfp))) = 0).
Proof.
  intros e inputs Hall final buffers.
  assert (Hcontiguous : forall (n : nat) (b b' : GstBuffer),
             nth_error buffers n = Some b ->
             nth_error buffers (S n) = Some b' ->
             GST_BUFFER_OFFSET_END b = GST_BUFFER_OFFSET b').
  { intros n b b' Hb Hb'.
    exact (buffers_contiguous inputs e n b b' Hall Hb Hb'). }
  split; [exact Hcontiguous |]. split.
  - intros Hch Hpos Hfit.
    destruct (buffers_span inputs e Hall Hch Hpos Hfit)
      as (Hfinal & Hle & Hlt).
    split; [exact Hfinal |]. split.
    + intros n b b' Hb Hb'.
      rewrite <- (Hcontiguous n b b' Hb Hb').
      rewrite Forall_forall in Hle. apply Hle.
      exact (nth_error_In _ _ Hb).
    + intros Hwhole n b b' Hb Hb'.
      rewrite <- (Hcontiguous n b b' Hb Hb').
      specialize (Hlt Hwhole). rewrite Forall_forall in Hlt. apply Hlt.
      exact (nth_error_In _ _ Hb).
  - intros env siddecfp. apply start_play_tune_resets_position.
Qed.

Lemma offsets_contiguous_position_monotone_witness :
  forallb is_task_iteration three_iterations = true
  /\ exists b b' : GstBuffer,
       nth_error (pushed_buffers
                    (snd (run (mkElement (negotiated 44100 2) true)
                            three_iterations))) 0 = Some b
       /\ nth_error (pushed_buffers
                       (snd (run (mkElement (negotiated 44100 2) true)
                               three_iterations))) 1 = Some b'
       /\ GST_BUFFER_OFFSET_END b = GST_BUFFER_OFFSET b'
       /\ GST_BUFFER_OFFSET b < GST_BUFFER_OFFSET b'.
Proof.
  split; [reflexivity |].
  eexists _, _.
  split; [vm_compute; reflexivity |].
  split; [vm_compute; reflexivity |].
  destruct (offsets_contiguous_position_monotone
              (mkElement (negotiated 44100 2) true) three_iterations
              eq_refl)
    as (Hcontiguous & Hmonotone & _).
  split.
  - apply (Hcontiguous 0%nat); vm_compute; reflexivity.
  - destruct Hmonotone as (_ & _ & Hstrict).
    + right. reflexivity.
    + cbn. lia.
    + vm_compute. reflexivity.
    + apply (Hstrict ltac:(repeat constructor; vm_compute; discriminate)
               0%nat); vm_compute; reflexivity.
Defined.

(** ** Format negotiation *)

Lemma get_int_declared (structure : option GstStructure) (fieldname : string)
    (value : Z) :
  gst_structure_get_int structure fieldname value
  = match declared_int structure fieldname with
    | Some i => i
    | None => value
    end.
Proof.
  unfold gst_structure_get_int, declared_int.
  destruct structure as [fields |]; [| reflexivity].
  destruct (lookup fieldname fields) as [[s | i | lo hi] |]; reflexivity.
Qed.

(** C7.  Negotiation fails, changing nothing and announcing nothing, when the
    allowed caps of the source pad cannot be had or their first normalized
    candidate does not declare the native 16-bit signed PCM format.
    Otherwise it succeeds; the stored sample rate is the rate the candidate
    declares (within 8000..48000) and 44100 if it declares none, the stored
    channel count is the declared one (1 or 2) and 1 if it declares none,
    and these are the values of the caps set on the source pad. *)
Theorem negotiate_requires_s16 :
  forall (env : NegotiateEnv) (siddecfp : GstSidDecFp),
    (allowed_caps env = None \/ is_S16_PCM (first_candidate env) = false ->
     siddecfp_negotiate env siddecfp
     = (false, siddecfp, [gst_pad_get_allowed_caps]))
    /\ (is_S16_PCM (first_candidate env) = true ->
        (forall rate : Z,
            declared_int (first_candidate env) "rate" = Some rate ->
            8000 <= rate <= 48000) ->
        (forall channels : Z,
            declared_int (first_candidate env) "channels" = Some channels ->
            1 <= channels <= 2) ->
        exists (siddecfp' : GstSidDecFp) (calls : list Action),
          siddecfp_negotiate env siddecfp = (true, siddecfp', calls)
          /\ frequency (config siddecfp')
             = match declared_int (first_candidate env) "rate" with
               | Some rate => rate
               | None => 44100
               end
          /\ playback (config siddecfp')
             = match declared_int (first_candidate env) "channels" with
               | Some channels => channels
               | None => 1
               end
          /\ In (gst_pad_set_caps "S16LE" "interleaved"
                   (frequency (config siddecfp'))
                   (playback (config siddecfp'))) calls
          /\ In (player_config (config siddecfp')) calls).
Proof.
  intros env siddecfp. unfold first_candidate, is_S16_PCM, siddecfp_negotiate.
  split.
  - intros [Hnone | Hformat].
    + rewrite Hnone. reflexivity.
    + destruct (allowed_caps env) as [allowed |]; [| reflexivity].
      destruct (gst_structure_get_string (nth_error allowed 0) "format")
        as [str |]; [| reflexivity].
      rewrite Hformat. reflexivity.
  - intros Hformat Hrate Hchannels.
    destruct (allowed_caps env) as [allowed |]; [| discriminate].
    destruct (gst_structure_get_string (nth_error allowed 0) "format")
      as [str |]; [| discriminate].
    rewrite Hformat. cbn [negb].
    rewrite !get_int_declared.
    set (declared_rate := declared_int (nth_error allowed 0) "rate") in *.
    set (declared_channels :=
           declared_int (nth_error allowed 0) "channels") in *.
    assert (Hfrequency :
              to_guint match declared_rate with
                       | Some i => i
                       | None => 44100
                       end
              = match declared_rate with
                | Some i => i
                | None => 44100
                end).
    { apply to_guint_small. destruct declared_rate as [rate |]; [| lia].
      specialize (Hrate rate eq_refl). lia. }
    assert (Hplayback :
              (if match declared_channels with
                  | Some i => i
                  | None => 1
                  end =? 1 then MONO else STEREO)
              = match declared_channels with
                | Some i => i
                | None => 1
                end).
    { destruct declared_channels as [channels |]; [| reflexivity].
      specialize (Hchannels channels eq_refl).
      destruct (Z.eqb_spec channels 1) as [-> | Hne]; [reflexivity |].
      unfold STEREO. lia. }
    assert (Hgint :
              to_gint match declared_rate with
                      | Some i => i
                      | None => 44100
                      end
              = match declared_rate with
                | Some i => i
                | None => 44100
                end).
    { apply to_gint_small. destruct declared_rate as [rate |]; [| lia].
      specialize (Hrate rate eq_refl). lia. }
    rewrite Hfrequency, Hplayback.
    eexists _, _. split; [reflexivity |].
    destruct (sticky_stream_start env) as [id |];
      [| cbn [have_group_id set_config];
         destruct (have_group_id siddecfp)];
      (split; [reflexivity |]); (split; [reflexivity |]);
      cbn [In]; (split; [| auto 8]);
      right; right; left;
      cbn [negb frequency playback config set_config set_group set_playback
           set_frequency];
      rewrite Hgint; reflexivity.
Qed.

Lemma negotiate_requires_s16_witness :
  siddecfp_negotiate downstream_u8 (gst_siddecfp_init [])
  = (false, gst_siddecfp_init [], [gst_pad_get_allowed_caps])
  /\ exists (siddecfp' : GstSidDecFp) (calls : list Action),
       siddecfp_negotiate downstream_s16 (gst_siddecfp_init [])
       = (true, siddecfp', calls)
       /\ frequency (config siddecfp') = 48000
       /\ playback (config siddecfp') = 2.
Proof.
  split.
  - apply (negotiate_requires_s16 downstream_u8 (gst_siddecfp_init [])).
    right. reflexivity.
  - destruct (negotiate_requires_s16 downstream_s16 (gst_siddecfp_init []))
      as (_ & Hok).
    destruct Hok as (s' & calls & Hrun & Hrate & Hchannels & _).
    + reflexivity.
    + intros rate [= <-]. lia.
    + intros channels [= <-]. lia.
    + exists s', calls. split; [exact Hrun |].
      split; [exact Hrate | exact Hchannels].
Defined.

(** ** Building a session *)




(** Negotiation asks for the allowed caps first, reports no error itself,
    and leaves position and emulation alone. *)
Lemma negotiate_calls (env : NegotiateEnv) (siddecfp : GstSidDecFp) :
  build_steps (snd (siddecfp_negotiate env siddecfp)) = [StepNegotiate]
  /\ quiet (snd (siddecfp_negotiate env siddecfp))
  /\ total_bytes (snd (fst (siddecfp_negotiate env siddecfp)))
     = total_bytes siddecfp
  /\ emulation (snd (fst (siddecfp_negotiate env siddecfp)))
     = emulation siddecfp.
Proof.
  unfold siddecfp_negotiate, quiet.
  destruct (allowed_caps env) as [allowed |];
    [| cbn; repeat split; reflexivity].
  destruct (gst_structure_get_string (nth_error allowed 0) "format")
    as [str |]; [| cbn; repeat split; reflexivity].
  destruct (is_GST_AUDIO_FORMAT_S16 (gst_audio_format_from_string str));
    [| cbn; repeat split; reflexivity].
  cbn [negb].
  destruct (sticky_stream_start env) as [id |];
    [| cbn [have_group_id set_config]; destruct (have_group_id siddecfp)];
    cbn; repeat split; reflexivity.
Qed.


Lemma update_tags_quiet (info : TuneInfo) :
  quiet (update_tags info) /\ build_steps (update_tags info) = [].
Proof.
  unfold quiet. destruct info; cbn; repeat split; reflexivity.
Qed.





(** * Further properties of the code *)

(** ** Unit converter: failures, round trips and compositions *)

Lemma convert_samples_to_bytes (siddecfp : GstSidDecFp) (value : Z) :
  playback (config siddecfp) = 1 \/ playback (config siddecfp) = 2 ->
  gst_siddecfp_src_convert siddecfp GST_FORMAT_DEFAULT value GST_FORMAT_BYTES
  = Some (to_gint64 (value * (2 * playback (config siddecfp)))).
Proof.
  intros Hch. unfold gst_siddecfp_src_convert. cbn [GstFormat_eqb].
  rewrite bytes_per_sample_negotiated by assumption. reflexivity.
Qed.

Lemma convert_samples_to_time (siddecfp : GstSidDecFp) (value : Z) :
  8000 <= frequency (config siddecfp) <= 48000 ->
  gst_siddecfp_src_convert siddecfp GST_FORMAT_DEFAULT value GST_FORMAT_TIME
  = Some (to_gint64 (gst_util_uint64_scale_int (to_guint64 value) GST_SECOND
                       (frequency (config siddecfp)))).
Proof.
  intros Hrate. unfold gst_siddecfp_src_convert. cbn [GstFormat_eqb].
  destruct (Z.eqb_spec (frequency (config siddecfp)) 0); [lia |].
  rewrite to_gint_small by lia. reflexivity.
Qed.

Lemma convert_time_to_samples (siddecfp : GstSidDecFp) (time : Z) :
  8000 <= frequency (config siddecfp) <= 48000 ->
  gst_siddecfp_src_convert siddecfp GST_FORMAT_TIME time GST_FORMAT_DEFAULT
  = Some (to_gint64 (gst_util_uint64_scale_int (to_guint64 time)
                       (frequency (config siddecfp)) GST_SECOND)).
Proof.
  intros Hrate. unfold gst_siddecfp_src_convert. cbn [GstFormat_eqb].
  rewrite Z.mul_1_l, to_guint_small by lia.
  rewrite to_gint_small by lia. reflexivity.
Qed.

Lemma scale_int_range (val num denom : Z) :
  0 <= val -> 0 <= gst_util_uint64_scale_int val num denom <= G_MAXUINT64.
Proof.
  intros Hval. unfold gst_util_uint64_scale_int, G_MAXUINT64.
  destruct (Z.leb_spec denom 0); [lia |].
  destruct (Z.ltb_spec num 0); [lia |].
  cbv zeta. destruct (Z.gtb_spec (val * num / denom) (2 ^ 64 - 1)); [lia |].
  split; [| lia]. apply Z.div_pos; nia.
Qed.

Lemma scale_int_monotone (val val' num denom : Z) :
  0 <= val <= val' ->
  gst_util_uint64_scale_int val num denom
  <= gst_util_uint64_scale_int val' num denom.
Proof.
  intros Hval. unfold gst_util_uint64_scale_int, G_MAXUINT64.
  destruct (Z.leb_spec denom 0); [lia |].
  destruct (Z.ltb_spec num 0); [lia |].
  cbv zeta.
  assert (val * num / denom <= val' * num / denom)
    by (apply Z.div_le_mono; nia).
  destruct (Z.gtb_spec (val * num / denom) (2 ^ 64 - 1));
    destruct (Z.gtb_spec (val' * num / denom) (2 ^ 64 - 1)); lia.
Qed.

(** X1.
    The converter, between two different formats, fails in these cases and
    no others: one of the formats is none of BYTES, DEFAULT (samples) and
    TIME; BYTES is converted with no channel configured; BYTES or samples
    are converted to TIME with a sample rate of zero.  In particular no
    conversion from TIME fails, whatever is configured. *)
Theorem convert_fails_exactly :
  forall (siddecfp : GstSidDecFp) (src dest : GstFormat) (value : Z),
    src <> dest ->
    0 <= playback (config siddecfp) <= 2 ->
    0 <= frequency (config siddecfp) < 2 ^ 29 ->
    (gst_siddecfp_src_convert siddecfp src value dest = None
     <-> convertible src = false
         \/ convertible dest = false
         \/ (src = GST_FORMAT_BYTES /\ playback (config siddecfp) = 0)
         \/ (src <> GST_FORMAT_TIME /\ dest = GST_FORMAT_TIME
             /\ frequency (config siddecfp) = 0)).
Proof.
  intros siddecfp src dest value Hne Hch Hrate.
  unfold gst_siddecfp_src_convert.
  change (Z.shiftr 16 3) with 2.
  rewrite (to_gint_small (2 * playback (config siddecfp))) by lia.
  rewrite (to_guint_small (2 * playback (config siddecfp))) by lia.
  rewrite (to_guint_small (2 * playback (config siddecfp) * _)) by nia.
  rewrite (to_gint_small (2 * playback (config siddecfp) * _)) by nia.
  destruct src, dest; try contradiction; cbn [GstFormat_eqb convertible];
    try (split; [intros _; auto | reflexivity]).
  - (* samples to bytes *)
    split; [discriminate |].
    intros [H | [H | [[H _] | [_ [H _]]]]]; discriminate.
  - (* samples to time *)
    destruct (Z.eqb_spec (frequency (config siddecfp)) 0) as [E | N].
    + split; [intros _ | reflexivity].
      right; right; right. repeat split; [discriminate | exact E].
    + split; [discriminate |].
      intros [H | [H | [[H _] | [_ [_ H]]]]];
        try discriminate; contradiction.
  - (* bytes to samples *)
    destruct (Z.eqb_spec (2 * playback (config siddecfp)) 0) as [E | N].
    + split; [intros _ | reflexivity].
      right; right; left. split; [reflexivity | lia].
    + split; [discriminate |].
      intros [H | [H | [[_ H] | [_ [H _]]]]]; try discriminate; lia.
  - (* bytes to time *)
    destruct (Z.eqb_spec (2 * playback (config siddecfp)
                          * frequency (config siddecfp)) 0) as [E | N].
    + split; [intros _ | reflexivity].
      assert (playback (config siddecfp) = 0
              \/ frequency (config siddecfp) = 0) as [E' | E'] by nia.
      * right; right; left. split; [reflexivity | exact E'].
      * right; right; right. repeat split; [discriminate | exact E'].
    + split; [discriminate |].
      intros [H | [H | [[_ H] | [_ [_ H]]]]]; try discriminate; nia.
  - (* time to samples *)
    split; [discriminate |].
    intros [H | [H | [[H _] | [H _]]]]; try discriminate; contradiction.
  - (* time to bytes *)
    split; [discriminate |].
    intros [H | [H | [[H _] | [H _]]]]; try discriminate; contradiction.
Qed.

Lemma convert_fails_exactly_witness :
  gst_siddecfp_src_convert
    (set_config (gst_siddecfp_init []) (set_playback default_config 0))
    GST_FORMAT_BYTES 4096 GST_FORMAT_DEFAULT = None.
Proof.
  apply (convert_fails_exactly
           (set_config (gst_siddecfp_init []) (set_playback default_config 0))
           GST_FORMAT_BYTES GST_FORMAT_DEFAULT 4096).
  - discriminate.
  - cbn. lia.
  - cbn. lia.
  - right; right; left. split; reflexivity.
Defined.

(** X2.
    Samples to BYTES and back to samples is exact. *)
Theorem samples_bytes_samples_exact :
  forall (siddecfp : GstSidDecFp) (samples : Z),
    playback (config siddecfp) = 1 \/ playback (config siddecfp) = 2 ->
    0 <= samples ->
    samples * (2 * playback (config siddecfp)) < 2 ^ 63 ->
    exists bytes : Z,
      gst_siddecfp_src_convert siddecfp GST_FORMAT_DEFAULT samples
        GST_FORMAT_BYTES = Some bytes
      /\ bytes = samples * (2 * playback (config siddecfp))
      /\ gst_siddecfp_src_convert siddecfp GST_FORMAT_BYTES bytes
           GST_FORMAT_DEFAULT = Some samples.
Proof.
  intros siddecfp samples Hch Hpos Hfit.
  exists (samples * (2 * playback (config siddecfp))).
  rewrite convert_samples_to_bytes, convert_bytes_to_samples by assumption.
  rewrite to_gint64_small by nia.
  split; [reflexivity |]. split; [reflexivity |].
  rewrite Z.quot_mul by lia. rewrite to_gint64_small by nia. reflexivity.
Qed.

Lemma samples_bytes_samples_exact_witness :
  exists bytes : Z,
    gst_siddecfp_src_convert (negotiated 44100 2) GST_FORMAT_DEFAULT 1024
      GST_FORMAT_BYTES = Some bytes
    /\ bytes = 1024 * (2 * 2)
    /\ gst_siddecfp_src_convert (negotiated 44100 2) GST_FORMAT_BYTES bytes
         GST_FORMAT_DEFAULT = Some 1024.
Proof.
  apply (samples_bytes_samples_exact (negotiated 44100 2) 1024).
  - right. reflexivity.
  - lia.
  - cbn. lia.
Defined.

(** X3.
    BYTES to samples and back to BYTES rounds the position down to a whole
    sample frame: what is lost is the remainder modulo bytes-per-sample. *)
Theorem bytes_samples_bytes_rounds_down :
  forall (siddecfp : GstSidDecFp) (bytes : Z),
    playback (config siddecfp) = 1 \/ playback (config siddecfp) = 2 ->
    0 <= bytes < 2 ^ 63 ->
    exists samples back : Z,
      gst_siddecfp_src_convert siddecfp GST_FORMAT_BYTES bytes
        GST_FORMAT_DEFAULT = Some samples
      /\ gst_siddecfp_src_convert siddecfp GST_FORMAT_DEFAULT samples
           GST_FORMAT_BYTES = Some back
      /\ back = bytes - bytes mod (2 * playback (config siddecfp))
      /\ back <= bytes < back + 2 * playback (config siddecfp).
Proof.
  intros siddecfp bytes Hch Hbytes.
  set (bps := 2 * playback (config siddecfp)).
  assert (Hbps : 0 < bps) by (unfold bps; lia).
  pose proof (Z.mod_pos_bound bytes bps Hbps) as Hmod.
  pose proof (Z.div_mod bytes bps ltac:(lia)) as Hdiv.
  assert (Hquot : 0 <= bytes / bps <= bytes).
  { split; [apply Z.div_pos; lia | apply Z.div_le_upper_bound; nia]. }
  exists (bytes / bps), (bytes / bps * bps).
  rewrite convert_bytes_to_samples, convert_samples_to_bytes by assumption.
  fold bps. rewrite Z.quot_div_nonneg by lia.
  rewrite to_gint64_small by lia.
  split; [reflexivity |].
  rewrite to_gint64_small by nia.
  split; [reflexivity |]. nia.
Qed.

Lemma bytes_samples_bytes_rounds_down_witness :
  exists samples back : Z,
    gst_siddecfp_src_convert (negotiated 44100 2) GST_FORMAT_BYTES 4099
      GST_FORMAT_DEFAULT = Some samples
    /\ gst_siddecfp_src_convert (negotiated 44100 2) GST_FORMAT_DEFAULT
         samples GST_FORMAT_BYTES = Some back
    /\ back = 4099 - 4099 mod (2 * 2)
    /\ back <= 4099 < back + 2 * 2.
Proof.
  apply (bytes_samples_bytes_rounds_down (negotiated 44100 2) 4099).
  - right. reflexivity.
  - lia.
Defined.

(** X4.
    TIME to BYTES followed by BYTES to samples gives what TIME to samples
    gives directly. *)
Theorem time_to_bytes_to_samples :
  forall (siddecfp : GstSidDecFp) (time : Z),
    format_negotiated siddecfp ->
    0 <= time < 2 ^ 63 ->
    exists bytes samples : Z,
      gst_siddecfp_src_convert siddecfp GST_FORMAT_TIME time
        GST_FORMAT_BYTES = Some bytes
      /\ gst_siddecfp_src_convert siddecfp GST_FORMAT_BYTES bytes
           GST_FORMAT_DEFAULT = Some samples
      /\ gst_siddecfp_src_convert siddecfp GST_FORMAT_TIME time
           GST_FORMAT_DEFAULT = Some samples.
Proof.
  intros siddecfp time [Hch Hrate] Htime.
  set (bps := 2 * playback (config siddecfp)).
  set (rate := frequency (config siddecfp)).
  assert (Hbps : 2 <= bps <= 4) by (unfold bps; lia).
  assert (Hbytes : 0 <= time * (bps * rate) / GST_SECOND <= time).
  { unfold GST_SECOND. split.
    - apply Z.div_pos; [unfold rate; nia | lia].
    - apply Z.div_le_upper_bound; [lia |]. unfold rate. nia. }
  assert (Hsamples : 0 <= time * rate / GST_SECOND <= time).
  { unfold GST_SECOND. split.
    - apply Z.div_pos; [unfold rate; nia | lia].
    - apply Z.div_le_upper_bound; [lia |]. unfold rate. nia. }
  exists (time * (bps * rate) / GST_SECOND), (time * rate / GST_SECOND).
  rewrite convert_time_to_bytes, convert_time_to_samples by assumption.
  fold bps rate.
  rewrite (to_guint64_small time) by lia.
  rewrite !scale_int_exact
    by (unfold GST_SECOND, G_MAXUINT64, rate in *; lia).
  rewrite !to_gint64_small by lia.
  split; [reflexivity |]. split; [| reflexivity].
  rewrite convert_bytes_to_samples by assumption. fold bps.
  rewrite Z.quot_div_nonneg by lia.
  rewrite Z.div_div by (unfold GST_SECOND; lia).
  replace (time * (bps * rate)) with (time * rate * bps) by ring.
  rewrite Z.div_mul_cancel_r by (unfold GST_SECOND; lia).
  rewrite to_gint64_small by lia. reflexivity.
Qed.

Lemma time_to_bytes_to_samples_witness :
  exists bytes samples : Z,
    gst_siddecfp_src_convert (negotiated 44100 2) GST_FORMAT_TIME 1000000
      GST_FORMAT_BYTES = Some bytes
    /\ gst_siddecfp_src_convert (negotiated 44100 2) GST_FORMAT_BYTES bytes
         GST_FORMAT_DEFAULT = Some samples
    /\ gst_siddecfp_src_convert (negotiated 44100 2) GST_FORMAT_TIME 1000000
         GST_FORMAT_DEFAULT = Some samples.
Proof.
  apply (time_to_bytes_to_samples (negotiated 44100 2) 1000000).
  - split; [right; reflexivity | cbn; lia].
  - lia.
Defined.

(** X5.
    On whole sample frames BYTES to TIME agrees with samples to TIME, also
    where the time saturates. *)
Theorem whole_frames_time :
  forall (siddecfp : GstSidDecFp) (samples : Z),
    format_negotiated siddecfp ->
    0 <= samples ->
    samples * (2 * playback (config siddecfp)) < 2 ^ 63 ->
    gst_siddecfp_src_convert siddecfp GST_FORMAT_BYTES
      (samples * (2 * playback (config siddecfp))) GST_FORMAT_TIME
    = gst_siddecfp_src_convert siddecfp GST_FORMAT_DEFAULT samples
        GST_FORMAT_TIME.
Proof.
  intros siddecfp samples [Hch Hrate] Hpos Hfit.
  rewrite convert_bytes_to_time, convert_samples_to_time by assumption.
  set (bps := 2 * playback (config siddecfp)) in *.
  set (rate := frequency (config siddecfp)) in *.
  rewrite !to_guint64_small by nia.
  assert (Hsame : samples * bps * GST_SECOND / (bps * rate)
                  = samples * GST_SECOND / rate).
  { replace (samples * bps * GST_SECOND) with (bps * (samples * GST_SECOND))
      by ring.
    apply Z.div_mul_cancel_l; lia. }
  unfold gst_util_uint64_scale_int.
  destruct (Z.leb_spec (bps * rate) 0); [nia |].
  destruct (Z.leb_spec rate 0); [lia |].
  rewrite Hsame. reflexivity.
Qed.

Lemma whole_frames_time_witness :
  gst_siddecfp_src_convert (negotiated 44100 2) GST_FORMAT_BYTES
    (1024 * (2 * playback (config (negotiated 44100 2)))) GST_FORMAT_TIME
  = gst_siddecfp_src_convert (negotiated 44100 2) GST_FORMAT_DEFAULT 1024
      GST_FORMAT_TIME.
Proof.
  apply (whole_frames_time (negotiated 44100 2) 1024).
  - split; [right; reflexivity | cbn; lia].
  - lia.
  - cbn. lia.
Defined.

(** X6.
    BYTES to TIME is monotone as long as the time fits a [gint64]. *)
Theorem bytes_to_time_monotone :
  forall (siddecfp : GstSidDecFp) (bytes bytes' : Z),
    format_negotiated siddecfp ->
    0 <= bytes <= bytes' ->
    bytes' * GST_SECOND
      / (2 * playback (config siddecfp) * frequency (config siddecfp))
    < 2 ^ 63 ->
    exists time time' : Z,
      gst_siddecfp_src_convert siddecfp GST_FORMAT_BYTES bytes
        GST_FORMAT_TIME = Some time
      /\ gst_siddecfp_src_convert siddecfp GST_FORMAT_BYTES bytes'
           GST_FORMAT_TIME = Some time'
      /\ 0 <= time <= time'.
Proof.
  intros siddecfp bytes bytes' [Hch Hrate] Hbytes Hfit.
  set (br := 2 * playback (config siddecfp) * frequency (config siddecfp))
    in *.
  assert (Hbr : 16000 <= br <= 192000) by (unfold br; nia).
  assert (Hbytes' : bytes' < 2 ^ 63).
  { unfold GST_SECOND in Hfit.
    pose proof (Z.mul_succ_div_gt (bytes' * 1000000000) br). nia. }
  assert (Hmono : bytes * GST_SECOND / br <= bytes' * GST_SECOND / br)
    by (apply Z.div_le_mono; unfold GST_SECOND; lia).
  assert (Hzero : 0 <= bytes * GST_SECOND / br)
    by (apply Z.div_pos; unfold GST_SECOND; lia).
  exists (bytes * GST_SECOND / br), (bytes' * GST_SECOND / br).
  rewrite !convert_bytes_to_time by assumption. fold br.
  rewrite !to_guint64_small by lia.
  rewrite !scale_int_exact
    by (unfold GST_SECOND, G_MAXUINT64 in *; lia).
  rewrite !to_gint64_small by lia.
  split; [reflexivity |]. split; [reflexivity |]. lia.
Qed.

Lemma bytes_to_time_monotone_witness :
  exists time time' : Z,
    gst_siddecfp_src_convert (negotiated 44100 2) GST_FORMAT_BYTES 4096
      GST_FORMAT_TIME = Some time
    /\ gst_siddecfp_src_convert (negotiated 44100 2) GST_FORMAT_BYTES 8192
         GST_FORMAT_TIME = Some time'
    /\ 0 <= time <= time'.
Proof.
  apply (bytes_to_time_monotone (negotiated 44100 2) 4096 8192).
  - split; [right; reflexivity | cbn; lia].
  - lia.
  - vm_compute. reflexivity.
Defined.

Lemma convert_same_bytes (siddecfp : GstSidDecFp) (value : Z) :
  gst_siddecfp_src_convert siddecfp GST_FORMAT_BYTES value GST_FORMAT_BYTES
  = Some value.
Proof. reflexivity. Qed.

(** ** Position query *)

(** X7.
    After an iteration of the loop the position the element reports in
    samples is the end-offset of the buffer the iteration pushed, and the
    position it reports in bytes is the old one plus the bytes produced. *)
Theorem position_query_after_iteration :
  forall (siddecfp : GstSidDecFp) (samples : Z) (ret : GstFlowReturn)
         (default_res : bool),
    playback (config siddecfp) = 1 \/ playback (config siddecfp) = 2 ->
    0 <= total_bytes siddecfp ->
    total_bytes siddecfp + to_guint (samples * 2) < 2 ^ 63 ->
    exists out : GstBuffer,
      pushed_buffers (snd (play_loop siddecfp samples ret)) = [out]
      /\ gst_siddecfp_src_query (fst (play_loop siddecfp samples ret))
           (GST_QUERY_POSITION GST_FORMAT_DEFAULT) default_res
         = (true, Some (GST_FORMAT_DEFAULT, GST_BUFFER_OFFSET_END out))
      /\ gst_siddecfp_src_query (fst (play_loop siddecfp samples ret))
           (GST_QUERY_POSITION GST_FORMAT_BYTES) default_res
         = (true, Some (GST_FORMAT_BYTES,
                        total_bytes siddecfp + to_guint (samples * 2))).
Proof.
  intros siddecfp samples ret default_res Hch Hpos Hfit.
  pose proof (to_guint_range (samples * 2)) as Hbytes.
  destruct (play_loop_shape siddecfp samples ret)
    as (out & Hrun & _ & _ & Hend & _).
  assert (Htotal : total_bytes (advance siddecfp samples)
                   = total_bytes siddecfp + to_guint (samples * 2)).
  { cbn [advance total_bytes set_total_bytes]. apply to_guint64_small. lia. }
  exists out. rewrite Hrun. cbn [fst snd app pushed_buffers].
  rewrite pushed_buffers_after_push.
  split; [reflexivity |].
  unfold gst_siddecfp_src_query.
  rewrite convert_same_bytes.
  rewrite Htotal, to_gint64_small by lia.
  split; [| reflexivity].
  rewrite offset_stamp_negotiated in Hend
    by (rewrite ?advance_config, ?Htotal; assumption || lia).
  rewrite convert_bytes_to_samples by (rewrite advance_config; assumption).
  rewrite advance_config in *. rewrite Htotal in Hend.
  set (bps := 2 * playback (config siddecfp)) in *.
  set (pos := total_bytes siddecfp + to_guint (samples * 2)) in *.
  assert (0 <= pos / bps <= pos).
  { split; [apply Z.div_pos; unfold bps; lia
           | apply Z.div_le_upper_bound; unfold bps; nia]. }
  rewrite Z.quot_div_nonneg by (unfold bps; lia).
  rewrite to_gint64_small by lia. rewrite Hend. reflexivity.
Qed.

Lemma position_query_after_iteration_witness :
  exists out : GstBuffer,
    pushed_buffers (snd (play_loop (negotiated 44100 2) 2048 GST_FLOW_OK))
    = [out]
    /\ gst_siddecfp_src_query
         (fst (play_loop (negotiated 44100 2) 2048 GST_FLOW_OK))
         (GST_QUERY_POSITION GST_FORMAT_DEFAULT) false
       = (true, Some (GST_FORMAT_DEFAULT, GST_BUFFER_OFFSET_END out))
    /\ gst_siddecfp_src_query
         (fst (play_loop (negotiated 44100 2) 2048 GST_FLOW_OK))
         (GST_QUERY_POSITION GST_FORMAT_BYTES) false
       = (true, Some (GST_FORMAT_BYTES,
                      total_bytes (negotiated 44100 2)
                      + to_guint (2048 * 2))).
Proof.
  apply (position_query_after_iteration (negotiated 44100 2) 2048
           GST_FLOW_OK false).
  - right. reflexivity.
  - cbn. lia.
  - cbn. lia.
Defined.

(** ** Runs of the task: time stamps, and when the loop ends *)

Lemma to_guint64_sub_gint64 (a b : Z) :
  to_guint64 (to_gint64 (to_gint64 a - to_gint64 b)) = to_guint64 (a - b).
Proof.
  rewrite to_guint64_to_gint64. unfold to_guint64, to_gint64.
  replace ((a + 2 ^ 63) mod 2 ^ 64 - 2 ^ 63
           - ((b + 2 ^ 63) mod 2 ^ 64 - 2 ^ 63))
    with ((a + 2 ^ 63) mod 2 ^ 64 - (b + 2 ^ 63) mod 2 ^ 64) by lia.
  rewrite <- Zminus_mod. f_equal. lia.
Qed.

(** The position of a decoder as a time, in nanoseconds. *)
Lemma position_time_negotiated (siddecfp : GstSidDecFp) :
  format_negotiated siddecfp ->
  0 <= total_bytes siddecfp < 2 ^ 63 ->
  position_time siddecfp
  = Some (to_gint64 (gst_util_uint64_scale_int (total_bytes siddecfp)
            GST_SECOND
            (2 * playback (config siddecfp)
             * frequency (config siddecfp)))).
Proof.
  intros [Hch Hrate] Hpos. unfold position_time.
  rewrite to_gint64_small by lia.
  rewrite convert_bytes_to_time by assumption.
  rewrite to_guint64_small by lia. reflexivity.
Qed.

(** One iteration of a started task with all the stamps of its buffer. *)
Lemma run_task_iteration (e : Element) (samples : Z) (ret : GstFlowReturn)
    (rest : list Input) :
  task_started e = true ->
  let e' := mkElement (advance (decoder e) samples) (ret =? GST_FLOW_OK) in
  exists out : GstBuffer,
    run e (task_iteration samples ret :: rest)
    = (fst (run e' rest),
       [player_play (blocksize (decoder e) / 2); gst_pad_push out]
       ++ after_push ret ++ snd (run e' rest))
    /\ GST_BUFFER_TIMESTAMP out
       = match position_time (decoder e) with
         | Some time => to_guint64 time
         | None => GST_CLOCK_TIME_NONE
         end
    /\ GST_BUFFER_DURATION out
       = match position_time (decoder e') with
         | Some value =>
             to_guint64
               (to_gint64 (value - match position_time (decoder e) with
                                   | Some time => time
                                   | None => 0
                                   end))
         | None => GST_CLOCK_TIME_NONE
         end.
Proof.
  intros Hstarted e'.
  destruct (play_loop_shape (decoder e) samples ret)
    as (out & Hrun & _ & _ & _ & Htime & Hdur).
  exists out. cbn [run step]. rewrite Hstarted, Hrun.
  rewrite task_after_iteration. cbn [andb]. fold e'.
  destruct (run e' rest) as [final calls]. cbn [fst snd].
  split; [| split; assumption].
  rewrite <- !app_assoc. reflexivity.
Qed.

Lemma pushed_buffers_iteration (out : GstBuffer) (count : Z)
    (ret : GstFlowReturn) (calls : list Action) :
  pushed_buffers ([player_play count; gst_pad_push out]
                  ++ after_push ret ++ calls)
  = out :: pushed_buffers calls.
Proof.
  cbn [app pushed_buffers].
  rewrite pushed_buffers_app, pushed_buffers_after_push. reflexivity.
Qed.

(** In a run, the time stamp of the first buffer is the time of the position
    the run starts from, and every buffer ends in time where the next one
    starts. *)
Lemma timestamps_chain (inputs : list Input) :
  forall e : Element,
    forallb is_task_iteration inputs = true ->
    format_negotiated (decoder e) ->
    0 <= total_bytes (decoder e) ->
    total_bytes (decoder e) + produced_bytes inputs < 2 ^ 63 ->
    let stamp (pos : Z) :=
      gst_util_uint64_scale_int pos GST_SECOND
        (2 * playback (config (decoder e))
         * frequency (config (decoder e))) in
    (forall b : GstBuffer,
        nth_error (pushed_buffers (snd (run e inputs))) 0 = Some b ->
        GST_BUFFER_TIMESTAMP b = stamp (total_bytes (decoder e)))
    /\ (forall (n : nat) (b b' : GstBuffer),
           nth_error (pushed_buffers (snd (run e inputs))) n = Some b ->
           nth_error (pushed_buffers (snd (run e inputs))) (S n) = Some b' ->
           GST_BUFFER_TIMESTAMP b + GST_BUFFER_DURATION b
           = GST_BUFFER_TIMESTAMP b'
           /\ GST_BUFFER_TIMESTAMP b <= GST_BUFFER_TIMESTAMP b').
Proof.
  induction inputs as [| i rest IH]; intros e Hall Hneg Hpos Hfit stamp.
  - cbn. split; [discriminate | intros [| n]; discriminate].
  - destruct (task_started e) eqn:Hstarted.
    + pose proof Hall as Hall'.
      cbn [forallb] in Hall'. apply andb_prop in Hall' as [Hi Hrest].
      destruct i; try discriminate.
      cbn [produced_bytes] in Hfit.
      pose proof (to_guint_range (samples * 2)) as Hbytes.
      pose proof (produced_bytes_nonneg rest) as Hprod.
      destruct (run_task_iteration e samples ret rest Hstarted)
        as (out & Hrun & Htime & Hdur).
      set (e' := mkElement (advance (decoder e) samples)
                   (ret =? GST_FLOW_OK)) in *.
      assert (Htotal : total_bytes (decoder e')
                       = total_bytes (decoder e) + to_guint (samples * 2)).
      { cbn [e' decoder advance total_bytes set_total_bytes].
        apply to_guint64_small. lia. }
      assert (Hcfg : config (decoder e') = config (decoder e))
        by reflexivity.
      assert (Hneg' : format_negotiated (decoder e')).
      { unfold format_negotiated. rewrite Hcfg. exact Hneg. }
      destruct (IH e' Hrest Hneg' ltac:(lia) ltac:(lia))
        as (IHfirst & IHnext).
      rewrite Hcfg in IHfirst.
      rewrite position_time_negotiated in Htime, Hdur by (assumption || lia).
      rewrite position_time_negotiated in Hdur by (assumption || lia).
      rewrite Hcfg, Htotal in Hdur. rewrite Htotal in IHfirst.
      fold (stamp (total_bytes (decoder e))) in Htime, Hdur.
      fold (stamp (total_bytes (decoder e) + to_guint (samples * 2)))
        in Hdur, IHfirst.
      pose proof (scale_int_range (total_bytes (decoder e)) GST_SECOND
                    (2 * playback (config (decoder e))
                     * frequency (config (decoder e))) Hpos) as Hr1.
      pose proof (scale_int_range
                    (total_bytes (decoder e) + to_guint (samples * 2))
                    GST_SECOND
                    (2 * playback (config (decoder e))
                     * frequency (config (decoder e))) ltac:(lia)) as Hr2.
      pose proof (scale_int_monotone (total_bytes (decoder e))
                    (total_bytes (decoder e) + to_guint (samples * 2))
                    GST_SECOND
                    (2 * playback (config (decoder e))
                     * frequency (config (decoder e))) ltac:(lia)) as Hmono.
      fold (stamp (total_bytes (decoder e))) in Hr1, Hmono.
      fold (stamp (total_bytes (decoder e) + to_guint (samples * 2)))
        in Hr2, Hmono.
      rewrite to_guint64_to_gint64 in Htime.
      rewrite to_guint64_sub_gint64 in Hdur.
      unfold G_MAXUINT64 in *.
      rewrite to_guint64_small in Htime, Hdur by lia.
      rewrite Hrun. cbn [snd]. rewrite pushed_buffers_iteration.
      split.
      * intros b [= <-]. exact Htime.
      * intros [| n] b b' Hb Hb'.
        -- cbn in Hb. injection Hb as <-. cbn [nth_error] in Hb'.
           rewrite (IHfirst b' Hb'). lia.
        -- cbn [nth_error] in Hb, Hb'. exact (IHnext n b b' Hb Hb').
    + rewrite run_task_not_started by assumption. cbn.
      split; [discriminate | intros [| n]; discriminate].
Qed.

(** X8.
    In a run of the loop with a negotiated format, whose position stays
    below 2^63 bytes, each buffer's time stamp plus its duration is the time
    stamp of the next buffer, and time stamps do not decrease. *)
Theorem timestamps_contiguous :
  forall (e : Element) (inputs : list Input) (n : nat) (b b' : GstBuffer),
    forallb is_task_iteration inputs = true ->
    format_negotiated (decoder e) ->
    0 <= total_bytes (decoder e) ->
    total_bytes (decoder e) + produced_bytes inputs < 2 ^ 63 ->
    nth_error (pushed_buffers (snd (run e inputs))) n = Some b ->
    nth_error (pushed_buffers (snd (run e inputs))) (S n) = Some b' ->
    GST_BUFFER_TIMESTAMP b + GST_BUFFER_DURATION b = GST_BUFFER_TIMESTAMP b'
    /\ GST_BUFFER_TIMESTAMP b <= GST_BUFFER_TIMESTAMP b'.
Proof.
  intros e inputs n b b' Hall Hneg Hpos Hfit Hb Hb'.
  destruct (timestamps_chain inputs e Hall Hneg Hpos Hfit) as (_ & Hnext).
  exact (Hnext n b b' Hb Hb').
Qed.

Lemma timestamps_contiguous_witness :
  exists b b' : GstBuffer,
    nth_error (pushed_buffers
                 (snd (run (mkElement (negotiated 44100 2) true)
                         three_iterations))) 0 = Some b
    /\ nth_error (pushed_buffers
                    (snd (run (mkElement (negotiated 44100 2) true)
                            three_iterations))) 1 = Some b'
    /\ GST_BUFFER_TIMESTAMP b + GST_BUFFER_DURATION b
       = GST_BUFFER_TIMESTAMP b'
    /\ GST_BUFFER_TIMESTAMP b <= GST_BUFFER_TIMESTAMP b'.
Proof.
  eexists _, _.
  split; [vm_compute; reflexivity |].
  split; [vm_compute; reflexivity |].
  apply (timestamps_contiguous (mkElement (negotiated 44100 2) true)
           three_iterations 0%nat).
  - reflexivity.
  - split; [right; reflexivity | cbn; lia].
  - cbn. lia.
  - vm_compute. reflexivity.
  - vm_compute. reflexivity.
  - vm_compute. reflexivity.
Defined.

Lemma after_push_ok : after_push GST_FLOW_OK = [].
Proof. reflexivity. Qed.

Lemma after_push_events (ret : GstFlowReturn) :
  (List.length (List.filter is_eos_event (after_push ret)) <= 1)%nat
  /\ List.filter is_play (after_push ret) = []
  /\ (ret <> GST_FLOW_OK ->
      List.filter is_pause_task (after_push ret) = [gst_pad_pause_task]).
Proof.
  unfold after_push.
  destruct (Z.eqb_spec ret GST_FLOW_OK) as [E | N].
  - cbn. repeat split; [lia | contradiction].
  - destruct (ret =? GST_FLOW_EOS);
      [| destruct ((ret <? GST_FLOW_EOS) || (ret =? GST_FLOW_NOT_LINKED))];
      cbn; repeat split; lia.
Qed.

(** X9.
    As long as every push returns OK the loop goes on: one buffer per
    iteration whatever the emulator returns (no samples at all included),
    no end-of-stream event, no error, and the task stays started.  The
    element never ends the stream of its own accord. *)
Theorem loop_goes_on_while_push_ok :
  forall (e : Element) (inputs : list Input),
    task_started e = true ->
    forallb push_ok inputs = true ->
    task_started (fst (run e inputs)) = true
    /\ List.length (pushed_buffers (snd (run e inputs))) = List.length inputs
    /\ existsb is_eos_event (snd (run e inputs)) = false
    /\ existsb is_flow_error (snd (run e inputs)) = false
    /\ existsb is_pause_task (snd (run e inputs)) = false.
Proof.
  intros e inputs. revert e.
  induction inputs as [| i rest IH]; intros e Hstarted Hall.
  - cbn. auto.
  - cbn [forallb] in Hall. apply andb_prop in Hall as [Hi Hrest].
    destruct i; try discriminate. cbn [push_ok] in Hi.
    destruct (run_task_iteration e samples ret rest Hstarted)
      as (out & Hrun & _).
    rewrite Hi in Hrun.
    apply Z.eqb_eq in Hi. subst ret. rewrite after_push_ok in Hrun.
    destruct (IH (mkElement (advance (decoder e) samples) true)
                eq_refl Hrest) as (IH1 & IH2 & IH3 & IH4 & IH5).
    rewrite Hrun. cbn [fst snd app pushed_buffers existsb is_eos_event
                       is_flow_error is_pause_task orb List.length].
    rewrite IH2. auto.
Qed.

Lemma loop_goes_on_while_push_ok_witness :
  task_started
    (fst (run (mkElement blocksize_one true)
            [task_iteration 0 GST_FLOW_OK; task_iteration 0 GST_FLOW_OK]))
  = true
  /\ List.length
       (pushed_buffers
          (snd (run (mkElement blocksize_one true)
                  [task_iteration 0 GST_FLOW_OK;
                   task_iteration 0 GST_FLOW_OK])))
     = 2%nat.
Proof.
  destruct (loop_goes_on_while_push_ok (mkElement blocksize_one true)
              [task_iteration 0 GST_FLOW_OK; task_iteration 0 GST_FLOW_OK])
    as (Hstarted & Hcount & _).
  - reflexivity.
  - reflexivity.
  - split; [exact Hstarted | exact Hcount].
Defined.

(** X10.
    In a run of the started task the iterations up to and including the
    first whose push is not OK run, each asking the emulator once and
    pushing one buffer.  At that iteration [play_loop] pauses the task,
    once, and it is this call that keeps the later iterations from running:
    the task is started at the end exactly if no pause was called, which is
    exactly if no push was rejected.  At most one end-of-stream event is
    sent. *)
Theorem loop_stops_at_first_rejected_push :
  forall (e : Element) (inputs : list Input),
    task_started e = true ->
    forallb is_task_iteration inputs = true ->
    List.length (pushed_buffers (snd (run e inputs)))
    = iterations_until_rejected inputs
    /\ List.length (List.filter is_play (snd (run e inputs)))
       = iterations_until_rejected inputs
    /\ (List.length (List.filter is_eos_event (snd (run e inputs))) <= 1)%nat
    /\ task_started (fst (run e inputs)) = forallb push_ok inputs
    /\ List.filter is_pause_task (snd (run e inputs))
       = (if forallb push_ok inputs then [] else [gst_pad_pause_task])
    /\ task_started (fst (run e inputs))
       = negb (existsb is_pause_task (snd (run e inputs))).
Proof.
  intros e inputs. revert e.
  induction inputs as [| i rest IH]; intros e Hstarted Hall.
  - cbn. rewrite Hstarted. repeat split; auto.
  - cbn [forallb] in Hall. apply andb_prop in Hall as [Hi Hrest].
    destruct i; try discriminate.
    destruct (run_task_iteration e samples ret rest Hstarted)
      as (out & Hrun & _).
    destruct (after_push_events ret) as (Heos & Hplay & Hpause).
    rewrite Hrun. cbn [fst snd]. rewrite pushed_buffers_iteration.
    cbn [app List.filter is_play is_eos_event is_pause_task existsb orb
         iterations_until_rejected forallb push_ok List.length].
    rewrite !List.filter_app, !existsb_app, Hplay, !length_app.
    destruct (Z.eqb_spec ret GST_FLOW_OK) as [E | N].
    + subst ret. rewrite after_push_ok.
      destruct (IH (mkElement (advance (decoder e) samples) true)
                  eq_refl Hrest) as (IH1 & IH2 & IH3 & IH4 & IH5 & IH6).
      cbn [List.filter List.length app plus andb existsb orb].
      rewrite IH1, IH2, IH5, <- IH6. repeat split; auto.
    + rewrite (run_task_not_started rest
                 (mkElement (advance (decoder e) samples) false) Hrest
                 eq_refl).
      cbn [fst snd pushed_buffers List.filter List.length app plus andb
           task_started existsb].
      rewrite Nat.add_0_r, app_nil_r, orb_false_r, (Hpause N),
        pause_after_push.
      apply Z.eqb_neq in N. rewrite N. repeat split; auto.
Qed.

Lemma loop_stops_at_first_rejected_push_witness :
  List.length
    (pushed_buffers
       (snd (run (mkElement (negotiated 44100 2) true)
               [task_iteration 2048 GST_FLOW_OK;
                task_iteration 2048 GST_FLOW_FLUSHING;
                task_iteration 2048 GST_FLOW_OK])))
  = 2%nat.
Proof.
  destruct (loop_stops_at_first_rejected_push
              (mkElement (negotiated 44100 2) true)
              [task_iteration 2048 GST_FLOW_OK;
               task_iteration 2048 GST_FLOW_FLUSHING;
               task_iteration 2048 GST_FLOW_OK])
    as (Hcount & _).
  - reflexivity.
  - reflexivity.
  - exact Hcount.
Defined.

(** ** What the inputs other than a session build leave alone *)

Lemma set_property_frame (siddecfp : GstSidDecFp) (prop_id : PropId)
    (value : GValue) :
  let result := gst_siddecfp_set_property siddecfp prop_id value in
  total_bytes (fst result) = total_bytes siddecfp
  /\ tune_len (fst result) = tune_len siddecfp
  /\ tune_buffer (fst result) = tune_buffer siddecfp
  /\ playback (config (fst result)) = playback (config siddecfp)
  /\ frequency (config (fst result)) = frequency (config siddecfp)
  /\ sidEmulation (config (fst result)) = sidEmulation (config siddecfp)
  /\ have_group_id (fst result) = have_group_id siddecfp
  /\ group_id (fst result) = group_id siddecfp
  /\ pushed_buffers (snd result) = []
  /\ existsb is_push_event (snd result) = false
  /\ existsb is_play (snd result) = false
  /\ existsb is_start_task (snd result) = false.
Proof.
  unfold gst_siddecfp_set_property, copy_byte_array.
  destruct prop_id; cbn; try (repeat split; reflexivity).
  all: destruct (g_value_get_boxed value) as [data |];
    [destruct (Z.of_nat (List.length data) =? _) |];
    cbn.
  all: repeat match goal with
              | |- context [match kernal ?s with _ => _ end] =>
                  destruct (kernal s)
              | |- context [match basic ?s with _ => _ end] =>
                  destruct (basic s)
              | |- context [match chargen ?s with _ => _ end] =>
                  destruct (chargen s)
              end; cbn; repeat split; reflexivity.
Qed.

Lemma chain_frame (siddecfp : GstSidDecFp) (buffer : list Byte.byte) :
  let result := gst_siddecfp_chain siddecfp buffer in
  total_bytes (snd (fst result)) = total_bytes siddecfp
  /\ config (snd (fst result)) = config siddecfp
  /\ pushed_buffers (snd result) = []
  /\ existsb is_push_event (snd result) = false
  /\ existsb is_play (snd result) = false
  /\ existsb is_start_task (snd result) = false.
Proof.
  unfold gst_siddecfp_chain.
  destruct (_ >? _); cbn; repeat split; reflexivity.
Qed.

(** X11.
    Before end-of-input there is no output: whatever chunks, other events,
    property assignments and attempts to run the task come in, as long as no
    end-of-stream event arrives on the sink pad, no buffer and no event is
    pushed downstream, the emulator is not asked to play, and the task does
    not start. *)
Theorem no_output_before_end_of_input :
  forall (e : Element) (inputs : list Input),
    task_started e = false ->
    existsb is_eos_sink_event inputs = false ->
    pushed_buffers (snd (run e inputs)) = []
    /\ existsb is_push_event (snd (run e inputs)) = false
    /\ existsb is_play (snd (run e inputs)) = false
    /\ task_started (fst (run e inputs)) = false.
Proof.
  intros e inputs. revert e.
  induction inputs as [| i rest IH]; intros e Hstopped Hnone.
  - cbn. auto.
  - cbn [existsb] in Hnone. apply orb_false_elim in Hnone as [Hi Hrest].
    assert (Hstep : pushed_buffers (snd (step e i)) = []
                    /\ existsb is_push_event (snd (step e i)) = false
                    /\ existsb is_play (snd (step e i)) = false
                    /\ task_started (fst (step e i)) = false).
    { destruct i as [buffer | event env | samples ret | prop_id value].
      - cbn [step].
        pose proof (chain_frame (decoder e) buffer)
          as (_ & _ & H1 & H2 & H3 & _).
        destruct (gst_siddecfp_chain (decoder e) buffer) as [[r s] c].
        cbn [fst snd] in *. auto.
      - destruct event; [discriminate | |]; cbn; auto.
      - cbn [step]. rewrite Hstopped. cbn. auto.
      - cbn [step].
        pose proof (set_property_frame (decoder e) prop_id value)
          as (_ & _ & _ & _ & _ & _ & _ & _ & H1 & H2 & H3 & _).
        destruct (gst_siddecfp_set_property (decoder e) prop_id value)
          as [s c].
        cbn [fst snd] in *. auto. }
    destruct Hstep as (S1 & S2 & S3 & S4).
    cbn [run]. destruct (step e i) as [e' calls]. cbn [fst snd] in *.
    destruct (IH e' S4 Hrest) as (IH1 & IH2 & IH3 & IH4).
    destruct (run e' rest) as [final calls']. cbn [fst snd] in *.
    rewrite pushed_buffers_app, !existsb_app, S1, S2, S3, IH1, IH2, IH3.
    auto.
Qed.

Lemma no_output_before_end_of_input_witness :
  pushed_buffers
    (snd (run (mkElement (gst_siddecfp_init []) false)
            [chain [Byte.x50; Byte.x53]; task_iteration 2048 GST_FLOW_OK;
             set_property PROP_TUNE (G_VALUE_INT 1)])) = [].
Proof.
  destruct (no_output_before_end_of_input
              (mkElement (gst_siddecfp_init []) false)
              [chain [Byte.x50; Byte.x53]; task_iteration 2048 GST_FLOW_OK;
               set_property PROP_TUNE (G_VALUE_INT 1)])
    as (Hnone & _).
  - reflexivity.
  - reflexivity.
  - exact Hnone.
Defined.

(** Building a session pushes no buffer. *)
Lemma build_pushes_nothing (env : SessionEnv) (siddecfp : GstSidDecFp) :
  pushed_buffers (snd (start_play_tune env siddecfp)) = [].
Proof.
  unfold start_play_tune.
  destruct (selectSong_ok env); [| reflexivity].
  destruct (load_ok env); [| reflexivity].
  cbn [negb].
  pose proof (negotiate_calls (negotiate_env env) siddecfp)
    as (_ & (_ & _ & _ & Hn) & _).
  destruct (siddecfp_negotiate (negotiate_env env) siddecfp)
    as [[negotiated s1] calls1].
  cbn [fst snd] in *.
  destruct negotiated; cbn [negb snd];
    [| rewrite !pushed_buffers_app, Hn; reflexivity].
  assert (Hb : pushed_buffers (snd (create_builder (builder_env env) s1))
               = []).
  { unfold create_builder, roms. cbn [emulation set_config].
    destruct (emulation s1 =? SIDDECFP_EMULATION_RESIDFP);
      [| destruct (emulation s1 =? SIDDECFP_EMULATION_RESID)];
      destruct (sidEmulation (config s1));
      destruct (status_new env.(builder_env)),
        (status_create env.(builder_env)),
        (status_filter env.(builder_env));
      cbn [negb snd set_config kernal basic chargen];
      try (destruct (kernal s1), (basic s1), (chargen s1));
      reflexivity. }
  destruct (create_builder (builder_env env) s1) as [[built s2] calls2].
  cbn [fst snd] in *.
  destruct (update_tags_quiet (tune_info env)) as ((_ & _ & _ & Ht) & _).
  destruct built; cbn [negb snd];
    rewrite !pushed_buffers_app, Hn, Hb, ?Ht; reflexivity.
Qed.

(** ** What negotiation and the builder leave alone *)

Lemma negotiate_frame (env : NegotiateEnv) (siddecfp : GstSidDecFp) :
  let result := siddecfp_negotiate env siddecfp in
  tune_len (snd (fst result)) = tune_len siddecfp
  /\ tune_buffer (snd (fst result)) = tune_buffer siddecfp
  /\ total_bytes (snd (fst result)) = total_bytes siddecfp
  /\ sidEmulation (config (snd (fst result)))
     = sidEmulation (config siddecfp)
  /\ held_roms (snd (fst result)) = held_roms siddecfp
  /\ existsb is_push_event (snd result) = fst (fst result)
  /\ (fst (fst result) = true ->
      playback (config (snd (fst result))) = 1
      \/ playback (config (snd (fst result))) = 2).
Proof.
  unfold siddecfp_negotiate, held_roms.
  destruct (allowed_caps env) as [allowed |];
    [| cbn; repeat split; try reflexivity; discriminate].
  destruct (gst_structure_get_string (nth_error allowed 0) "format")
    as [str |]; [| cbn; repeat split; try reflexivity; discriminate].
  destruct (is_GST_AUDIO_FORMAT_S16 (gst_audio_format_from_string str));
    [| cbn; repeat split; try reflexivity; discriminate].
  cbn [negb].
  destruct (gst_structure_get_int (nth_error allowed 0) "channels" 1 =? 1);
    (destruct (sticky_stream_start env) as [id |];
     [| cbn [have_group_id set_config]; destruct (have_group_id siddecfp)]);
    cbn; repeat split; try reflexivity; intros _; auto.
Qed.

Lemma create_builder_frame (env : BuilderEnv) (siddecfp : GstSidDecFp) :
  let result := create_builder env siddecfp in
  tune_len (snd (fst result)) = tune_len siddecfp
  /\ tune_buffer (snd (fst result)) = tune_buffer siddecfp
  /\ total_bytes (snd (fst result)) = total_bytes siddecfp
  /\ playback (config (snd (fst result))) = playback (config siddecfp)
  /\ frequency (config (snd (fst result))) = frequency (config siddecfp)
  /\ held_roms (snd (fst result)) = held_roms siddecfp
  /\ pushed_buffers (snd result) = []
  /\ existsb is_push_event (snd result) = false
  /\ existsb is_start_task (snd result) = false.
Proof.
  unfold create_builder, held_roms, roms. cbn [emulation set_config].
  destruct (emulation siddecfp =? SIDDECFP_EMULATION_RESIDFP);
    [| destruct (emulation siddecfp =? SIDDECFP_EMULATION_RESID)];
    destruct (sidEmulation (config siddecfp));
    destruct (status_new env), (status_create env), (status_filter env);
    cbn [negb fst snd set_config config tune_len tune_buffer total_bytes
         playback frequency set_sidEmulation kernal basic chargen];
    try (destruct (kernal siddecfp), (basic siddecfp), (chargen siddecfp));
    cbn; repeat split; reflexivity.
Qed.

Lemma session_keeps_tune (env : SessionEnv) (siddecfp : GstSidDecFp) :
  tune_len (snd (fst (start_play_tune env siddecfp))) = tune_len siddecfp
  /\ tune_buffer (snd (fst (start_play_tune env siddecfp)))
     = tune_buffer siddecfp.
Proof.
  unfold start_play_tune.
  destruct (selectSong_ok env); [| split; reflexivity].
  destruct (load_ok env); [| split; reflexivity].
  cbn [negb].
  pose proof (negotiate_frame (negotiate_env env) siddecfp)
    as (Hn1 & Hn2 & _).
  destruct (siddecfp_negotiate (negotiate_env env) siddecfp)
    as [[negotiated s1] calls1].
  cbn [fst snd] in *.
  destruct negotiated; cbn [negb]; [| split; assumption].
  pose proof (create_builder_frame (builder_env env) s1) as (Hb1 & Hb2 & _).
  destruct (create_builder (builder_env env) s1) as [[built s2] calls2].
  cbn [fst snd] in *.
  destruct built; cbn [negb fst snd set_group set_total_bytes tune_len
                       tune_buffer]; split; congruence.
Qed.

(** X12.
    A session build keeps the tune it was given: [start_play_tune] leaves
    the tune buffer and its length as they are whether it succeeds or not,
    so the chunks of a later stream are appended behind the earlier tune
    and overflow as if no session had been built. *)
Theorem session_build_keeps_tune :
  forall (env : SessionEnv) (siddecfp : GstSidDecFp),
    tune_len (snd (fst (start_play_tune env siddecfp))) = tune_len siddecfp
    /\ tune_buffer (snd (fst (start_play_tune env siddecfp)))
       = tune_buffer siddecfp
    /\ forall buffer : list Byte.byte,
         fst (fst (gst_siddecfp_chain
                     (snd (fst (start_play_tune env siddecfp))) buffer))
         = fst (fst (gst_siddecfp_chain siddecfp buffer)).
Proof.
  intros env siddecfp.
  destruct (session_keeps_tune env siddecfp) as [Hlen Hbuf].
  split; [exact Hlen |]. split; [exact Hbuf |].
  intros buffer. unfold gst_siddecfp_chain. rewrite Hlen.
  destruct (_ >? _); reflexivity.
Qed.

(** What a successful [start_play_tune] leaves behind. *)
Lemma start_play_tune_success (env : SessionEnv) (siddecfp : GstSidDecFp) :
  fst (fst (start_play_tune env siddecfp)) = true ->
  total_bytes (snd (fst (start_play_tune env siddecfp))) = 0
  /\ (playback (config (snd (fst (start_play_tune env siddecfp)))) = 1
      \/ playback (config (snd (fst (start_play_tune env siddecfp)))) = 2)
  /\ existsb is_start_task (snd (start_play_tune env siddecfp)) = true.
Proof.
  unfold start_play_tune.
  destruct (selectSong_ok env); [| discriminate].
  destruct (load_ok env); [| discriminate].
  cbn [negb].
  pose proof (negotiate_frame (negotiate_env env) siddecfp)
    as (_ & _ & _ & _ & _ & _ & Hn).
  destruct (siddecfp_negotiate (negotiate_env env) siddecfp)
    as [[negotiated s1] calls1].
  cbn [fst snd] in *.
  destruct negotiated; cbn [negb]; [| discriminate].
  pose proof (create_builder_frame (builder_env env) s1)
    as (_ & _ & _ & Hb & _).
  destruct (create_builder (builder_env env) s1) as [[built s2] calls2].
  cbn [fst snd] in *.
  destruct built; cbn [negb]; [| discriminate].
  intros _. cbn [fst snd].
  split; [reflexivity |]. split.
  - cbn [set_group set_total_bytes config]. rewrite Hb. exact (Hn eq_refl).
  - rewrite !existsb_app. cbn [existsb is_start_task].
    rewrite !orb_true_r. reflexivity.
Qed.

(** X13.
    The first buffer of a session: when [start_play_tune] succeeds on
    end-of-input, the first iteration of the task pushes a buffer with
    offset 0, whatever the downstream declared; its time stamp is 0 for a
    sample rate within 8000..48000, and 0 or none in any case. *)
Theorem first_buffer_at_zero :
  forall (env : SessionEnv) (siddecfp : GstSidDecFp) (samples : Z)
         (ret : GstFlowReturn),
    fst (fst (start_play_tune env siddecfp)) = true ->
    exists out : GstBuffer,
      pushed_buffers
        (snd (run (mkElement siddecfp false)
                [sink_event GST_EVENT_EOS env; task_iteration samples ret]))
      = [out]
      /\ GST_BUFFER_OFFSET out = 0
      /\ (GST_BUFFER_TIMESTAMP out = 0
          \/ GST_BUFFER_TIMESTAMP out = GST_CLOCK_TIME_NONE)
      /\ (8000 <= frequency
                    (config (snd (fst (start_play_tune env siddecfp))))
               <= 48000 ->
          GST_BUFFER_TIMESTAMP out = 0).
Proof.
  intros env siddecfp samples ret Hok.
  destruct (start_play_tune_success env siddecfp Hok)
    as (Hzero & Hch & Hstart).
  pose proof (build_pushes_nothing env siddecfp) as Hquiet.
  cbn [run step gst_siddecfp_sink_event decoder task_started].
  fold is_start_task.
  destruct (start_play_tune env siddecfp) as [[res s'] calls].
  cbn [fst snd] in *. subst res. rewrite Hstart.
  cbv beta iota. cbn [task_started decoder].
  destruct (play_loop_shape s' samples ret)
    as (out & Hrun & _ & Hoff & _ & Htime & _).
  rewrite Hrun. cbv beta iota. cbn [snd].
  rewrite app_nil_r, pushed_buffers_app, Hquiet.
  cbn [app pushed_buffers]. rewrite pushed_buffers_after_push.
  exists out. split; [reflexivity |].
  rewrite offset_stamp_negotiated in Hoff by (assumption || lia).
  rewrite Hzero in Hoff.
  split; [rewrite Hoff; apply Z.div_0_l; lia |].
  unfold position_time, gst_siddecfp_src_convert in Htime.
  cbn [GstFormat_eqb] in Htime. rewrite Hzero in Htime.
  change (to_guint64 (to_gint64 0)) with 0 in Htime.
  set (byterate := to_gint _) in Htime.
  assert (Hcases : GST_BUFFER_TIMESTAMP out = 0
                   \/ GST_BUFFER_TIMESTAMP out = GST_CLOCK_TIME_NONE).
  { destruct (byterate =? 0); [right; exact Htime |].
    unfold gst_util_uint64_scale_int in Htime.
    destruct (byterate <=? 0); [right; rewrite Htime; reflexivity |].
    left. rewrite Htime. reflexivity. }
  split; [exact Hcases |].
  intros Hrate. subst byterate.
  rewrite bytes_per_sample_negotiated, byterate_negotiated in Htime
    by assumption.
  destruct (Z.eqb_spec (2 * playback (config s') * frequency (config s')) 0);
    [nia |].
  unfold gst_util_uint64_scale_int in Htime.
  destruct (Z.leb_spec (2 * playback (config s') * frequency (config s')) 0);
    [nia |].
  rewrite Htime. reflexivity.
Qed.

Lemma first_buffer_at_zero_witness :
  exists out : GstBuffer,
    pushed_buffers
      (snd (run (mkElement (gst_siddecfp_init []) false)
              [sink_event GST_EVENT_EOS session_fine;
               task_iteration 2048 GST_FLOW_OK]))
    = [out]
    /\ GST_BUFFER_OFFSET out = 0
    /\ GST_BUFFER_TIMESTAMP out = 0.
Proof.
  destruct (first_buffer_at_zero session_fine (gst_siddecfp_init []) 2048
              GST_FLOW_OK)
    as (out & Hpushed & Hoff & _ & Htime).
  - reflexivity.
  - exists out. split; [exact Hpushed |]. split; [exact Hoff |].
    apply Htime. vm_compute. split; discriminate.
Defined.

(** ** Tune ingest: what is in the buffer *)

Lemma total_size_nonneg (chunks : list (list Byte.byte)) :
  0 <= total_size chunks.
Proof.
  induction chunks as [| b rest IH]; cbn; [lia |].
  fold (total_size rest). lia.
Qed.

(** Copying a chunk into the tune buffer keeps the size of the buffer and
    puts the chunk right behind what was there. *)
Lemma gst_buffer_extract_prefix (dest : list Byte.byte) (off : Z)
    (buffer : list Byte.byte) :
  0 <= off ->
  off + Z.of_nat (List.length buffer) <= Z.of_nat (List.length dest) ->
  List.length (gst_buffer_extract dest off buffer) = List.length dest
  /\ firstn (Z.to_nat (off + Z.of_nat (List.length buffer)))
       (gst_buffer_extract dest off buffer)
     = firstn (Z.to_nat off) dest ++ buffer.
Proof.
  intros Hoff Hfit. unfold gst_buffer_extract.
  assert (Hfirst : List.length (firstn (Z.to_nat off) dest) = Z.to_nat off)
    by (apply firstn_length_le; lia).
  split.
  - rewrite !length_app, Hfirst, length_skipn. lia.
  - replace (Z.to_nat (off + Z.of_nat (List.length buffer)))
      with (List.length (firstn (Z.to_nat off) dest ++ buffer))
      by (rewrite length_app, Hfirst; lia).
    rewrite app_assoc. rewrite firstn_app, firstn_all, Nat.sub_diag.
    cbn [firstn]. apply app_nil_r.
Qed.

(** X14.
    What the element hands to the tune parser is what came in: after a
    sequence of chunks that fits the capacity, the first [tune_len] bytes of
    the tune buffer are the bytes that were there followed by the chunks in
    their order, and the buffer still has its capacity. *)
Theorem ingest_concatenates_chunks :
  forall (chunks : list (list Byte.byte)) (siddecfp : GstSidDecFp),
    tune_len_ok siddecfp ->
    tune_buffer_ok siddecfp ->
    Forall in_memory chunks ->
    tune_len siddecfp + total_size chunks <= MAX_SID_TUNE_BUF_SIZE ->
    firstn (Z.to_nat (tune_len (snd (chain_all siddecfp chunks))))
      (tune_buffer (snd (chain_all siddecfp chunks)))
    = firstn (Z.to_nat (tune_len siddecfp)) (tune_buffer siddecfp)
      ++ List.concat chunks
    /\ tune_buffer_ok (snd (chain_all siddecfp chunks)).
Proof.
  induction chunks as [| buffer rest IH];
    intros siddecfp Hlen Hbuf Hmem Htotal.
  - cbn. rewrite app_nil_r. split; [reflexivity | exact Hbuf].
  - inversion Hmem as [| ? ? Hb Hrest]; subst.
    cbn [total_size fold_right] in Htotal. fold (total_size rest) in Htotal.
    pose proof (total_size_nonneg rest) as Hpos.
    cbn [chain_all]. rewrite chain_unfold by assumption.
    destruct (Z.gtb_spec (tune_len siddecfp + Z.of_nat (List.length buffer))
                MAX_SID_TUNE_BUF_SIZE) as [Hgt | Hle]; [lia |].
    unfold tune_len_ok, tune_buffer_ok in *.
    destruct (gst_buffer_extract_prefix (tune_buffer siddecfp)
                (tune_len siddecfp) buffer) as [Hsize Hprefix]; [lia | lia |].
    set (s' := set_tune siddecfp _ _).
    specialize (IH s').
    destruct (chain_all s' rest) as [rets final]. cbn [snd] in *.
    destruct IH as [IHcontent IHbuf].
    + cbn [s' set_tune tune_len]. lia.
    + cbn [s' set_tune tune_buffer]. rewrite Hsize. exact Hbuf.
    + assumption.
    + cbn [s' set_tune tune_len]. lia.
    + split; [| exact IHbuf].
      rewrite IHcontent. cbn [s' set_tune tune_len tune_buffer].
      rewrite Hprefix. cbn [List.concat]. rewrite app_assoc. reflexivity.
Qed.

Lemma ingest_concatenates_chunks_witness :
  firstn (Z.to_nat
            (tune_len
               (snd (chain_all (gst_siddecfp_init (zero_rom 32768))
                       [[Byte.x50; Byte.x53]; [Byte.x49; Byte.x44]]))))
    (tune_buffer
       (snd (chain_all (gst_siddecfp_init (zero_rom 32768))
               [[Byte.x50; Byte.x53]; [Byte.x49; Byte.x44]])))
  = firstn (Z.to_nat (tune_len (gst_siddecfp_init (zero_rom 32768))))
      (tune_buffer (gst_siddecfp_init (zero_rom 32768)))
    ++ List.concat [[Byte.x50; Byte.x53]; [Byte.x49; Byte.x44]].
Proof.
  apply (ingest_concatenates_chunks
           [[Byte.x50; Byte.x53]; [Byte.x49; Byte.x44]]
           (gst_siddecfp_init (zero_rom 32768))).
  - unfold tune_len_ok. cbn. lia.
  - vm_compute. reflexivity.
  - repeat constructor; unfold in_memory; cbn; lia.
  - cbn. lia.
Defined.

(** X15.
    The length of the tune never exceeds the capacity, and the tune buffer
    keeps its size: both hold after every input (chunks, events including
    end-of-input, property assignments, runs of the task) if they hold
    before. *)
Theorem tune_within_capacity_invariant :
  forall (inputs : list Input) (e : Element),
    tune_len_ok (decoder e) ->
    tune_buffer_ok (decoder e) ->
    Forall chunks_in_memory inputs ->
    tune_len_ok (decoder (fst (run e inputs)))
    /\ tune_buffer_ok (decoder (fst (run e inputs))).
Proof.
  induction inputs as [| i rest IH]; intros e Hlen Hbuf Hmem.
  - cbn. split; assumption.
  - inversion Hmem as [| ? ? Hi Hrest]; subst.
    assert (Hstep : tune_len_ok (decoder (fst (step e i)))
                    /\ tune_buffer_ok (decoder (fst (step e i)))).
    { destruct i as [buffer | event env | samples ret | prop_id value].
      - cbn [chunks_in_memory] in Hi. cbn [step].
        rewrite chain_unfold by assumption.
        unfold tune_len_ok, tune_buffer_ok in *.
        destruct (Z.gtb_spec
                    (tune_len (decoder e) + Z.of_nat (List.length buffer))
                    MAX_SID_TUNE_BUF_SIZE) as [Hgt | Hle];
          cbn [fst decoder]; [split; assumption |].
        cbn [set_tune tune_len tune_buffer].
        destruct (gst_buffer_extract_prefix (tune_buffer (decoder e))
                    (tune_len (decoder e)) buffer) as [Hsize _];
          [lia | lia |].
        rewrite Hsize. split; [lia | exact Hbuf].
      - destruct event; [| split; assumption | split; assumption].
        cbn [step gst_siddecfp_sink_event].
        destruct (session_keeps_tune env (decoder e)) as [H1 H2].
        destruct (start_play_tune env (decoder e)) as [[res s'] calls].
        cbn [fst snd decoder] in *.
        unfold tune_len_ok, tune_buffer_ok in *. rewrite H1, H2.
        split; assumption.
      - cbn [step]. destruct (task_started e); [| split; assumption].
        destruct (play_loop_shape (decoder e) samples ret)
          as (out & Hrun & _).
        rewrite Hrun. cbn [fst decoder]. split; assumption.
      - cbn [step].
        pose proof (set_property_frame (decoder e) prop_id value)
          as (_ & H1 & H2 & _).
        destruct (gst_siddecfp_set_property (decoder e) prop_id value)
          as [s' calls].
        cbn [fst snd decoder] in *.
        unfold tune_len_ok, tune_buffer_ok in *. rewrite H1, H2.
        split; assumption. }
    destruct Hstep as [Hlen' Hbuf'].
    cbn [run]. destruct (step e i) as [e' calls]. cbn [fst] in *.
    specialize (IH e' Hlen' Hbuf' Hrest).
    destruct (run e' rest) as [final calls']. exact IH.
Qed.

Lemma tune_within_capacity_invariant_witness :
  tune_len_ok
    (decoder
       (fst (run (mkElement (gst_siddecfp_init (zero_rom 32768)) false)
               [chain [Byte.x50; Byte.x53];
                sink_event GST_EVENT_EOS session_fine;
                task_iteration 2048 GST_FLOW_OK;
                chain (zero_rom 32768)]))).
Proof.
  destruct (tune_within_capacity_invariant
              [chain [Byte.x50; Byte.x53];
               sink_event GST_EVENT_EOS session_fine;
               task_iteration 2048 GST_FLOW_OK;
               chain (zero_rom 32768)]
              (mkElement (gst_siddecfp_init (zero_rom 32768)) false))
    as [Hlen _].
  - unfold tune_len_ok. cbn. lia.
  - vm_compute. reflexivity.
  - repeat constructor; unfold chunks_in_memory, in_memory;
      vm_compute; discriminate.
  - exact Hlen.
Defined.

(** ** Negotiation beyond the declared ranges *)

(** X16.
    Whatever the first candidate declares, a successful negotiation stores
    mono or stereo, stereo for every declared channel count other than 1
    (0 and 6 included), and the declared rate reduced to 32 bits; bytes can
    then always be converted to samples. *)
Theorem negotiation_stores_mono_or_stereo :
  forall (env : NegotiateEnv) (siddecfp : GstSidDecFp),
    fst (fst (siddecfp_negotiate env siddecfp)) = true ->
    playback (config (snd (fst (siddecfp_negotiate env siddecfp))))
    = match declared_int (first_candidate env) "channels" with
      | Some channels => if channels =? 1 then MONO else STEREO
      | None => MONO
      end
    /\ frequency (config (snd (fst (siddecfp_negotiate env siddecfp))))
       = match declared_int (first_candidate env) "rate" with
         | Some rate => to_guint rate
         | None => 44100
         end
    /\ forall value : Z,
         gst_siddecfp_src_convert (snd (fst (siddecfp_negotiate env siddecfp)))
           GST_FORMAT_BYTES value GST_FORMAT_DEFAULT
         <> None.
Proof.
  intros env siddecfp Hok.
  pose proof (negotiate_frame env siddecfp) as (_ & _ & _ & _ & _ & _ & Hch).
  specialize (Hch Hok).
  split; [| split].
  - revert Hok. unfold siddecfp_negotiate, first_candidate.
    destruct (allowed_caps env) as [allowed |]; [| discriminate].
    destruct (gst_structure_get_string (nth_error allowed 0) "format")
      as [str |]; [| discriminate].
    destruct (is_GST_AUDIO_FORMAT_S16 (gst_audio_format_from_string str));
      [| discriminate].
    intros _. cbn [negb]. rewrite !get_int_declared.
    destruct (declared_int (nth_error allowed 0) "channels") as [ch |];
      (destruct (sticky_stream_start env) as [id |];
       [| cbn [have_group_id set_config];
          destruct (have_group_id siddecfp)]);
      reflexivity.
  - revert Hok. unfold siddecfp_negotiate, first_candidate.
    destruct (allowed_caps env) as [allowed |]; [| discriminate].
    destruct (gst_structure_get_string (nth_error allowed 0) "format")
      as [str |]; [| discriminate].
    destruct (is_GST_AUDIO_FORMAT_S16 (gst_audio_format_from_string str));
      [| discriminate].
    intros _. cbn [negb]. rewrite !get_int_declared.
    destruct (declared_int (nth_error allowed 0) "rate") as [rate |];
      (destruct (sticky_stream_start env) as [id |];
       [| cbn [have_group_id set_config];
          destruct (have_group_id siddecfp)]);
      reflexivity.
  - intros value. rewrite convert_bytes_to_samples by exact Hch.
    discriminate.
Qed.

Lemma negotiation_stores_mono_or_stereo_witness :
  playback
    (config (snd (fst (siddecfp_negotiate six_channels
                         (gst_siddecfp_init [])))))
  = STEREO.
Proof.
  destruct (negotiation_stores_mono_or_stereo six_channels
              (gst_siddecfp_init [])) as (Hch & _).
  - reflexivity.
  - exact Hch.
Defined.

(** X17.
    Negotiation sends one stream-start event when it succeeds and none when
    it fails.  The event carries the group id of the upstream stream-start
    event if there is one (none if that has none); otherwise it always
    carries a group id: the one the element holds, or a fresh one. *)
Theorem negotiation_stream_start_group :
  forall (env : NegotiateEnv) (siddecfp : GstSidDecFp),
    stream_start_groups (snd (siddecfp_negotiate env siddecfp))
    = if fst (fst (siddecfp_negotiate env siddecfp))
      then
        [match sticky_stream_start env with
         | Some id => if id =? 0 then None else Some (to_guint id)
         | None =>
             Some (if have_group_id siddecfp then group_id siddecfp
                   else to_guint (group_id_next env))
         end]
      else [].
Proof.
  intros env siddecfp. unfold siddecfp_negotiate.
  destruct (allowed_caps env) as [allowed |]; [| reflexivity].
  destruct (gst_structure_get_string (nth_error allowed 0) "format")
    as [str |]; [| reflexivity].
  destruct (is_GST_AUDIO_FORMAT_S16 (gst_audio_format_from_string str));
    [| reflexivity].
  cbn [negb].
  destruct (sticky_stream_start env) as [id |].
  - destruct (id =? 0); reflexivity.
  - cbn [have_group_id set_config].
    destruct (have_group_id siddecfp) eqn:Hhave.
    + cbn [fst snd stream_start_groups negb have_group_id set_config
           group_id].
      rewrite Hhave. reflexivity.
    + reflexivity.
Qed.

(** ** The builder *)

(** X18.
    [create_builder] succeeds exactly when the emulation is one of the two
    and the builder reports a good status after each of its three steps.
    When it fails no builder is installed, not even the one that was there
    before; when it succeeds the builder installed carries the element's
    filter curves (ReSIDfp) or filter bias (ReSID). *)
Theorem create_builder_succeeds_exactly :
  forall (env : BuilderEnv) (siddecfp : GstSidDecFp),
    (fst (fst (create_builder env siddecfp)) = true
     <-> emulation_valid siddecfp
         /\ status_new env = true
         /\ status_create env = true
         /\ status_filter env = true)
    /\ (fst (fst (create_builder env siddecfp)) = false ->
        sidEmulation (config (snd (fst (create_builder env siddecfp))))
        = None)
    /\ (fst (fst (create_builder env siddecfp)) = true ->
        sidEmulation (config (snd (fst (create_builder env siddecfp))))
        = Some (if emulation siddecfp =? SIDDECFP_EMULATION_RESIDFP
                then ReSIDfpBuilder (filter_curve_6581 siddecfp)
                       (filter_curve_8580 siddecfp)
                else ReSIDBuilder (filter_bias siddecfp))).
Proof.
  intros env siddecfp. unfold create_builder, emulation_valid.
  cbn [emulation set_config filter_curve_6581 filter_curve_8580 filter_bias].
  unfold SIDDECFP_EMULATION_RESIDFP, SIDDECFP_EMULATION_RESID.
  destruct (Z.eqb_spec (emulation siddecfp) 0) as [E0 | N0];
    [| destruct (Z.eqb_spec (emulation siddecfp) 1) as [E1 | N1]];
    destruct (status_new env), (status_create env), (status_filter env);
    cbn [negb fst snd config set_config sidEmulation set_sidEmulation];
    (split; [split; [intros H; try discriminate H; auto
                    | intros (Hv & H1 & H2 & H3);
                      try discriminate; try reflexivity;
                      destruct Hv; contradiction]
            | split; [intros H; try discriminate H; reflexivity
                     | intros H; try discriminate H; reflexivity]]).
Qed.

(** X19.
    The ROMs the element holds are handed to the player exactly when the
    builder succeeds: kernal, basic, chargen in this order, those that are
    there; a failed builder hands over none. *)
Theorem roms_handed_over_on_success :
  forall (env : BuilderEnv) (siddecfp : GstSidDecFp),
    List.filter is_rom_call (snd (create_builder env siddecfp))
    = if fst (fst (create_builder env siddecfp))
      then
        option_list (option_map player_setKernal (kernal siddecfp))
        ++ option_list (option_map player_setBasic (basic siddecfp))
        ++ option_list (option_map player_setChargen (chargen siddecfp))
      else [].
Proof.
  intros env siddecfp. unfold create_builder, roms.
  cbn [emulation set_config].
  destruct (emulation siddecfp =? SIDDECFP_EMULATION_RESIDFP);
    [| destruct (emulation siddecfp =? SIDDECFP_EMULATION_RESID)];
    destruct (sidEmulation (config siddecfp));
    destruct (status_new env), (status_create env), (status_filter env);
    cbn [negb fst snd set_config kernal basic chargen];
    try reflexivity;
    destruct (kernal siddecfp), (basic siddecfp), (chargen siddecfp);
    reflexivity.
Qed.

(** ** The filter property *)

Lemma negotiate_with_filter (env : NegotiateEnv) (siddecfp : GstSidDecFp)
    (v : bool) :
  siddecfp_negotiate env (with_filter siddecfp v)
  = let '(ok, siddecfp', calls) := siddecfp_negotiate env siddecfp in
    (ok, with_filter siddecfp' v, calls).
Proof.
  unfold siddecfp_negotiate.
  destruct (allowed_caps env) as [allowed |]; [| reflexivity].
  destruct (gst_structure_get_string (nth_error allowed 0) "format")
    as [str |]; [| reflexivity].
  destruct (is_GST_AUDIO_FORMAT_S16 (gst_audio_format_from_string str));
    [| reflexivity].
  cbn [negb].
  destruct (sticky_stream_start env) as [id |]; [reflexivity |].
  cbn [have_group_id set_config with_filter].
  destruct (have_group_id siddecfp); reflexivity.
Qed.

Lemma create_builder_with_filter (env : BuilderEnv) (siddecfp : GstSidDecFp)
    (v : bool) :
  create_builder env (with_filter siddecfp v)
  = let '(ok, siddecfp', calls) := create_builder env siddecfp in
    (ok, with_filter siddecfp' v, calls).
Proof.
  unfold create_builder. cbn [emulation set_config with_filter].
  destruct (emulation siddecfp =? SIDDECFP_EMULATION_RESIDFP);
    [| destruct (emulation siddecfp =? SIDDECFP_EMULATION_RESID)];
    destruct (status_new env), (status_create env), (status_filter env);
    reflexivity.
Qed.

(** X20.
    The filter property has no effect on a session: after it is assigned,
    [start_play_tune] gives the same result and makes the same calls as
    before, and the builder's filter is switched off in every case. *)
Theorem filter_property_without_effect :
  forall (env : SessionEnv) (siddecfp : GstSidDecFp) (v : bool),
    fst (gst_siddecfp_set_property siddecfp PROP_FILTER (G_VALUE_BOOLEAN v))
    = with_filter siddecfp v
    /\ fst (fst (start_play_tune env (with_filter siddecfp v)))
       = fst (fst (start_play_tune env siddecfp))
    /\ snd (start_play_tune env (with_filter siddecfp v))
       = snd (start_play_tune env siddecfp)
    /\ ~ In (builder_filter true) (snd (start_play_tune env siddecfp)).
Proof.
  intros env siddecfp v.
  split; [reflexivity |].
  assert (Hsame :
    start_play_tune env (with_filter siddecfp v)
    = let '(res, siddecfp', calls) := start_play_tune env siddecfp in
      (res, with_filter siddecfp' v, calls)).
  { unfold start_play_tune.
    destruct (selectSong_ok env); [| reflexivity].
    destruct (load_ok env); [| reflexivity].
    cbn [negb]. rewrite negotiate_with_filter.
    destruct (siddecfp_negotiate (negotiate_env env) siddecfp)
      as [[negotiated s1] calls1].
    destruct negotiated; cbn [negb]; [| reflexivity].
    rewrite create_builder_with_filter.
    destruct (create_builder (builder_env env) s1) as [[built s2] calls2].
    destruct built; reflexivity. }
  rewrite Hsame.
  split; [| split].
  - destruct (start_play_tune env siddecfp) as [[res s'] calls]. reflexivity.
  - destruct (start_play_tune env siddecfp) as [[res s'] calls]. reflexivity.
  - unfold start_play_tune.
    destruct (selectSong_ok env);
      [| cbn; intros [H | [H | [H | []]]]; discriminate].
    destruct (load_ok env);
      [| cbn; intros [H | [H | [H | [H | []]]]]; discriminate].
    cbn [negb].
    assert (Hn : ~ In (builder_filter true)
                   (snd (siddecfp_negotiate (negotiate_env env) siddecfp))).
    { unfold siddecfp_negotiate.
      destruct (allowed_caps (negotiate_env env)) as [allowed |];
        [| cbn; intros [H | []]; discriminate].
      destruct (gst_structure_get_string (nth_error allowed 0) "format")
        as [str |]; [| cbn; intros [H | []]; discriminate].
      destruct (is_GST_AUDIO_FORMAT_S16 (gst_audio_format_from_string str));
        [| cbn; intros [H | []]; discriminate].
      cbn. intros [H | [H | [H | [H | []]]]]; discriminate. }
    destruct (siddecfp_negotiate (negotiate_env env) siddecfp)
      as [[negotiated s1] calls1].
    cbn [snd] in Hn.
    assert (Hb : ~ In (builder_filter true)
                   (snd (create_builder (builder_env env) s1))).
    { unfold create_builder, roms. cbn [emulation set_config].
      destruct (emulation s1 =? SIDDECFP_EMULATION_RESIDFP);
        [| destruct (emulation s1 =? SIDDECFP_EMULATION_RESID)];
        destruct (sidEmulation (config s1));
        destruct (status_new (builder_env env)),
          (status_create (builder_env env)),
          (status_filter (builder_env env));
        cbn [negb snd set_config kernal basic chargen];
        try (destruct (kernal s1), (basic s1), (chargen s1));
        cbn; intuition discriminate. }
    destruct negotiated; cbn [negb snd].
    + destruct (create_builder (builder_env env) s1) as [[built s2] calls2].
      cbn [snd] in Hb.
      destruct (tune_info env) as [strings |];
        destruct built; cbn [negb snd update_tags];
        rewrite !in_app_iff; cbn [In]; intuition discriminate.
    + rewrite !in_app_iff. cbn [In]. intuition discriminate.
Qed.

(** ** Properties as variables *)

(** X21.
    Reading a property after assigning it gives the value assigned, for
    each of the fourteen properties that can be both written and read. *)
Theorem get_property_after_set :
  forall (siddecfp : GstSidDecFp) (songs : option Z) (prop_id : PropId)
         (value : GValue),
    value_of_property prop_id value = true ->
    fst (gst_siddecfp_get_property
           (fst (gst_siddecfp_set_property siddecfp prop_id value))
           songs prop_id)
    = Some value.
Proof.
  intros siddecfp songs prop_id value Htype.
  destruct prop_id, value; try discriminate Htype; reflexivity.
Qed.

Lemma get_property_after_set_witness :
  fst (gst_siddecfp_get_property
         (fst (gst_siddecfp_set_property (gst_siddecfp_init [])
                 PROP_BLOCKSIZE (G_VALUE_UINT 8192)))
         None PROP_BLOCKSIZE)
  = Some (G_VALUE_UINT 8192).
Proof.
  apply (get_property_after_set (gst_siddecfp_init []) None PROP_BLOCKSIZE
           (G_VALUE_UINT 8192)).
  reflexivity.
Defined.

(** X22.
    Assigning one property, a ROM included, changes what no other property
    reads as; an assignment under an id that cannot be written changes none
    at all. *)
Theorem set_property_leaves_others :
  forall (siddecfp : GstSidDecFp) (songs : option Z) (prop_id other : PropId)
         (value : GValue),
    PropId_eqb prop_id other = false ->
    fst (gst_siddecfp_get_property
           (fst (gst_siddecfp_set_property siddecfp prop_id value))
           songs other)
    = fst (gst_siddecfp_get_property siddecfp songs other).
Proof.
  intros siddecfp songs prop_id other value Hother.
  unfold gst_siddecfp_set_property.
  destruct prop_id;
    try (destruct (copy_byte_array _ (g_value_get_boxed value) _));
    destruct other; try discriminate Hother; reflexivity.
Qed.

Lemma set_property_leaves_others_witness :
  fst (gst_siddecfp_get_property
         (fst (gst_siddecfp_set_property (gst_siddecfp_init [])
                 PROP_KERNAL (G_VALUE_BOXED (Some [Byte.x00]))))
         None PROP_BLOCKSIZE)
  = fst (gst_siddecfp_get_property (gst_siddecfp_init []) None
           PROP_BLOCKSIZE).
Proof.
  apply (set_property_leaves_others (gst_siddecfp_init []) None PROP_KERNAL
           PROP_BLOCKSIZE).
  reflexivity.
Defined.

Lemma convert_depends_on_format (s1 s2 : GstSidDecFp)
    (src_format : GstFormat) (src_value : Z) (dest_format : GstFormat) :
  playback (config s1) = playback (config s2) ->
  frequency (config s1) = frequency (config s2) ->
  gst_siddecfp_src_convert s1 src_format src_value dest_format
  = gst_siddecfp_src_convert s2 src_format src_value dest_format.
Proof.
  intros Hp Hf. unfold gst_siddecfp_src_convert. rewrite Hp, Hf.
  reflexivity.
Qed.

(** X23.
    No property assignment touches the stream: whatever property is
    assigned whatever value, also in the middle of a session, every
    conversion and every position query is answered as before. *)
Theorem set_property_keeps_position :
  forall (siddecfp : GstSidDecFp) (prop_id : PropId) (value : GValue),
    (forall (src dest : GstFormat) (v : Z),
        gst_siddecfp_src_convert
          (fst (gst_siddecfp_set_property siddecfp prop_id value)) src v dest
        = gst_siddecfp_src_convert siddecfp src v dest)
    /\ (forall (query : GstQuery) (default_res : bool),
           gst_siddecfp_src_query
             (fst (gst_siddecfp_set_property siddecfp prop_id value))
             query default_res
           = gst_siddecfp_src_query siddecfp query default_res).
Proof.
  intros siddecfp prop_id value.
  pose proof (set_property_frame siddecfp prop_id value)
    as (Htotal & _ & _ & Hp & Hf & _).
  cbv zeta in *.
  assert (Hconvert : forall (src dest : GstFormat) (v : Z),
             gst_siddecfp_src_convert
               (fst (gst_siddecfp_set_property siddecfp prop_id value))
               src v dest
             = gst_siddecfp_src_convert siddecfp src v dest).
  { intros src dest v. apply convert_depends_on_format; assumption. }
  split; [exact Hconvert |].
  intros [format |] default_res; [| reflexivity].
  unfold gst_siddecfp_src_query. rewrite Htotal, Hconvert. reflexivity.
Qed.

(** ** ROM arrays are released exactly once *)

Lemma freed_app (calls calls' : list Action) :
  freed (calls ++ calls') = freed calls ++ freed calls'.
Proof.
  induction calls as [| a calls IH]; [reflexivity |].
  destruct a; cbn [app freed]; rewrite IH; reflexivity.
Qed.

Lemma finalize_releases_held (siddecfp : GstSidDecFp) :
  released_arrays (gst_siddecfp_finalize siddecfp) = held_roms siddecfp.
Proof.
  unfold gst_siddecfp_finalize, held_roms.
  destruct (kernal siddecfp), (basic siddecfp), (chargen siddecfp),
    (sidEmulation (config siddecfp)); reflexivity.
Qed.

Lemma replace_slot_permutation {A : Type} (F N X Y : list A) :
  Permutation (F ++ X ++ N ++ Y) ((X ++ F ++ Y) ++ N).
Proof.
  rewrite <- !app_assoc.
  eapply Permutation_trans; [apply Permutation_app_swap_app |].
  apply Permutation_app_head, Permutation_app_head, Permutation_app_comm.
Qed.

Lemma freed_copy_byte_array (old src : option GByteArray) (expected : Z) :
  copy_byte_array old src expected
  = (rom_of_size src expected,
     match old with Some a => [g_byte_array_free a] | None => [] end).
Proof.
  unfold copy_byte_array, rom_of_size.
  destruct src as [data |]; [| reflexivity].
  destruct (Z.of_nat (List.length data) =? expected); reflexivity.
Qed.

(** One assignment: what it frees and what the element holds afterwards is
    what it held before and what the assignment copied. *)
Lemma set_property_roms (siddecfp : GstSidDecFp) (prop_id : PropId)
    (value : GValue) :
  Permutation
    (freed (snd (gst_siddecfp_set_property siddecfp prop_id value))
     ++ held_roms (fst (gst_siddecfp_set_property siddecfp prop_id value)))
    (held_roms siddecfp ++ copied (prop_id, value)).
Proof.
  unfold gst_siddecfp_set_property, copied.
  destruct prop_id; cbn [fst snd];
    try (cbn; rewrite app_nil_r; apply Permutation_refl).
  - (* kernal *)
    rewrite freed_copy_byte_array. cbn [fst snd]. rewrite freed_app.
    unfold held_roms. cbn [kernal basic chargen freed].
    rewrite app_nil_r.
    replace (freed match kernal siddecfp with
                   | Some a => [g_byte_array_free a]
                   | None => []
                   end)
      with (option_list (kernal siddecfp))
      by (destruct (kernal siddecfp); reflexivity).
    apply (replace_slot_permutation (option_list (kernal siddecfp))
             (option_list (rom_of_size (g_value_get_boxed value) 8192)) []).
  - (* basic *)
    rewrite freed_copy_byte_array. cbn [fst snd]. rewrite freed_app.
    unfold held_roms. cbn [kernal basic chargen freed].
    rewrite app_nil_r.
    replace (freed match basic siddecfp with
                   | Some a => [g_byte_array_free a]
                   | None => []
                   end)
      with (option_list (basic siddecfp))
      by (destruct (basic siddecfp); reflexivity).
    apply (replace_slot_permutation (option_list (basic siddecfp))
             (option_list (rom_of_size (g_value_get_boxed value) 8192))
             (option_list (kernal siddecfp))).
  - (* chargen *)
    rewrite freed_copy_byte_array. cbn [fst snd]. rewrite freed_app.
    unfold held_roms. cbn [kernal basic chargen freed].
    rewrite app_nil_r.
    replace (freed match chargen siddecfp with
                   | Some a => [g_byte_array_free a]
                   | None => []
                   end)
      with (option_list (chargen siddecfp))
      by (destruct (chargen siddecfp); reflexivity).
    pose proof (replace_slot_permutation (option_list (chargen siddecfp))
                  (option_list (rom_of_size (g_value_get_boxed value) 4096))
                  (option_list (kernal siddecfp)
                   ++ option_list (basic siddecfp)) []) as H.
    rewrite !app_nil_r in H. rewrite <- !app_assoc in H.
    rewrite <- !app_assoc. exact H.
Qed.

(** X24.
    No ROM array leaks and none is freed twice: over any sequence of
    property assignments followed by finalizing the element, the arrays
    freed are, each as often as it occurs, the ROM arrays the element held
    at the start and the copies the assignments made. *)
Theorem rom_arrays_freed_exactly_once :
  forall (assignments : list (PropId * GValue)) (siddecfp : GstSidDecFp),
    Permutation
      (freed (snd (set_properties siddecfp assignments))
       ++ released_arrays
            (gst_siddecfp_finalize
               (fst (set_properties siddecfp assignments))))
      (held_roms siddecfp ++ flat_map copied assignments).
Proof.
  intros assignments siddecfp. rewrite finalize_releases_held.
  revert siddecfp.
  induction assignments as [| [prop_id value] rest IH]; intros siddecfp.
  - cbn. rewrite app_nil_r. apply Permutation_refl.
  - cbn [set_properties flat_map].
    pose proof (set_property_roms siddecfp prop_id value) as Hstep.
    destruct (gst_siddecfp_set_property siddecfp prop_id value)
      as [s1 calls1].
    cbn [fst snd] in Hstep.
    specialize (IH s1).
    destruct (set_properties s1 rest) as [final calls']. cbn [fst snd] in *.
    rewrite freed_app, <- app_assoc.
    eapply Permutation_trans;
      [apply Permutation_app_head; exact IH |].
    rewrite !app_assoc. apply Permutation_app_tail. exact Hstep.
Qed.

(** ** Tags *)

(** X25.
    Tags come from the first three info strings only: a fourth and later
    ones change nothing, at most three tags are announced, and with a tune
    info there is one tag event even if it carries no tag. *)
Theorem tags_from_first_three_strings :
  forall strings extra : list (option string),
    (3 <= List.length strings)%nat ->
    update_tags (Some (strings ++ extra)) = update_tags (Some strings)
    /\ (List.length (announced_tags (update_tags (Some (strings ++ extra))))
        <= 3)%nat
    /\ List.length (update_tags (Some (strings ++ extra))) = 1%nat.
Proof.
  intros strings extra Hlen.
  destruct strings as [| s0 [| s1 [| s2 rest]]]; cbn in Hlen; try lia.
  split; [reflexivity |]. split; [| reflexivity].
  destruct s0, s1, s2; cbn; lia.
Qed.

Lemma tags_from_first_three_strings_witness :
  update_tags (Some ([Some "Delta"; None; Some "1987 Thalamus"]
                     ++ [Some "ignored"]))
  = update_tags (Some [Some "Delta"; None; Some "1987 Thalamus"]).
Proof.
  apply (tags_from_first_three_strings
           [Some "Delta"; None; Some "1987 Thalamus"] [Some "ignored"]).
  cbn. lia.
Defined.

(** ** The playback application *)

Lemma read_loop_all (reads : list (list Byte.byte)) :
  forall a : GByteArray,
    Forall (fun bytes => bytes <> []) reads ->
    read_loop reads a = a ++ file_content reads.
Proof.
  induction reads as [| bytes rest IH]; intros a Hreads.
  - cbn. rewrite app_nil_r. reflexivity.
  - inversion Hreads as [| ? ? Hbytes Hrest]; subst.
    destruct bytes as [| b bytes]; [contradiction |].
    cbn [read_loop]. rewrite (IH _ Hrest).
    unfold file_content. cbn [List.concat]. rewrite app_assoc. reflexivity.
Qed.

Lemma load_rom_size (files : Files) (name : option string) (rom_size : Z)
    (a : GByteArray) :
  _load_rom files name rom_size = Some a ->
  Z.of_nat (List.length a) = rom_size.
Proof.
  unfold _load_rom.
  destruct name as [name |]; [| discriminate].
  destruct (files name) as [reads |]; [| discriminate].
  destruct (rom_size =? 0); [discriminate |].
  destruct (Z.eqb_spec (Z.of_nat (List.length (read_loop reads []))) rom_size)
    as [E | N]; [| discriminate].
  intros [= <-]. exact E.
Qed.

(** X26.
    A ROM file is loaded whole or not at all: however its bytes are spread
    over the reads, [_load_rom] gives the content of the file if that has
    exactly the size asked for, and nothing if it is shorter or longer, if
    the size asked for is 0, if the file cannot be opened or no name is
    given. *)
Theorem load_rom_whole_or_nothing :
  forall (files : Files) (name : string) (rom_size : Z)
         (reads : list (list Byte.byte)),
    files name = Some reads ->
    Forall (fun bytes => bytes <> []) reads ->
    _load_rom files (Some name) rom_size
    = (if (Z.of_nat (List.length (file_content reads)) =? rom_size)
          && negb (rom_size =? 0)
       then Some (file_content reads)
       else None)
    /\ _load_rom files None rom_size = None
    /\ (forall missing : string,
           files missing = None ->
           _load_rom files (Some missing) rom_size = None).
Proof.
  intros files name rom_size reads Hfile Hreads.
  split; [| split].
  - unfold _load_rom. rewrite Hfile.
    rewrite (read_loop_all reads [] Hreads). cbn [app].
    destruct (rom_size =? 0); [rewrite andb_false_r; reflexivity |].
    destruct (Z.of_nat (List.length (file_content reads)) =? rom_size);
      reflexivity.
  - reflexivity.
  - intros missing Hmissing. unfold _load_rom. rewrite Hmissing.
    reflexivity.
Qed.

Lemma load_rom_whole_or_nothing_witness :
  _load_rom sample_files (Some "kernal.bin") KERNAL_SIZE
  = Some (file_content [zero_rom 4096; zero_rom 4096]).
Proof.
  destruct (load_rom_whole_or_nothing sample_files "kernal.bin" KERNAL_SIZE
              [zero_rom 4096; zero_rom 4096]) as (Hload & _).
  - reflexivity.
  - repeat constructor; vm_compute; discriminate.
  - rewrite Hload. vm_compute. reflexivity.
Defined.

Lemma set_rom_from_file (siddecfp : GstSidDecFp) (files : Files)
    (name : option string) (rom_size : Z) :
  rom_of_size (_load_rom files name rom_size) rom_size
  = _load_rom files name rom_size.
Proof.
  unfold rom_of_size.
  destruct (_load_rom files name rom_size) as [a |] eqn:Hload;
    [| reflexivity].
  rewrite (load_rom_size files name rom_size a Hload), Z.eqb_refl.
  reflexivity.
Qed.

(** X27.
    When an element named siddecfp... is added, each of its three ROMs
    becomes what [_load_rom] got from basic.bin, kernal.bin and chargen.bin:
    the element never refuses a ROM the application loaded, and a file that
    is missing or of the wrong size clears the ROM held before.  Elements
    of other names are left alone. *)
Theorem on_element_added_sets_roms :
  forall (files : Files) (name : string) (siddecfp : GstSidDecFp),
    (String.prefix "siddecfp" name = true ->
     kernal (fst (_on_element_added files name siddecfp))
     = _load_rom files (Some "kernal.bin") KERNAL_SIZE
     /\ basic (fst (_on_element_added files name siddecfp))
        = _load_rom files (Some "basic.bin") BASIC_SIZE
     /\ chargen (fst (_on_element_added files name siddecfp))
        = _load_rom files (Some "chargen.bin") CHARGEN_SIZE)
    /\ (String.prefix "siddecfp" name = false ->
        _on_element_added files name siddecfp = (siddecfp, [])).
Proof.
  intros files name siddecfp. unfold _on_element_added.
  split; intros Hname; rewrite Hname; [| reflexivity].
  unfold gst_siddecfp_set_property. cbn [g_value_get_boxed].
  rewrite !freed_copy_byte_array.
  cbn [fst snd kernal basic chargen].
  change 8192 with KERNAL_SIZE at 2. change 8192 with BASIC_SIZE at 1.
  change 4096 with CHARGEN_SIZE at 1.
  rewrite !(set_rom_from_file siddecfp). repeat split; reflexivity.
Qed.

Lemma on_element_added_sets_roms_witness :
  kernal (fst (_on_element_added sample_files "siddecfp0" kernal_stored))
  = _load_rom sample_files (Some "kernal.bin") KERNAL_SIZE
  /\ basic (fst (_on_element_added sample_files "siddecfp0" kernal_stored))
     = _load_rom sample_files (Some "basic.bin") BASIC_SIZE.
Proof.
  destruct (on_element_added_sets_roms sample_files "siddecfp0"
              kernal_stored) as (Hset & _).
  destruct Hset as (Hkernal & Hbasic & _).
  - reflexivity.
  - split; [exact Hkernal | exact Hbasic].
Defined.
